(** * New_Fetch: the article enrichment pipeline

    A shallow embedding of [news_fetcher.py] and [ai_processor.py]:
    the search-service adapter [fetch_news], the enrichment engine
    [analyze_article] with its regular-expression parsing of the model's
    reply, and the batch orchestrator [batch_analyze_articles].

    Python [str] values are sequences of Unicode code points.  The ASCII
    part of every character table is written out; what the interpreter's
    Unicode database says beyond ASCII is a field of [runtime], so every
    theorem holds whatever those tables contain. *)

From Stdlib Require Import ZArith NArith List String Ascii Bool Lia Sorted.
From Stdlib Require Floats Uint63.
From stdpp Require Import base option list countable gmap.

Set Warnings "-register-all".
Local Open Scope N_scope.

(** ** Text *)

(** A [str] is a list of code points. *)
Abbreviation pystr := (list N).

(** An ASCII literal of the source as a list of code points. *)
Definition py (s : string) : pystr :=
  List.map N_of_ascii (list_ascii_of_string s).
Arguments py s%_string : simpl never.

Definition nl : pystr := [10].

(** ** Values *)

Inductive float_val :=
| FFinite (m e : Z)
| FInf (negative : bool)
| FNaN.

(** What [response.json()] can produce, and what a dict can hold. *)
Inductive pyval :=
| PNone
| PBool (b : bool)
| PInt (n : Z)
| PFloat (f : float_val)
| PStr (s : pystr)
| PList (l : list pyval)
| PDict (d : gmap pystr pyval).

Abbreviation pydict := (gmap pystr pyval).

(** Exceptions, by the classes the handlers of the source tell apart.
    All of them derive from [Exception]. *)
Inductive exn :=
| KeyError
| TypeError
| AttributeError
| ValueError
| Timeout                 (* requests.exceptions.Timeout *)
| RequestException        (* any other requests.exceptions.RequestException *)
| Failure (tag : pystr).  (* any other Exception of a collaborator *)

Inductive res (A : Type) :=
| Ret (a : A)
| Raise (e : exn).
Arguments Ret {A} a.
Arguments Raise {A} e.

(** ** Exceptions and the diagnostic channel *)

Definition res_bind {A B} (m : res A) (k : A -> res B) : res B :=
  match m with
  | Ret a => k a
  | Raise e => Raise e
  end.

#[export] Instance res_mret : MRet res := fun _ a => Ret a.
#[export] Instance res_mbind : MBind res := fun _ _ k m => res_bind m k.

(** [st.error] and [st.warning] append to the page; the page is the
    state the functions thread through. *)
Inductive diagnostic :=
| StError (msg : pystr)
| StWarning (msg : pystr).

Definition M (A : Type) : Type := list diagnostic -> res A * list diagnostic.

Definition M_ret {A} (a : A) : M A := fun page => (Ret a, page).

Definition M_bind {A B} (m : M A) (k : A -> M B) : M B :=
  fun page =>
    match m page with
    | (Ret a, page') => k a page'
    | (Raise e, page') => (Raise e, page')
    end.

#[export] Instance M_mret : MRet M := fun _ a => M_ret a.
#[export] Instance M_mbind : MBind M := fun _ _ k m => M_bind m k.

Definition lift {A} (r : res A) : M A := fun page => (r, page).

Definition st_error (msg : pystr) : M unit :=
  fun page => (Ret tt, page ++ [StError msg]).

Definition st_warning (msg : pystr) : M unit :=
  fun page => (Ret tt, page ++ [StWarning msg]).

(** [try: body  except Exception as e: handler e]. *)
Definition try_except {A} (body : M A) (handler : exn -> M A) : M A :=
  fun page =>
    match body page with
    | (Ret a, page') => (Ret a, page')
    | (Raise e, page') => handler e page'
    end.

(** ** Operations on values *)

Definition truthy (v : pyval) : bool :=
  match v with
  | PNone => false
  | PBool b => b
  | PInt n => negb (n =? 0)%Z
  | PFloat (FFinite m _) => negb (m =? 0)%Z
  | PFloat _ => true
  | PStr s => match s with [] => false | _ => true end
  | PList l => match l with [] => false | _ => true end
  | PDict d => negb (bool_decide (d = ∅))
  end.

(** [d[k]] on a dict. *)
Definition getitem (d : pydict) (k : pystr) : res pyval :=
  match d !! k with
  | Some v => Ret v
  | None => Raise KeyError
  end.

(** [v.get(k, default)]: only a dict has the method. *)
Definition get (v : pyval) (k : pystr) (default : pyval) : res pyval :=
  match v with
  | PDict d => Ret (from_option id default (d !! k))
  | _ => Raise AttributeError
  end.

(** [v[:n]]; a dict refuses a slice with [TypeError], or [KeyError] on
    interpreters where slices hash: an [Exception] in both cases. *)
Definition slice_to (n : nat) (v : pyval) : res pyval :=
  match v with
  | PStr s => Ret (PStr (firstn n s))
  | PList l => Ret (PList (firstn n l))
  | _ => Raise TypeError
  end.

(** [v + s] for a str [s]. *)
Definition add_str (v : pyval) (s : pystr) : res pyval :=
  match v with
  | PStr a => Ret (PStr (a ++ s))
  | _ => Raise TypeError
  end.

(** [v != s] for a str literal [s]. *)
Definition ne_str (v : pyval) (s : pystr) : bool :=
  match v with
  | PStr a => negb (bool_decide (a = s))
  | _ => true
  end.

(** [for item in v]: the items the loop will see. *)
Definition iterate (v : pyval) : res (list pyval) :=
  match v with
  | PList l => Ret l
  | PStr s => Ret (List.map (fun c => PStr [c]) s)
  | PDict d => Ret (List.map (fun kv => PStr (fst kv)) (map_to_list d))
  | _ => Raise TypeError
  end.

(** ** The interpreter's tables beyond ASCII, and its settings *)

Record runtime := {
  uni_space : N -> bool;          (* str.isspace and \s, code points >= 128 *)
  uni_word : N -> bool;           (* \w, code points >= 128 *)
  uni_digit : N -> option Z;      (* \d and its decimal value, code points >= 128 *)
  uni_fold : N -> N -> bool;      (* IGNORECASE: pattern literal against a code point >= 128 *)
  uni_lower : pystr -> pystr;     (* str.lower of a string that is not pure ASCII *)
  uni_capitalize : pystr -> pystr;(* str.capitalize of a string that is not pure ASCII *)
  int_max_str_digits : nat;       (* sys.get_int_max_str_digits(); 0 switches the limit off *)
  str_of : pyval -> pystr;        (* str() of a value that is not a str *)
  str_exn : exn -> pystr          (* str(e) *)
}.

Definition is_ascii (c : N) : bool := c <? 128.

Definition between (lo hi c : N) : bool := (lo <=? c) && (c <=? hi).

Definition ascii_lower (c : N) : N :=
  if between 65 90 c then c + 32 else c.

Definition ascii_upper (c : N) : N :=
  if between 97 122 c then c - 32 else c.

Definition ascii_space (c : N) : bool :=
  between 9 13 c || between 28 32 c.

Definition ascii_digit (c : N) : bool := between 48 57 c.

Definition ascii_word (c : N) : bool :=
  ascii_digit c || between 65 90 c || between 97 122 c || (c =? 95).

Section Runtime.

Variable rt : runtime.

Definition isspace (c : N) : bool :=
  if is_ascii c then ascii_space c else uni_space rt c.

Definition isword (c : N) : bool :=
  if is_ascii c then ascii_word c else uni_word rt c.

Definition digit_value (c : N) : option Z :=
  if is_ascii c
  then (if ascii_digit c then Some (Z.of_N c - 48)%Z else None)
  else uni_digit rt c.

Definition isdigit (c : N) : bool :=
  match digit_value c with Some _ => true | None => false end.

(** A literal [p] of a pattern against the subject's [c] under
    IGNORECASE.  The patterns of the source are ASCII. *)
Definition fold_eq (p c : N) : bool :=
  if is_ascii c then ascii_lower c =? ascii_lower p else uni_fold rt p c.

(** [str.lower], [str.capitalize], [str.strip]. *)
Definition lower (s : pystr) : pystr :=
  if forallb is_ascii s then List.map ascii_lower s else uni_lower rt s.

Definition capitalize (s : pystr) : pystr :=
  if forallb is_ascii s
  then match s with
       | [] => []
       | c :: s' => ascii_upper c :: List.map ascii_lower s'
       end
  else uni_capitalize rt s.

Fixpoint lstrip (s : pystr) : pystr :=
  match s with
  | c :: s' => if isspace c then lstrip s' else s
  | [] => []
  end.

Definition rstrip (s : pystr) : pystr := rev (lstrip (rev s)).

Definition strip (s : pystr) : pystr := rstrip (lstrip s).

(** [int(s)] for a string of decimal digits, which is all that the
    group [(\d+)] can hand over.  CPython refuses a digit string longer
    than the configured limit once it is longer than the threshold 640. *)
Fixpoint digits_value (acc : Z) (s : pystr) : option Z :=
  match s with
  | [] => Some acc
  | c :: s' =>
      match digit_value c with
      | Some d => digits_value (10 * acc + d)%Z s'
      | None => None
      end
  end.

Definition over_digit_limit (n : nat) : bool :=
  Nat.ltb 640 n
  && (Nat.ltb 0 (int_max_str_digits rt) && Nat.ltb (int_max_str_digits rt) n).

Definition int (s : pystr) : res Z :=
  match s with
  | [] => Raise ValueError
  | _ =>
      match digits_value 0 s with
      | Some v => if over_digit_limit (length s) then Raise ValueError else Ret v
      | None => Raise ValueError
      end
  end.

(** ** The part of [re] the source uses *)

Inductive atom :=
| Lit (c : N)             (* a literal character *)
| OneOf (cs : pystr)      (* [...] *)
| Dot                     (* . *)
| Space                   (* \s *)
| Word                    (* \w *)
| Digit.                  (* \d *)

Inductive regex :=
| Atom (a : atom)
| Str (cs : pystr)        (* a run of literals *)
| Star (a : atom)         (* a*  *)
| Plus (a : atom)         (* a+  *)
| PlusLazy (a : atom)     (* a+? *)
| Seq (r1 r2 : regex)
| Alt (r1 r2 : regex)     (* r1|r2 *)
| Group (r : regex)       (* (r), group 1 of the pattern *)
| Ahead (r : regex)       (* (?=r) *)
| Eos.                    (* $ *)

Record flags := { IGNORECASE : bool; DOTALL : bool }.

Section Matcher.

Variable fl : flags.

Definition lit_match (p c : N) : bool :=
  if IGNORECASE fl then fold_eq p c else c =? p.

Definition atom_match (a : atom) (c : N) : bool :=
  match a with
  | Lit p => lit_match p c
  | OneOf cs => existsb (fun p => lit_match p c) cs
  | Dot => DOTALL fl || negb (c =? 10)
  | Space => isspace c
  | Word => isword c
  | Digit => isdigit c
  end.

(** The literals [cs] at the head of [s]; what is left of [s]. *)
Fixpoint str_match (cs s : pystr) : option pystr :=
  match cs with
  | [] => Some s
  | p :: cs' =>
      match s with
      | c :: s' => if lit_match p c then str_match cs' s' else None
      | [] => None
      end
  end.

(** The backtracking matcher in continuation-passing style: [k] is the
    rest of the pattern, run on what is left of the subject.  The
    result carries group 1. *)
Definition capture := option pystr.

Fixpoint star (p : N -> bool) (s : pystr) (k : pystr -> option capture)
  : option capture :=
  match s with
  | c :: s' =>
      if p c
      then match star p s' k with
           | Some m => Some m
           | None => k s
           end
      else k s
  | [] => k s
  end.

Definition plus (p : N -> bool) (s : pystr) (k : pystr -> option capture)
  : option capture :=
  match s with
  | c :: s' => if p c then star p s' k else None
  | [] => None
  end.

Fixpoint plus_lazy (p : N -> bool) (s : pystr) (k : pystr -> option capture)
  : option capture :=
  match s with
  | c :: s' =>
      if p c
      then match k s' with
           | Some m => Some m
           | None => plus_lazy p s' k
           end
      else None
  | [] => None
  end.

(** [$] without MULTILINE: the end, or just before a final newline. *)
Definition at_eos (s : pystr) : bool :=
  match s with
  | [] => true
  | [c] => c =? 10
  | _ => false
  end.

Fixpoint exec (r : regex) (s : pystr) (g : capture)
    (k : pystr -> capture -> option capture) {struct r} : option capture :=
  match r with
  | Atom a =>
      match s with
      | c :: s' => if atom_match a c then k s' g else None
      | [] => None
      end
  | Str cs =>
      match str_match cs s with
      | Some s' => k s' g
      | None => None
      end
  | Star a => star (atom_match a) s (fun s' => k s' g)
  | Plus a => plus (atom_match a) s (fun s' => k s' g)
  | PlusLazy a => plus_lazy (atom_match a) s (fun s' => k s' g)
  | Seq r1 r2 => exec r1 s g (fun s' g' => exec r2 s' g' k)
  | Alt r1 r2 =>
      match exec r1 s g k with
      | Some m => Some m
      | None => exec r2 s g k
      end
  | Group r1 =>
      exec r1 s g
        (fun s' _ => k s' (Some (firstn (length s - length s')%nat s)))
  | Ahead r1 =>
      match exec r1 s g (fun _ g' => Some g') with
      | Some g' => k s g'
      | None => None
      end
  | Eos => if at_eos s then k s g else None
  end.

Definition match_here (r : regex) (s : pystr) : option capture :=
  exec r s None (fun _ g => Some g).

(** [re.search]: the leftmost start at which the pattern matches. *)
Fixpoint search (r : regex) (s : pystr) : option capture :=
  match match_here r s with
  | Some m => Some m
  | None =>
      match s with
      | [] => None
      | _ :: s' => search r s'
      end
  end.

End Matcher.

(** A value inside an f-string. *)
Definition format (v : pyval) : pystr :=
  match v with
  | PStr s => s
  | _ => str_of rt v
  end.

(** ** ai_processor.py *)

(** A remote language-model service as one call sees it:
    [genai.configure] with [genai.GenerativeModel] either goes through or
    raises, and [model.generate_content(prompt)] followed by
    [response.text] either yields the reply or raises. *)
Record gemini := {
  configure : pystr -> option exn;
  generate_content : pystr -> res pystr
}.

(** [r'SUMMARY:\s*(.+?)(?=SENTIMENT:|$)'] *)
Definition summary_re : regex :=
  Seq (Str (py "SUMMARY:"))
    (Seq (Star Space)
       (Seq (Group (PlusLazy Dot))
          (Ahead (Alt (Str (py "SENTIMENT:")) Eos)))).

(** [r'SENTIMENT:\s*(\w+)'] *)
Definition sentiment_re : regex :=
  Seq (Str (py "SENTIMENT:")) (Seq (Star Space) (Group (Plus Word))).

(** [r'IMPACT[_ ]SCORE:\s*(\d+)'] *)
Definition score_re : regex :=
  Seq (Str (py "IMPACT"))
    (Seq (Atom (OneOf (py "_ ")))
       (Seq (Str (py "SCORE:")) (Seq (Star Space) (Group (Plus Digit))))).

(** [re.DOTALL | re.IGNORECASE] and [re.IGNORECASE]. *)
Definition dotall_ignorecase : flags := {| IGNORECASE := true; DOTALL := true |}.
Definition ignorecase : flags := {| IGNORECASE := true; DOTALL := false |}.

(** [m.group(1)]; a group that took no part is [None], on which the
    method call that follows fails. *)
Definition group1 (m : capture) : res pystr :=
  match m with
  | Some g => Ret g
  | None => Raise AttributeError
  end.

Definition sentiments : list pystr :=
  [py "positive"; py "negative"; py "tense"; py "neutral"].

Definition result (summary sentiment : pystr) (impact_score : Z) : pydict :=
  <[py "summary" := PStr summary]>
    (<[py "sentiment" := PStr sentiment]>
       (<[py "impact_score" := PInt impact_score]> ∅)).

Definition prompt_of (article_text : pystr) : pystr :=
  py "You are a geopolitical intelligence analyst." ++ nl
  ++ nl
  ++ py "Article: " ++ article_text ++ nl
  ++ nl
  ++ py "Analyze this article and provide:" ++ nl
  ++ py "1. A summary in exactly 2 sentences" ++ nl
  ++ py "2. The sentiment (choose ONE: positive, negative, tense, or neutral)" ++ nl
  ++ py "3. A strategic impact score from 1-10 based on geopolitical importance" ++ nl
  ++ nl
  ++ py "Format your response EXACTLY as follows:" ++ nl
  ++ py "SUMMARY: [your 2-sentence summary]" ++ nl
  ++ py "SENTIMENT: [positive/negative/tense/neutral]" ++ nl
  ++ py "IMPACT_SCORE: [number 1-10]" ++ nl.

(** Lines 56 to 60: the summary. *)
Definition extract_summary (analysis_text : pystr) : res pystr :=
  match search dotall_ignorecase summary_re analysis_text with
  | Some m => g ← group1 m; mret (strip g)
  | None => mret (py "Summary not available.")
  end.

(** Lines 63 to 68: the sentiment, normalised. *)
Definition extract_sentiment (analysis_text : pystr) : res pystr :=
  sentiment ← match search ignorecase sentiment_re analysis_text with
              | Some m => g ← group1 m; mret (lower (strip g))
              | None => mret (py "neutral")
              end;
  mret (if bool_decide (sentiment ∈ sentiments) then sentiment else py "neutral").

(** Lines 71 to 75: the impact score, clamped. *)
Definition extract_impact_score (analysis_text : pystr) : res Z :=
  impact_score ← match search ignorecase score_re analysis_text with
                 | Some m => g ← group1 m; int g
                 | None => mret 5%Z
                 end;
  mret (Z.max 1 (Z.min 10 impact_score)).

(** Lines 56 to 81: the reply parsed into the three fields. *)
Definition parse_reply (text : pystr) : res pydict :=
  let analysis_text := strip text in
  summary ← extract_summary analysis_text;
  sentiment ← extract_sentiment analysis_text;
  impact_score ← extract_impact_score analysis_text;
  mret (result summary (capitalize sentiment) impact_score).

(** The [try] block of lines 44 to 81. *)
Definition analyze_body (g : gemini) (prompt : pystr) : res pydict :=
  text ← generate_content g prompt;
  match text with
  | [] => mret (result (py "Analysis unavailable.") (py "neutral") 5)
  | _ => parse_reply text
  end.

(** The handler of lines 83 to 90. *)
Definition analyze_fallback (article : pydict) (e : exn) : M (option pydict) :=
  title ← lift (getitem article (py "title"));
  title50 ← lift (slice_to 50 title);
  st_warning ([9888; 65039] ++ py " Failed to analyze article: "
              ++ format title50 ++ py "... Error: " ++ str_exn rt e);;
  description ← lift (getitem article (py "description"));
  description200 ← lift (slice_to 200 description);
  summary ← lift (add_str description200 (py "..."));
  mret (Some (<[py "summary" := summary]>
                (<[py "sentiment" := PStr (py "Neutral")]>
                   (<[py "impact_score" := PInt 5]> ∅)))).

Definition analyze_article (g : gemini) (article : pydict) (api_key : pystr)
  : M (option pydict) :=
  match configure g api_key with
  | Some e =>
      st_error ([10060] ++ py " Failed to configure Gemini API: " ++ str_exn rt e);;
      mret None
  | None =>
      title ← lift (getitem article (py "title"));
      description ← lift (getitem article (py "description"));
      let article_text := format title ++ py ". " ++ format description in
      let prompt := prompt_of article_text in
      try_except
        (analysis ← lift (analyze_body g prompt); mret (Some analysis))
        (analyze_fallback article)
  end.

(** [if analysis:] on an [Optional[Dict]]. *)
Definition truthy_opt (analysis : option pydict) : bool :=
  truthy (from_option PDict PNone analysis).

(** The loop of [batch_analyze_articles]; the [i]-th call reaches the
    service as [svc i] answers. *)
Fixpoint batch_loop (svc : nat -> gemini) (i : nat) (articles : list pydict)
    (api_key : pystr) (analyzed : list pydict) : M (list pydict) :=
  match articles with
  | [] => mret analyzed
  | article :: rest =>
      analysis ← analyze_article (svc i) article api_key;
      batch_loop svc (S i) rest api_key
        (match analysis with
         | Some a => if truthy_opt analysis then analyzed ++ [a ∪ article] else analyzed
         | None => analyzed
         end)
  end.

Definition batch_analyze_articles (svc : nat -> gemini) (articles : list pydict)
    (api_key : pystr) : M (list pydict) :=
  batch_loop svc 0 articles api_key [].

(** ** news_fetcher.py *)

(** What [requests.get] hands back: [raise_for_status] and [json]. *)
Record response := {
  raise_for_status : option exn;
  json : res pyval
}.

(** The network: URL, query parameters and timeout to a response or a
    raised failure. *)
Definition transport : Type := pystr -> pydict -> Z -> res response.

Definition base_url : pystr := py "https://newsdata.io/api/1/news".

Definition params_of (query api_key : pystr) (max_results : Z) : pydict :=
  <[py "apikey" := PStr api_key]>
    (<[py "q" := PStr query]>
       (<[py "language" := PStr (py "en")]>
          (<[py "size" := PInt max_results]> ∅))).

(** [a or b], with [b] evaluated only when [a] is falsy. *)
Definition py_or (a : pyval) (b : res pyval) : res pyval :=
  if truthy a then Ret a else b.

(** Lines 46 to 54: one item of the results. *)
Definition fetch_item (item : pyval) (articles : list pydict) : res (list pydict) :=
  title ← get item (py "title") PNone;
  sufficient ← (if truthy title
                then description ← get item (py "description") PNone;
                     if truthy description then mret true
                     else content ← get item (py "content") PNone;
                          mret (truthy content)
                else mret false);
  if sufficient : bool
  then title ← get item (py "title") (PStr (py "Untitled"));
       description ← get item (py "description") PNone;
       description ← py_or description
                       (content ← get item (py "content") (PStr []);
                        slice_to 300 content);
       url ← get item (py "link") (PStr (py "#"));
       source ← get item (py "source_id") (PStr (py "Unknown"));
       published_at ← get item (py "pubDate") (PStr []);
       mret (articles ++
             [<[py "title" := title]>
                (<[py "description" := description]>
                   (<[py "url" := url]>
                      (<[py "source" := source]>
                         (<[py "published_at" := published_at]> ∅))))])
  else mret articles.

Fixpoint fetch_loop (items : list pyval) (articles : list pydict)
  : res (list pydict) :=
  match items with
  | [] => mret articles
  | item :: rest => articles' ← fetch_item item articles; fetch_loop rest articles'
  end.

(** The [try] block of lines 30 to 56. *)
Definition fetch_body (http : transport) (query api_key : pystr)
    (max_results : Z) : M (list pydict) :=
  response ← lift (http base_url (params_of query api_key max_results) 10%Z);
  lift (match raise_for_status response with
        | Some e => Raise e
        | None => Ret tt
        end);;
  data ← lift (json response);
  status ← lift (get data (py "status") PNone);
  if ne_str status (py "success")
  then results ← lift (get data (py "results") (PDict ∅));
       message ← lift (get results (py "message") (PStr (py "Unknown error")));
       st_error (py "API Error: " ++ format message);;
       mret []
  else results ← lift (get data (py "results") (PList []));
       items ← lift (iterate results);
       lift (fetch_loop items []).

(** The three handlers of lines 58 to 68, tried in order. *)
Definition fetch_handler (e : exn) : M (list pydict) :=
  match e with
  | Timeout =>
      st_error ([9201; 65039] ++ py " Request timed out. Please try again.");;
      mret []
  | RequestException =>
      st_error ([10060] ++ py " Network error: " ++ str_exn rt e);;
      mret []
  | _ =>
      st_error ([10060] ++ py " Unexpected error fetching news: " ++ str_exn rt e);;
      mret []
  end.

(** The body of [fetch_news]; the memoising decorator [st.cache_data]
    around it is outside the adapter. *)
Definition fetch_news (http : transport) (query api_key : pystr)
    (max_results : Z) : M (list pydict) :=
  try_except (fetch_body http query api_key max_results) fetch_handler.

End Runtime.

(** ** Inputs used to run the definitions *)

(** An interpreter whose tables hold nothing beyond ASCII, with
    CPython's default digit limit. *)
Definition ascii_runtime : runtime := {|
  uni_space := fun _ => false;
  uni_word := fun _ => false;
  uni_digit := fun _ => None;
  uni_fold := fun _ _ => false;
  uni_lower := fun s => s;
  uni_capitalize := fun s => s;
  int_max_str_digits := 4300;
  str_of := fun _ => py "?";
  str_exn := fun _ => py "error"
|}.

(** A service that is configured and answers every prompt with [reply]. *)
Definition answering (reply : pystr) : gemini := {|
  configure := fun _ => None;
  generate_content := fun _ => Ret reply
|}.

(** A service that is configured and fails every prompt with [e]. *)
Definition failing (e : exn) : gemini := {|
  configure := fun _ => None;
  generate_content := fun _ => Raise e
|}.

(** A service whose configuration fails with [e]. *)
Definition misconfigured (e : exn) : gemini := {|
  configure := fun _ => Some e;
  generate_content := fun _ => Raise e
|}.

Definition sample_article : pydict :=
  <[py "title" := PStr (py "Summit ends")]>
    (<[py "description" := PStr (py "Leaders met in Geneva.")]> ∅).

(** The four labels an AnalysisResult may carry. *)
Definition canonical_sentiments : list pystr :=
  [py "Positive"; py "Negative"; py "Tense"; py "Neutral"].

(** An Article as the adapter produces it: [title] and [description]
    are strings. *)
Definition is_article (article : pydict) : Prop :=
  ∃ title description,
    article !! py "title" = Some (PStr title)
    ∧ article !! py "description" = Some (PStr description).

(** The dict the handler builds. *)
Definition degraded (summary : pyval) : pydict :=
  <[py "summary" := summary]>
    (<[py "sentiment" := PStr (py "Neutral")]>
       (<[py "impact_score" := PInt 5]> ∅)).

(** The prompt the article is sent with. *)
Definition prompt_for (rt : runtime) (title description : pyval) : pystr :=
  prompt_of (format rt title ++ py ". " ++ format rt description).

(** What [analyze_article] returns for an article, and the record the
    orchestrator makes of it: [{**article, **analysis}]. *)
Definition returned (rt : runtime) (g : gemini) (article : pydict)
    (api_key : pystr) : option pydict :=
  match fst (analyze_article rt g article api_key []) with
  | Ret analysis => analysis
  | Raise _ => None
  end.

Definition enrich (rt : runtime) (svc : nat -> gemini) (api_key : pystr)
    (call : nat * pydict) : option pydict :=
  analysis ← returned rt (svc (fst call)) (snd call) api_key;
  Some (analysis ∪ snd call).

(** What the call for an article puts on the page. *)
Definition reported (rt : runtime) (svc : nat -> gemini) (api_key : pystr)
    (call : nat * pydict) : list diagnostic :=
  snd (analyze_article rt (svc (fst call)) (snd call) api_key []).

(** The articles of a batch with the number of the call that analyses
    each. *)
Definition calls (i : nat) (articles : list pydict) : list (nat * pydict) :=
  zip (seq i (length articles)) articles.

(** [item.get(k)] on an item that is a dict. *)
Definition field (d : pydict) (k : pystr) : pyval :=
  from_option id PNone (d !! k).

(** An item has sufficient content: a title, and a description or a
    body, each present and not empty. *)
Definition sufficient (d : pydict) : bool :=
  truthy (field d (py "title"))
  && (truthy (field d (py "description")) || truthy (field d (py "content"))).

(** The response of the round-trip scenario and the Article expected
    from it. *)
Definition round_trip_json : pyval :=
  PDict (<[py "status" := PStr (py "success")]>
           (<[py "results" :=
                PList [PDict (<[py "title" := PStr (py "A")]>
                                (<[py "description" := PStr (py "B")]>
                                   (<[py "link" := PStr (py "http://x")]>
                                      (<[py "source_id" := PStr (py "S")]>
                                         (<[py "pubDate" := PStr (py "t")]> ∅)))))]]>
              ∅)).

Definition round_trip_article : pydict :=
  <[py "title" := PStr (py "A")]>
    (<[py "description" := PStr (py "B")]>
       (<[py "url" := PStr (py "http://x")]>
          (<[py "source" := PStr (py "S")]>
             (<[py "published_at" := PStr (py "t")]> ∅)))).

(** A network that answers every request with the JSON value [data],
    and one on which every request fails with [e]. *)
Definition serving (data : pyval) : transport :=
  fun _ _ _ => Ret {| raise_for_status := None; json := Ret data |}.

Definition unreachable (e : exn) : transport :=
  fun _ _ _ => Raise e.

(** An item with a title and an empty body, one with a title and a
    body, and a payload holding both. *)
Definition bare_item : pydict :=
  <[py "title" := PStr (py "A")]> (<[py "content" := PStr []]> ∅).

Definition full_item : pydict :=
  <[py "title" := PStr (py "C")]> (<[py "content" := PStr (py "D")]> ∅).

Definition two_items : pydict :=
  <[py "status" := PStr (py "success")]>
    (<[py "results" := PList ([] ++ PDict bare_item :: [PDict full_item])]> ∅).

Definition full_article : pydict :=
  <[py "title" := PStr (py "C")]>
    (<[py "description" := PStr (py "D")]>
       (<[py "url" := PStr (py "#")]>
          (<[py "source" := PStr (py "Unknown")]>
             (<[py "published_at" := PStr []]> ∅)))).

(** The summary in the words of the specification and as the pattern
    takes it.  [after_marker] is the text following the first occurrence
    of a marker, whatever its case; [before_marker] is the text up to
    the next occurrence of a marker, or all of it. *)
Fixpoint after_marker (rt : runtime) (marker s : pystr) : option pystr :=
  match str_match rt dotall_ignorecase marker s with
  | Some rest => Some rest
  | None =>
      match s with
      | [] => None
      | _ :: s' => after_marker rt marker s'
      end
  end.

Fixpoint before_marker (rt : runtime) (marker s : pystr) : pystr :=
  match str_match rt dotall_ignorecase marker s with
  | Some _ => []
  | None =>
      match s with
      | [] => []
      | c :: s' => c :: before_marker rt marker s'
      end
  end.

(** As the specification words it: the text following SUMMARY: up to
    the next SENTIMENT: marker or the end, trimmed; the fallback when
    the marker is absent. *)
Definition summary_as_specified (rt : runtime) (text : pystr) : pystr :=
  match after_marker rt (py "SUMMARY:") text with
  | Some rest => strip rt (before_marker rt (py "SENTIMENT:") rest)
  | None => py "Summary not available."
  end.

(** As the pattern takes it: the summary starts at the first character
    after SUMMARY: that is not white space, and a SENTIMENT: marker ends
    it only when it begins after that character; a SUMMARY: with nothing
    after it counts as absent. *)
Definition summary_as_matched (rt : runtime) (text : pystr) : pystr :=
  match after_marker rt (py "SUMMARY:") text with
  | Some rest =>
      match lstrip rt rest with
      | c :: rest' => strip rt (c :: before_marker rt (py "SENTIMENT:") rest')
      | [] => py "Summary not available."
      end
  | None => py "Summary not available."
  end.

(** The lookahead [(?=SENTIMENT:|$)] holds at [s]. *)
Definition summary_ends (rt : runtime) (s : pystr) : bool :=
  match str_match rt dotall_ignorecase (py "SENTIMENT:") s with
  | Some _ => true
  | None => at_eos s
  end.

(** A text that does not end in white space. *)
Definition trimmed_end (rt : runtime) (s : pystr) : Prop :=
  ∀ pre c, s = pre ++ [c] → isspace rt c = false.

(** The reply of the specification's scenario. *)
Definition scenario_reply : pystr :=
  py "SUMMARY: X. Y." ++ nl ++ py "SENTIMENT: Positive" ++ nl
  ++ py "IMPACT_SCORE: 12".

(** A reply whose score has one digit more than the default limit. *)
Definition long_score_reply : pystr :=
  py "SUMMARY: a" ++ nl ++ py "SENTIMENT: tense" ++ nl
  ++ py "IMPACT_SCORE: " ++ repeat 49 4301.

(** ** news_fetcher.py, the second adapter *)

Section Fallback.

Variable rt : runtime.

Definition newsapi_url : pystr := py "https://newsapi.org/v2/everything".

Definition newsapi_params_of (query api_key : pystr) (max_results : Z) : pydict :=
  <[py "apiKey" := PStr api_key]>
    (<[py "q" := PStr query]>
       (<[py "language" := PStr (py "en")]>
          (<[py "sortBy" := PStr (py "publishedAt")]>
             (<[py "pageSize" := PInt max_results]> ∅)))).

(** Lines 112 to 120: one item of the articles. *)
Definition fallback_item (item : pyval) (articles : list pydict)
  : res (list pydict) :=
  title ← get item (py "title") PNone;
  sufficient ← (if truthy title
                then description ← get item (py "description") PNone;
                     mret (truthy description)
                else mret false);
  if sufficient : bool
  then title ← get item (py "title") (PStr (py "Untitled"));
       description ← get item (py "description") (PStr []);
       url ← get item (py "url") (PStr (py "#"));
       source ← get item (py "source") (PDict ∅);
       name ← get source (py "name") (PStr (py "Unknown"));
       published_at ← get item (py "publishedAt") (PStr []);
       mret (articles ++
             [<[py "title" := title]>
                (<[py "description" := description]>
                   (<[py "url" := url]>
                      (<[py "source" := name]>
                         (<[py "published_at" := published_at]> ∅))))])
  else mret articles.

Fixpoint fallback_loop (items : list pyval) (articles : list pydict)
  : res (list pydict) :=
  match items with
  | [] => mret articles
  | item :: rest =>
      articles' ← fallback_item item articles; fallback_loop rest articles'
  end.

(** The [try] block of lines 96 to 122. *)
Definition fallback_body (http : transport) (query api_key : pystr)
    (max_results : Z) : M (list pydict) :=
  response ← lift (http newsapi_url (newsapi_params_of query api_key max_results)
                     10%Z);
  lift (match raise_for_status response with
        | Some e => Raise e
        | None => Ret tt
        end);;
  data ← lift (json response);
  status ← lift (get data (py "status") PNone);
  if ne_str status (py "ok")
  then message ← lift (get data (py "message") (PStr (py "Unknown error")));
       st_error (py "API Error: " ++ format rt message);;
       mret []
  else results ← lift (get data (py "articles") (PList []));
       items ← lift (iterate results);
       lift (fallback_loop items []).

(** The handlers of lines 124 to 134 are those of [fetch_news]. *)
Definition fetch_news_fallback_newsapi (http : transport)
    (query api_key : pystr) (max_results : Z) : M (list pydict) :=
  try_except (fallback_body http query api_key max_results) (fetch_handler rt).

End Fallback.

(** ** app.py: what the dashboard computes from the records *)

(** [needle in hay] on two strings. *)
Fixpoint starts_with (needle hay : pystr) : bool :=
  match needle with
  | [] => true
  | p :: needle' =>
      match hay with
      | c :: hay' => (c =? p) && starts_with needle' hay'
      | [] => false
      end
  end.

Fixpoint contains (needle hay : pystr) : bool :=
  starts_with needle hay
  || match hay with
     | [] => false
     | _ :: hay' => contains needle hay'
     end.

Section Dashboard.

Variable rt : runtime.

(** [v.lower()]: a method of [str] only. *)
Definition lower_of (v : pyval) : res pystr :=
  match v with
  | PStr s => Ret (lower rt s)
  | _ => Raise AttributeError
  end.


(** Lines 245 to 254: the label an article is counted under. *)
Definition chart_label (article : pydict) : res pystr :=
  sentiment ← lower_of (from_option id (PStr (py "neutral"))
                          (article !! py "sentiment"));
  mret (if contains (py "positive") sentiment then py "Positive"
        else if contains (py "negative") sentiment then py "Negative"
        else if contains (py "tense") sentiment then py "Tense"
        else py "Neutral").

(** Lines 243 to 256: the loop that fills [sentiment_counts]. *)
Fixpoint count_sentiments (analyzed_articles : list pydict)
    (sentiment_counts : gmap pystr Z) : res (gmap pystr Z) :=
  match analyzed_articles with
  | [] => mret sentiment_counts
  | article :: rest =>
      sentiment ← chart_label article;
      count_sentiments rest
        (<[sentiment := (from_option id 0 (sentiment_counts !! sentiment) + 1)%Z]>
           sentiment_counts)
  end.

End Dashboard.

(** [sorted(l, key=..., reverse=True)] for integer keys: the stable
    sort into descending order, records with equal keys staying in
    their input order. *)
Fixpoint insert_desc {A} (key : A → Z) (x : A) (l : list A) : list A :=
  match l with
  | [] => [x]
  | y :: l' =>
      if (key y <=? key x)%Z then x :: y :: l' else y :: insert_desc key x l'
  end.

Fixpoint sorted_desc {A} (key : A → Z) (l : list A) : list A :=
  match l with
  | [] => []
  | x :: l' => insert_desc key x (sorted_desc key l')
  end.

(** [x.get('impact_score', 0)] when it is an integer; [bool] is a
    subclass of [int]. *)
Definition impact_key (article : pydict) : option Z :=
  match from_option id (PInt 0) (article !! py "impact_score") with
  | PInt n => Some n
  | PBool b => Some (if b then 1 else 0)%Z
  | _ => None
  end.

(** Line 226: the three records of highest impact.  [None] when the
    key of some record is not an integer, where the order of the keys is
    not the one of the integers. *)
Definition top_impact (analyzed_articles : list pydict) : option (list pydict) :=
  if forallb (fun article => bool_decide (is_Some (impact_key article)))
       analyzed_articles
  then Some (firstn 3 (sorted_desc
                         (fun article => from_option id 0%Z (impact_key article))
                         analyzed_articles))
  else None.

(** ** Vocabulary for the adapters *)

(** The five keys of an Article. *)
Definition article_keys : gset pystr :=
  {[ py "title"; py "description"; py "url"; py "source"; py "published_at" ]}.

(** [v[:300]] where it is defined. *)
Definition first300 (v : pyval) : option pyval :=
  match v with
  | PStr s => Some (PStr (firstn 300 s))
  | PList l => Some (PList (firstn 300 l))
  | _ => None
  end.

(** The description an item gives its Article: its own when present
    and not empty, the head of its body otherwise. *)
Definition description_of (d : pydict) : option pyval :=
  if truthy (field d (py "description"))
  then Some (field d (py "description"))
  else first300 (from_option id (PStr []) (d !! py "content")).

(** The Article of an item of the primary service. *)
Definition article_of (d : pydict) : option pydict :=
  description ← description_of d;
  Some (<[py "title" := field d (py "title")]>
          (<[py "description" := description]>
             (<[py "url" := from_option id (PStr (py "#")) (d !! py "link")]>
                (<[py "source" :=
                     from_option id (PStr (py "Unknown")) (d !! py "source_id")]>
                   (<[py "published_at" :=
                        from_option id (PStr []) (d !! py "pubDate")]> ∅))))).

(** The message of the third handler. *)
Definition unexpected_error (rt : runtime) (e : exn) : diagnostic :=
  StError ([10060] ++ py " Unexpected error fetching news: " ++ str_exn rt e).

(** The request to [url] with [params] is answered, passes the status
    check and decodes to [data]. *)
Definition answers (http : transport) (url : pystr) (params : pydict)
    (data : pyval) : Prop :=
  ∃ resp,
    http url params 10%Z = Ret resp
    ∧ raise_for_status resp = None
    ∧ json resp = Ret data.

(** An item the loop of [fetch_news] cannot turn into an Article: not a
    dict, or a dict with a title whose body has to stand in for the
    description and cannot be cut. *)
Definition malformed (item : pyval) : Prop :=
  (∀ d, item ≠ PDict d)
  ∨ (∃ d, item = PDict d ∧ sufficient d = true ∧ description_of d = None).

(** An item of the second service has sufficient content: a title and
    a description, each present and not empty. *)
Definition newsapi_sufficient (d : pydict) : bool :=
  truthy (field d (py "title")) && truthy (field d (py "description")).

(** The name of an item's source: the source may be missing, and is an
    object otherwise. *)
Definition source_name (d : pydict) : option pyval :=
  match from_option id (PDict ∅) (d !! py "source") with
  | PDict source => Some (from_option id (PStr (py "Unknown")) (source !! py "name"))
  | _ => None
  end.

(** The Article of an item of the second service. *)
Definition newsapi_article_of (d : pydict) : option pydict :=
  name ← source_name d;
  Some (<[py "title" := field d (py "title")]>
          (<[py "description" := field d (py "description")]>
             (<[py "url" := from_option id (PStr (py "#")) (d !! py "url")]>
                (<[py "source" := name]>
                   (<[py "published_at" :=
                        from_option id (PStr []) (d !! py "publishedAt")]> ∅))))).

(** A payload of the second service with two items, the first without
    a description. *)
Definition newsapi_items : list pydict :=
  [<[py "title" := PStr (py "A")]> (<[py "content" := PStr (py "body")]> ∅);
   <[py "title" := PStr (py "C")]>
     (<[py "description" := PStr (py "D")]>
        (<[py "source" := PDict (<[py "name" := PStr (py "Wire")]> ∅)]> ∅))].

Definition newsapi_payload : pydict :=
  <[py "status" := PStr (py "ok")]>
    (<[py "articles" := PList (List.map PDict newsapi_items)]> ∅).

(** The three keys of an analysis. *)
Definition analysis_keys : gset pystr :=
  {[ py "summary"; py "sentiment"; py "impact_score" ]}.

(** An article without a title. *)
Definition untitled_article : pydict :=
  <[py "description" := PStr (py "Leaders met in Geneva.")]> ∅.

(** ** Vocabulary for the dashboard *)

(** The impact by which a record is ranked. *)
Definition impact_of (article : pydict) : Z :=
  from_option id 0%Z (impact_key article).

(** The record is counted under [label] in the chart. *)
Definition counted_as (rt : runtime) (label : pystr) (article : pydict) : bool :=
  match chart_label rt article with
  | Ret l => bool_decide (l = label)
  | Raise _ => false
  end.

Definition count_of (rt : runtime) (label : pystr) (records : list pydict) : Z :=
  Z.of_nat (length (List.filter (counted_as rt label) records)).

(** The records with impact [k], in their order. *)
Definition with_impact (k : Z) (records : list pydict) : list pydict :=
  List.filter (fun r => (impact_of r =? k)%Z) records.

(** Three records, as the orchestrator leaves them, of impact 5, 9, 5. *)
Definition three_records : list pydict :=
  [result (py "a") (py "Neutral") 5 ∪ sample_article;
   result (py "b") (py "Tense") 9 ∪ sample_article;
   result (py "c") (py "neutral") 5 ∪ sample_article].

(** The labels of the chart. *)
Definition chart_labels : gset pystr :=
  {[ py "Positive"; py "Negative"; py "Tense"; py "Neutral" ]}.

(** The sentiment of a record is a string, or the record has none. *)
Definition sentiment_is_text (article : pydict) : Prop :=
  article !! py "sentiment" = None
  ∨ ∃ s, article !! py "sentiment" = Some (PStr s).

(** ** app.py: the impact bar *)

(** [float(n)] of an integer below 2^53 in size, which binary64 holds
    exactly; the division of two such integers is then the division of
    their floats. *)
Definition float_of_int (n : Z) : option PrimFloat.float :=
  if (Z.abs n <? 2 ^ 53)%Z
  then Some (if (n <? 0)%Z
             then PrimFloat.opp (PrimFloat.of_uint63 (Uint63.of_Z (- n)))
             else PrimFloat.of_uint63 (Uint63.of_Z n))
  else None.

(** [int(x)]: the float cut towards zero; an infinity or a NaN has
    none. *)
Definition int_of_float (x : PrimFloat.float) : option Z :=
  match FloatOps.Prim2SF x with
  | SpecFloat.S754_zero _ => Some 0%Z
  | SpecFloat.S754_finite negative m e =>
      let v := (if (0 <=? e)%Z then Z.pos m * 2 ^ e else Z.pos m / 2 ^ (- e))%Z in
      Some (if negative then (- v)%Z else v)
  | _ => None
  end.

(** [c * n] for a string of one character: empty when [n] is negative. *)
Definition times (c : N) (n : Z) : pystr := repeat c (Z.to_nat n).

(** Lines 142 to 156, for an integer score below 2^53 in size. *)
Definition create_impact_bar (score : Z) : option pystr :=
  let max_score := 10%Z in
  x ← float_of_int score;
  y ← float_of_int max_score;
  ten ← float_of_int 10;
  filled ← int_of_float (PrimFloat.mul (PrimFloat.div x y) ten);
  let empty := (10 - filled)%Z in
  let color := if (7 <=? score)%Z then 128997
               else if (4 <=? score)%Z then 129000
               else 129001 in
  Some (times color filled ++ times 11036 empty).

(** ** Vocabulary for the score and the sentiment *)

(** The text [m] is an occurrence of the literals [lits], in any case. *)
Definition is_marker (rt : runtime) (lits m : pystr) : Prop :=
  str_match rt ignorecase lits m = Some [].

(** The text [post] does not go on with a character of the class. *)
Definition stops (p : N → bool) (post : pystr) : Prop :=
  match post with
  | [] => True
  | c :: _ => p c = false
  end.

(** ** Inputs off the Article type, and a reply with a blank summary *)

(** Dicts that hold both keys, one of them with a value that is no
    text. *)
Definition numeric_description : pydict :=
  <[py "title" := PStr (py "Summit ends")]>
    (<[py "description" := PInt 5]> ∅).

Definition numeric_title : pydict :=
  <[py "title" := PInt 5]>
    (<[py "description" := PStr (py "Leaders met in Geneva.")]> ∅).

(** A reply in which only a line break stands between the two
    markers. *)
Definition blank_summary_reply : pystr :=
  py "SUMMARY:" ++ nl ++ py "SENTIMENT: Positive" ++ nl
  ++ py "IMPACT_SCORE: 7".

(** * Properties *)

Ltac unfold_monad :=
  unfold mbind, mret, M_mbind, M_mret, res_mbind, res_mret,
    M_bind, M_ret, res_bind, lift, try_except, st_error, st_warning in *.

Section Facts.

Variable rt : runtime.

Lemma result_summary (s t : pystr) (n : Z) :
  result s t n !! py "summary" = Some (PStr s).
Proof. unfold result. apply lookup_insert_eq. Qed.

Lemma result_sentiment (s t : pystr) (n : Z) :
  result s t n !! py "sentiment" = Some (PStr t).
Proof.
  unfold result.
  rewrite lookup_insert_ne by (vm_compute; discriminate).
  apply lookup_insert_eq.
Qed.

Lemma result_impact_score (s t : pystr) (n : Z) :
  result s t n !! py "impact_score" = Some (PInt n).
Proof.
  unfold result.
  do 2 (rewrite lookup_insert_ne by (vm_compute; discriminate)).
  apply lookup_insert_eq.
Qed.

Lemma result_nonempty (s t : pystr) (n : Z) : result s t n ≠ ∅.
Proof.
  intros H. pose proof (result_summary s t n) as E.
  rewrite H, lookup_empty in E. discriminate.
Qed.

(** Every branch of the sentiment extraction ends in the closed list. *)
Lemma normalise_in (s : pystr) :
  (if bool_decide (s ∈ sentiments) then s else py "neutral") ∈ sentiments.
Proof.
  destruct (decide (s ∈ sentiments)) as [Hin|Hout].
  - rewrite bool_decide_eq_true_2 by exact Hin. exact Hin.
  - rewrite bool_decide_eq_false_2 by exact Hout.
    apply list_elem_of_In. simpl. tauto.
Qed.

Lemma extract_sentiment_in (text s : pystr) :
  extract_sentiment rt text = Ret s → s ∈ sentiments.
Proof.
  unfold extract_sentiment. unfold_monad.
  destruct (search rt ignorecase sentiment_re text) as [[g|]|];
    cbn [group1]; intros H; try discriminate;
    injection H as <-;
    first [apply normalise_in | apply list_elem_of_In; simpl; tauto].
Qed.

Lemma capitalize_sentiment (s : pystr) :
  s ∈ sentiments → capitalize rt s ∈ canonical_sentiments.
Proof.
  unfold sentiments, canonical_sentiments. intros H.
  repeat (apply elem_of_cons in H as [-> | H]);
    [ | | | | apply elem_of_nil in H; contradiction ];
    apply list_elem_of_In; vm_compute; tauto.
Qed.

Lemma extract_impact_score_range (text : pystr) (n : Z) :
  extract_impact_score rt text = Ret n → (1 <= n <= 10)%Z.
Proof.
  unfold extract_impact_score. unfold_monad.
  destruct (search rt ignorecase score_re text) as [[g|]|]; simpl.
  - destruct (int rt g) as [v|e]; intros H; [|discriminate].
    injection H as <-. lia.
  - discriminate.
  - intros H. injection H as <-. lia.
Qed.

(** What a reply that parses is turned into. *)
Lemma parse_reply_shape (text : pystr) (r : pydict) :
  parse_reply rt text = Ret r →
  ∃ summary sentiment impact_score,
    r = result summary (capitalize rt sentiment) impact_score
    ∧ extract_summary rt (strip rt text) = Ret summary
    ∧ sentiment ∈ sentiments
    ∧ (1 <= impact_score <= 10)%Z.
Proof.
  unfold parse_reply. unfold_monad.
  destruct (extract_summary rt (strip rt text)) as [s|] eqn:Es; [|discriminate].
  destruct (extract_sentiment rt (strip rt text)) as [t|] eqn:Et; [|discriminate].
  destruct (extract_impact_score rt (strip rt text)) as [n|] eqn:En; [|discriminate].
  intros H. injection H as <-.
  exists s, t, n. split; [reflexivity|]. split; [reflexivity|].
  split; [eapply extract_sentiment_in; eassumption|].
  eapply extract_impact_score_range; eassumption.
Qed.

(** A reply that parses and whose sentiment word is missing, or is
    none of the four, gets the label Neutral. *)
Lemma unrecognised_sentiment_is_neutral (text : pystr) (r : pydict) :
  parse_reply rt text = Ret r →
  search rt ignorecase sentiment_re (strip rt text) = None
  ∨ (∃ word,
        search rt ignorecase sentiment_re (strip rt text) = Some (Some word)
        ∧ lower rt (strip rt word) ∉ sentiments) →
  r !! py "sentiment" = Some (PStr (py "Neutral")).
Proof.
  intros Hp Hs. revert Hp. unfold parse_reply, extract_sentiment. unfold_monad.
  destruct (extract_summary rt (strip rt text)) as [s|]; [|discriminate].
  assert (E : match
                match search rt ignorecase sentiment_re (strip rt text) with
                | Some m =>
                    match group1 m with
                    | Ret a => Ret (lower rt (strip rt a))
                    | Raise e => Raise e
                    end
                | None => Ret (py "neutral")
                end
              with
              | Ret a =>
                  Ret (if bool_decide (a ∈ sentiments) then a else py "neutral")
              | Raise e => Raise e
              end = Ret (py "neutral")).
  { destruct Hs as [-> | (word & -> & Hout)]; [reflexivity|].
    cbn [group1]. rewrite bool_decide_eq_false_2 by exact Hout. reflexivity. }
  rewrite E.
  destruct (extract_impact_score rt (strip rt text)) as [n|]; [|discriminate].
  intros [= <-]. apply result_sentiment.
Qed.

End Facts.

Section Analyze.

Variable rt : runtime.

Lemma degraded_sentiment (v : pyval) :
  degraded v !! py "sentiment" = Some (PStr (py "Neutral")).
Proof.
  unfold degraded.
  rewrite lookup_insert_ne by (vm_compute; discriminate).
  apply lookup_insert_eq.
Qed.

Lemma degraded_impact_score (v : pyval) :
  degraded v !! py "impact_score" = Some (PInt 5).
Proof.
  unfold degraded.
  do 2 (rewrite lookup_insert_ne by (vm_compute; discriminate)).
  apply lookup_insert_eq.
Qed.

(** Once configured, with both keys in the article, the function is its
    [try] statement. *)
Lemma analyze_article_configured (g : gemini) (article : pydict)
    (api_key : pystr) (title description : pyval) :
  configure g api_key = None →
  article !! py "title" = Some title →
  article !! py "description" = Some description →
  analyze_article rt g article api_key =
    try_except
      (analysis ← lift (analyze_body rt g (prompt_for rt title description));
       mret (Some analysis))
      (analyze_fallback rt article).
Proof.
  intros Hc Ht Hd. unfold analyze_article, getitem. rewrite Hc, Ht, Hd.
  reflexivity.
Qed.

(** The handler on an Article. *)
Lemma analyze_fallback_article (article : pydict) (e : exn)
    (title description : pystr) (page : list diagnostic) :
  article !! py "title" = Some (PStr title) →
  article !! py "description" = Some (PStr description) →
  analyze_fallback rt article e page =
    (Ret (Some (result (firstn 200 description ++ py "...") (py "Neutral") 5)),
     page ++ [StWarning ([9888; 65039] ++ py " Failed to analyze article: "
                         ++ firstn 50 title ++ py "... Error: " ++ str_exn rt e)]).
Proof.
  intros Ht Hd. unfold analyze_fallback, getitem. rewrite Ht, Hd.
  reflexivity.
Qed.

(** The three ways in which the function hands back a dict. *)
Lemma analyze_article_some (g : gemini) (article : pydict) (api_key : pystr)
    (page page' : list diagnostic) (r : pydict) :
  analyze_article rt g article api_key page = (Ret (Some r), page') →
  (∃ text, parse_reply rt text = Ret r)
  ∨ r = result (py "Analysis unavailable.") (py "neutral") 5
  ∨ (∃ summary, r = degraded summary).
Proof.
  unfold analyze_article.
  destruct (configure g api_key) as [e|].
  { unfold_monad. discriminate. }
  unfold getitem.
  destruct (article !! py "title") as [title|] eqn:Ht;
    [|unfold_monad; discriminate].
  destruct (article !! py "description") as [description|] eqn:Hd;
    [|unfold_monad; discriminate].
  unfold_monad. unfold analyze_body. unfold_monad.
  destruct (generate_content g _) as [text|e].
  - destruct text as [|c text].
    + intros H. injection H as <- _. right. left. reflexivity.
    + destruct (parse_reply rt (c :: text)) as [r0|e] eqn:Hp.
      * intros H. injection H as <- _. left. eauto.
      * unfold analyze_fallback, getitem. rewrite Ht, Hd. unfold_monad.
        destruct (slice_to 50 title); [|discriminate].
        destruct (slice_to 200 description) as [d200|]; [|discriminate].
        destruct (add_str d200 (py "...")) as [summary|]; [|discriminate].
        intros H. injection H as <- _. right. right. eauto.
  - unfold analyze_fallback, getitem. rewrite Ht, Hd. unfold_monad.
    destruct (slice_to 50 title); [|discriminate].
    destruct (slice_to 200 description) as [d200|]; [|discriminate].
    destruct (add_str d200 (py "...")) as [summary|]; [|discriminate].
    intros H. injection H as <- _. right. right. eauto.
Qed.

(** On an Article the function returns: nothing, with one error on the
    page, when the configuration fails, and an analysis otherwise. *)
Lemma analyze_article_cases (g : gemini) (article : pydict) (api_key : pystr)
    (page : list diagnostic) :
  is_article article →
  (∃ e, configure g api_key = Some e
        ∧ analyze_article rt g article api_key page =
            (Ret None,
             page ++ [StError ([10060] ++ py " Failed to configure Gemini API: "
                               ++ str_exn rt e)]))
  ∨ (configure g api_key = None
     ∧ ∃ r page', analyze_article rt g article api_key page = (Ret (Some r), page')).
Proof.
  intros (title & description & Ht & Hd).
  destruct (configure g api_key) as [e|] eqn:Hc.
  - left. exists e. split; [reflexivity|].
    unfold analyze_article. rewrite Hc. reflexivity.
  - right. split; [reflexivity|].
    rewrite (analyze_article_configured g article api_key _ _ Hc Ht Hd).
    unfold try_except. unfold_monad.
    destruct (analyze_body rt g _) as [r|e].
    + eauto.
    + rewrite (analyze_fallback_article article e title description page Ht Hd).
      eauto.
Qed.

End Analyze.

(** Unless the reply was empty, the label of a returned analysis is one
    of the four canonical ones. *)
Lemma sentiment_canonical_unless_default (rt : runtime) (g : gemini)
    (article : pydict) (api_key : pystr) (page page' : list diagnostic)
    (r : pydict) :
  analyze_article rt g article api_key page = (Ret (Some r), page') →
  r ≠ result (py "Analysis unavailable.") (py "neutral") 5 →
  ∃ sentiment,
    r !! py "sentiment" = Some (PStr sentiment)
    ∧ sentiment ∈ canonical_sentiments.
Proof.
  intros H Hne.
  destruct (analyze_article_some rt g article api_key page page' r H)
    as [[text Hp] | [-> | [summary ->]]].
  - destruct (parse_reply_shape rt text r Hp) as (s & t & n & -> & _ & Ht & _).
    exists (capitalize rt t). split; [apply result_sentiment|].
    apply capitalize_sentiment, Ht.
  - contradiction.
  - exists (py "Neutral"). split; [apply degraded_sentiment|].
    apply list_elem_of_In. simpl. tauto.
Qed.

(** C1, at the input where the code leaves the invariant: on an empty
    reply the returned sentiment is the lower-case word neutral, which is
    none of Positive, Negative, Tense, Neutral. *)
Theorem sentiment_lowercase_on_empty_reply :
  ∀ (rt : runtime) (api_key : pystr) (page : list diagnostic),
  ∃ r sentiment,
    analyze_article rt (answering []) sample_article api_key page
      = (Ret (Some r), page)
    ∧ r !! py "sentiment" = Some (PStr sentiment)
    ∧ sentiment = py "neutral"
    ∧ sentiment ∉ canonical_sentiments.
Proof.
  intros rt api_key page.
  exists (result (py "Analysis unavailable.") (py "neutral") 5), (py "neutral").
  split; [reflexivity|]. split; [apply result_sentiment|].
  split; [reflexivity|].
  intros H. apply list_elem_of_In in H. vm_compute in H.
  repeat (destruct H as [H|H]; [discriminate|]). exact H.
Qed.

(** C2: the impact score of every returned analysis is an integer
    between 1 and 10; the parsed value is clamped (15 gives 10, 0 gives 1,
    7 stays 7) and a reply without an IMPACT_SCORE value gives 5. *)
Theorem impact_score_clamped (rt : runtime) :
  (∀ g article api_key page page' r,
      analyze_article rt g article api_key page = (Ret (Some r), page') →
      ∃ n, r !! py "impact_score" = Some (PInt n) ∧ (1 <= n <= 10)%Z)
  ∧ (∀ text r digits v,
        parse_reply rt text = Ret r →
        search rt ignorecase score_re (strip rt text) = Some (Some digits) →
        int rt digits = Ret v →
        r !! py "impact_score" = Some (PInt (Z.max 1 (Z.min 10 v))))
  ∧ (∀ text r,
        parse_reply rt text = Ret r →
        search rt ignorecase score_re (strip rt text) = None →
        r !! py "impact_score" = Some (PInt 5))
  ∧ (∀ api_key page,
        analyze_article rt (answering (py "IMPACT_SCORE: 15")) sample_article
          api_key page
        = (Ret (Some (result (py "Summary not available.") (py "Neutral") 10)),
           page))
  ∧ (∀ api_key page,
        analyze_article rt (answering (py "IMPACT_SCORE: 0")) sample_article
          api_key page
        = (Ret (Some (result (py "Summary not available.") (py "Neutral") 1)),
           page))
  ∧ (∀ api_key page,
        analyze_article rt (answering (py "IMPACT_SCORE: 7")) sample_article
          api_key page
        = (Ret (Some (result (py "Summary not available.") (py "Neutral") 7)),
           page))
  ∧ (∀ api_key page,
        analyze_article rt (answering (py "SENTIMENT: tense")) sample_article
          api_key page
        = (Ret (Some (result (py "Summary not available.") (py "Tense") 5)),
           page)).
Proof.
  split.
  { intros g article api_key page page' r H.
    destruct (analyze_article_some rt g article api_key page page' r H)
      as [[text Hp] | [-> | [summary ->]]].
    - destruct (parse_reply_shape rt text r Hp) as (s & t & n & -> & _ & _ & Hn).
      exists n. split; [apply result_impact_score | exact Hn].
    - exists 5%Z. split; [apply result_impact_score | lia].
    - exists 5%Z. split; [apply degraded_impact_score | lia]. }
  split.
  { intros text r digits v Hp Hs Hv. revert Hp.
    unfold parse_reply, extract_impact_score. rewrite Hs. unfold_monad.
    destruct (extract_summary rt (strip rt text)); [|discriminate].
    destruct (extract_sentiment rt (strip rt text)); [|discriminate].
    cbn [group1]. rewrite Hv. intros H. injection H as <-.
    apply result_impact_score. }
  split.
  { intros text r Hp Hs. revert Hp.
    unfold parse_reply, extract_impact_score. rewrite Hs. unfold_monad.
    destruct (extract_summary rt (strip rt text)); [|discriminate].
    destruct (extract_sentiment rt (strip rt text)); [|discriminate].
    intros H. injection H as <-. apply result_impact_score. }
  repeat split; intros api_key page; vm_compute; reflexivity.
Qed.

Lemma impact_score_clamped_witness :
  (analyze_article ascii_runtime (answering (py "IMPACT SCORE: 42"))
     sample_article [] []
   = (Ret (Some (result (py "Summary not available.") (py "Neutral") 10)), [])
   ∧ ∃ n,
       result (py "Summary not available.") (py "Neutral") 10 !! py "impact_score"
       = Some (PInt n)
       ∧ (1 <= n <= 10)%Z)
  ∧ (int ascii_runtime (py "42") = Ret 42%Z
     ∧ result (py "Summary not available.") (py "Neutral") 10 !! py "impact_score"
       = Some (PInt (Z.max 1 (Z.min 10 42))))
  ∧ (search ascii_runtime ignorecase score_re (strip ascii_runtime (py "hello"))
     = None
     ∧ result (py "Summary not available.") (py "Neutral") 5 !! py "impact_score"
       = Some (PInt 5)).
Proof.
  destruct (impact_score_clamped ascii_runtime) as (H1 & H2 & H3 & _).
  split; [|split].
  - split; [reflexivity|].
    apply (H1 (answering (py "IMPACT SCORE: 42")) sample_article [] [] []).
    reflexivity.
  - split; [reflexivity|].
    apply (H2 (py "IMPACT SCORE: 42") _ (py "42") 42%Z); reflexivity.
  - split; [reflexivity|].
    apply (H3 (py "hello")); reflexivity.
Defined.

(** C3: when the model call raises, the article still gets an analysis:
    its description cut to 200 characters followed by three dots,
    sentiment Neutral, impact score 5; the failure is reported as one
    warning. *)
Theorem analyze_article_model_failure (rt : runtime) (g : gemini)
    (article : pydict) (api_key : pystr) (page : list diagnostic)
    (title description : pystr) (e : exn) :
  article !! py "title" = Some (PStr title) →
  article !! py "description" = Some (PStr description) →
  configure g api_key = None →
  generate_content g (prompt_for rt (PStr title) (PStr description)) = Raise e →
  analyze_article rt g article api_key page =
    (Ret (Some (result (firstn 200 description ++ py "...") (py "Neutral") 5)),
     page ++ [StWarning ([9888; 65039] ++ py " Failed to analyze article: "
                         ++ firstn 50 title ++ py "... Error: " ++ str_exn rt e)]).
Proof.
  intros Ht Hd Hc Hg.
  rewrite (analyze_article_configured rt g article api_key _ _ Hc Ht Hd).
  unfold try_except, analyze_body. unfold_monad. rewrite Hg.
  apply analyze_fallback_article; assumption.
Qed.

Lemma analyze_article_model_failure_witness :
  analyze_article ascii_runtime (failing Timeout) sample_article [] [] =
    (Ret (Some (result (py "Leaders met in Geneva...." ) (py "Neutral") 5)),
     [StWarning ([9888; 65039]
                 ++ py " Failed to analyze article: Summit ends... Error: error")]).
Proof.
  apply (analyze_article_model_failure ascii_runtime (failing Timeout)
           sample_article [] [] (py "Summit ends") (py "Leaders met in Geneva.")
           Timeout); reflexivity.
Defined.

(** C9, as the code behaves: an empty reply gives the fixed analysis
    with summary Analysis unavailable., impact score 5 and the sentiment
    written neutral, in lower case, not Neutral. *)
Theorem analyze_article_empty_reply (rt : runtime) (g : gemini)
    (article : pydict) (api_key : pystr) (page : list diagnostic)
    (title description : pyval) :
  article !! py "title" = Some title →
  article !! py "description" = Some description →
  configure g api_key = None →
  generate_content g (prompt_for rt title description) = Ret [] →
  analyze_article rt g article api_key page =
    (Ret (Some (result (py "Analysis unavailable.") (py "neutral") 5)), page)
  ∧ py "neutral" ≠ py "Neutral".
Proof.
  intros Ht Hd Hc Hg. split; [|vm_compute; discriminate].
  rewrite (analyze_article_configured rt g article api_key _ _ Hc Ht Hd).
  unfold try_except, analyze_body. unfold_monad. rewrite Hg. reflexivity.
Qed.

Lemma analyze_article_empty_reply_witness :
  analyze_article ascii_runtime (answering []) sample_article [] [] =
    (Ret (Some (result (py "Analysis unavailable.") (py "neutral") 5)), [])
  ∧ py "neutral" ≠ py "Neutral".
Proof.
  apply (analyze_article_empty_reply ascii_runtime (answering []) sample_article
           [] [] (PStr (py "Summit ends")) (PStr (py "Leaders met in Geneva.")));
    reflexivity.
Defined.

Section Batch.

Variable rt : runtime.

(** The page only grows, and what is returned does not depend on it. *)
Lemma analyze_article_page (g : gemini) (article : pydict) (api_key : pystr)
    (page : list diagnostic) :
  analyze_article rt g article api_key page =
    (fst (analyze_article rt g article api_key []),
     page ++ snd (analyze_article rt g article api_key [])).
Proof.
  unfold analyze_article.
  destruct (configure g api_key) as [e|]; [reflexivity|].
  unfold getitem.
  destruct (article !! py "title") as [title|] eqn:Ht;
    [|unfold_monad; cbn; rewrite app_nil_r; reflexivity].
  destruct (article !! py "description") as [description|] eqn:Hd;
    [|unfold_monad; cbn; rewrite app_nil_r; reflexivity].
  unfold_monad.
  destruct (analyze_body rt g _) as [r|e];
    [cbn; rewrite app_nil_r; reflexivity|].
  unfold analyze_fallback, getitem. rewrite Ht, Hd. unfold_monad.
  destruct (slice_to 50 title);
    [|cbn; rewrite app_nil_r; reflexivity].
  destruct (slice_to 200 description) as [d200|]; [|reflexivity].
  destruct (add_str d200 (py "...")); reflexivity.
Qed.

Lemma degraded_nonempty (v : pyval) : degraded v ≠ ∅.
Proof.
  intros H. pose proof (degraded_sentiment v) as E.
  rewrite H, lookup_empty in E. discriminate.
Qed.

(** A returned analysis passes the test [if analysis:]. *)
Lemma analyze_article_truthy (g : gemini) (article : pydict) (api_key : pystr)
    (page page' : list diagnostic) (r : pydict) :
  analyze_article rt g article api_key page = (Ret (Some r), page') →
  truthy_opt (Some r) = true.
Proof.
  intros H. unfold truthy_opt. cbn.
  apply negb_true_iff, bool_decide_eq_false_2.
  destruct (analyze_article_some rt g article api_key page page' r H)
    as [[text Hp] | [-> | [summary ->]]].
  - destruct (parse_reply_shape rt text r Hp) as (s & t & n & -> & _).
    apply result_nonempty.
  - apply result_nonempty.
  - apply degraded_nonempty.
Qed.

(** On Articles no call raises. *)
Lemma analyze_article_returns (g : gemini) (article : pydict) (api_key : pystr) :
  is_article article →
  fst (analyze_article rt g article api_key [])
  = Ret (returned rt g article api_key).
Proof.
  intros Ha. unfold returned.
  destruct (analyze_article_cases rt g article api_key [] Ha)
    as [(e & _ & ->) | (_ & r & page' & ->)]; reflexivity.
Qed.

Lemma calls_cons (i : nat) (article : pydict) (rest : list pydict) :
  calls i (article :: rest) = (i, article) :: calls (S i) rest.
Proof. reflexivity. Qed.

Lemma calls_length (articles : list pydict) (i : nat) :
  length (calls i articles) = length articles.
Proof.
  revert i. induction articles as [|a rest IH]; intros i; [reflexivity|].
  rewrite calls_cons. cbn [length]. rewrite IH. reflexivity.
Qed.

Lemma calls_snd (articles : list pydict) (i : nat) :
  List.map snd (calls i articles) = articles.
Proof.
  revert i. induction articles as [|a rest IH]; intros i; [reflexivity|].
  rewrite calls_cons. cbn [List.map snd]. rewrite IH. reflexivity.
Qed.

Lemma omap_length_le {A B} (f : A → option B) (l : list A) :
  (length (omap f l) <= length l)%nat.
Proof.
  induction l as [|x l IH]; cbn; [lia|].
  destruct (f x); cbn; lia.
Qed.

(** The loop, by induction on the articles still to be analysed. *)
Lemma batch_loop_spec (svc : nat → gemini) (api_key : pystr)
    (articles : list pydict) :
  Forall is_article articles →
  ∀ i analyzed page,
    batch_loop rt svc i articles api_key analyzed page =
      (Ret (analyzed ++ omap (enrich rt svc api_key) (calls i articles)),
       page ++ flat_map (reported rt svc api_key) (calls i articles)).
Proof.
  induction 1 as [|article rest Ha _ IH]; intros i analyzed page.
  - cbn. rewrite !app_nil_r. reflexivity.
  - cbn [batch_loop]. unfold mbind at 1, M_mbind, M_bind.
    rewrite analyze_article_page, (analyze_article_returns _ _ _ Ha).
    rewrite calls_cons. cbn [omap list_omap flat_map].
    unfold enrich at 1, reported at 1; cbn [fst snd].
    destruct (returned rt (svc i) article api_key) as [a|] eqn:Hr; cbn [mbind option_bind].
    + assert (Ht : truthy_opt (Some a) = true).
      { unfold returned in Hr.
        destruct (analyze_article rt (svc i) article api_key []) as [o p] eqn:E.
        cbn in Hr. destruct o as [o|]; [|discriminate]. subst o.
        eapply analyze_article_truthy, E. }
      rewrite Ht, IH, <- !app_assoc. reflexivity.
    + rewrite IH, <- app_assoc. reflexivity.
Qed.

(** The loop on any list: when it returns, every call has returned,
    and the result is the same filter. *)
Lemma batch_loop_inv (svc : nat → gemini) (api_key : pystr)
    (articles : list pydict) :
  ∀ i analyzed page out page',
  batch_loop rt svc i articles api_key analyzed page = (Ret out, page') →
  out = analyzed ++ omap (enrich rt svc api_key) (calls i articles)
  ∧ page' = page ++ flat_map (reported rt svc api_key) (calls i articles)
  ∧ ∀ call, call ∈ calls i articles →
      fst (analyze_article rt (svc (fst call)) (snd call) api_key [])
      = Ret (returned rt (svc (fst call)) (snd call) api_key).
Proof.
  induction articles as [|article rest IH]; intros i analyzed page out page'.
  - cbn. intros [= <- <-]. rewrite !app_nil_r.
    split; [reflexivity|]. split; [reflexivity|].
    intros call Hin. apply elem_of_nil in Hin. contradiction.
  - cbn [batch_loop]. unfold mbind at 1, M_mbind, M_bind.
    rewrite analyze_article_page, calls_cons.
    cbn [omap list_omap flat_map]. unfold enrich at 1, reported at 1.
    cbn [fst snd].
    destruct (analyze_article rt (svc i) article api_key []) as [o diags] eqn:E.
    assert (Er : returned rt (svc i) article api_key
                 = match o with Ret analysis => analysis | Raise _ => None end).
    { unfold returned. rewrite E. reflexivity. }
    cbn [fst snd]. destruct o as [analysis|e]; [|discriminate].
    rewrite Er. intros H. apply IH in H as (-> & -> & Hcalls).
    assert (Hhead : fst (analyze_article rt (svc i) article api_key [])
                    = Ret (returned rt (svc i) article api_key)).
    { rewrite Er, E. reflexivity. }
    destruct analysis as [a|]; cbn [mbind option_bind].
    + rewrite (analyze_article_truthy _ _ _ _ _ _ E), <- !app_assoc.
      split; [reflexivity|]. split; [reflexivity|].
      intros call Hin. apply elem_of_cons in Hin as [-> | Hin];
        [exact Hhead | exact (Hcalls call Hin)].
    + rewrite <- app_assoc.
      split; [reflexivity|]. split; [reflexivity|].
      intros call Hin. apply elem_of_cons in Hin as [-> | Hin];
        [exact Hhead | exact (Hcalls call Hin)].
Qed.

End Batch.

(** C4: the orchestrator returns, in their input order, exactly the
    articles whose analysis was not nothing, each merged with its
    analysis; the others leave no record, the page receives only what
    the calls themselves report, and the output is no longer than the
    input.  On a list of Articles the orchestrator always returns; on any
    list, whenever it returns, this is what it returns. *)
Theorem batch_analyze_articles_stable_filter (rt : runtime)
    (svc : nat → gemini) (articles : list pydict) (api_key : pystr)
    (page : list diagnostic) :
  (Forall is_article articles →
   batch_analyze_articles rt svc articles api_key page =
     (Ret (omap (enrich rt svc api_key) (calls 0 articles)),
      page ++ flat_map (reported rt svc api_key) (calls 0 articles)))
  ∧ (∀ out page',
        batch_analyze_articles rt svc articles api_key page = (Ret out, page') →
        out = omap (enrich rt svc api_key) (calls 0 articles)
        ∧ page' = page ++ flat_map (reported rt svc api_key) (calls 0 articles)
        ∧ ∀ i article p,
            (i, article) ∈ calls 0 articles →
            fst (analyze_article rt (svc i) article api_key p)
            = Ret (returned rt (svc i) article api_key))
  ∧ List.map snd (calls 0 articles) = articles
  ∧ (length (omap (enrich rt svc api_key) (calls 0 articles))
     <= length articles)%nat.
Proof.
  split; [|split; [|split]].
  - intros Hall.
    apply (batch_loop_spec rt svc api_key articles Hall 0%nat [] page).
  - intros out page' H.
    destruct (batch_loop_inv rt svc api_key articles 0%nat [] page out page' H)
      as (-> & -> & Hcalls).
    split; [reflexivity|]. split; [reflexivity|].
    intros i article p Hin. rewrite analyze_article_page. cbn [fst].
    exact (Hcalls (i, article) Hin).
  - apply calls_snd.
  - etransitivity; [apply omap_length_le|]. rewrite calls_length. lia.
Qed.

Lemma batch_analyze_articles_stable_filter_witness :
  Forall is_article [sample_article; sample_article; sample_article]
  ∧ batch_analyze_articles ascii_runtime
      (fun i => match i with
                | 1%nat => misconfigured ValueError
                | _ => answering (py "SENTIMENT: Tense")
                end)
      [sample_article; sample_article; sample_article] (py "key") []
    = (Ret [result (py "Summary not available.") (py "Tense") 5 ∪ sample_article;
            result (py "Summary not available.") (py "Tense") 5 ∪ sample_article],
       [StError ([10060] ++ py " Failed to configure Gemini API: error")])
  ∧ [result (py "Summary not available.") (py "Tense") 5 ∪ sample_article;
     result (py "Summary not available.") (py "Tense") 5 ∪ sample_article]
    = omap (enrich ascii_runtime
              (fun i => match i with
                        | 1%nat => misconfigured ValueError
                        | _ => answering (py "SENTIMENT: Tense")
                        end) (py "key"))
        (calls 0 [sample_article; sample_article; sample_article]).
Proof.
  assert (Ha : Forall is_article
                 [sample_article; sample_article; sample_article]).
  { repeat constructor;
      (exists (py "Summit ends"), (py "Leaders met in Geneva.");
       split; reflexivity). }
  pose proof (batch_analyze_articles_stable_filter ascii_runtime
                (fun i => match i with
                          | 1%nat => misconfigured ValueError
                          | _ => answering (py "SENTIMENT: Tense")
                          end)
                [sample_article; sample_article; sample_article]
                (py "key") []) as (H1 & H2 & _).
  assert (E : batch_analyze_articles ascii_runtime
                (fun i => match i with
                          | 1%nat => misconfigured ValueError
                          | _ => answering (py "SENTIMENT: Tense")
                          end)
                [sample_article; sample_article; sample_article] (py "key") []
              = (Ret [result (py "Summary not available.") (py "Tense") 5
                        ∪ sample_article;
                      result (py "Summary not available.") (py "Tense") 5
                        ∪ sample_article],
                 [StError ([10060]
                           ++ py " Failed to configure Gemini API: error")])).
  { rewrite (H1 Ha). vm_compute. reflexivity. }
  split; [exact Ha|]. split; [exact E|].
  exact (proj1 (H2 _ _ E)).
Defined.

Section Fetch.

Variable rt : runtime.

Lemma get_dict (d : pydict) (k : pystr) (default : pyval) :
  get (PDict d) k default = Ret (from_option id default (d !! k)).
Proof. reflexivity. Qed.

(** A field that is present and not empty is not replaced by a default. *)
Lemma truthy_field (d : pydict) (k : pystr) (default : pyval) :
  truthy (field d k) = true →
  from_option id default (d !! k) = field d k.
Proof.
  unfold field. destruct (d !! k); [reflexivity|discriminate].
Qed.

(** An item without sufficient content leaves the list as it is. *)
Lemma fetch_item_insufficient (d : pydict) (articles : list pydict) :
  sufficient d = false → fetch_item (PDict d) articles = Ret articles.
Proof.
  unfold sufficient, fetch_item. rewrite !get_dict. fold (field d (py "title")).
  fold (field d (py "description")). fold (field d (py "content")).
  unfold_monad.
  destruct (truthy (field d (py "title"))); [|reflexivity].
  destruct (truthy (field d (py "description"))); [discriminate|].
  rewrite andb_true_l, orb_false_l. intros ->. reflexivity.
Qed.

(** What one turn of the loop can do when it does not raise. *)
Lemma fetch_item_inv (item : pyval) (articles out : list pydict) :
  fetch_item item articles = Ret out →
  ∃ d, item = PDict d
       ∧ ((sufficient d = false ∧ out = articles)
          ∨ (sufficient d = true
             ∧ ∃ article,
                 out = articles ++ [article]
                 ∧ article !! py "title" = Some (field d (py "title")))).
Proof.
  destruct item as [| | | | |l|d]; try discriminate.
  intros H. exists d. split; [reflexivity|].
  destruct (sufficient d) eqn:Hs.
  - right. split; [reflexivity|]. revert H.
    unfold sufficient in Hs. apply andb_true_iff in Hs as [Ht Hdc].
    unfold fetch_item. rewrite !get_dict.
    fold (field d (py "title")). fold (field d (py "description")).
    fold (field d (py "content")). unfold_monad. rewrite Ht.
    rewrite (truthy_field d (py "title") _ Ht).
    assert (Hsuff :
      (if truthy (field d (py "description")) then Ret true
       else Ret (truthy (field d (py "content")))) = Ret true).
    { destruct (truthy (field d (py "description"))) eqn:E; [reflexivity|].
      rewrite ?E, orb_false_l in Hdc. rewrite Hdc. reflexivity. }
    rewrite Hsuff.
    destruct (py_or _ _) as [description|]; [|discriminate].
    intros E. injection E as <-. eexists. split; [reflexivity|].
    apply lookup_insert_eq.
  - left. split; [reflexivity|].
    rewrite (fetch_item_insufficient d articles Hs) in H.
    injection H as <-. reflexivity.
Qed.

(** Every article the loop adds comes from an item with sufficient
    content. *)
Lemma fetch_loop_inv (items : list pyval) :
  ∀ articles out,
  fetch_loop items articles = Ret out →
  ∀ article, article ∈ out →
    article ∈ articles
    ∨ ∃ d, PDict d ∈ items ∧ sufficient d = true
           ∧ article !! py "title" = Some (field d (py "title")).
Proof.
  induction items as [|item rest IH]; intros articles out H article Hin.
  - cbn in H. injection H as <-. left. exact Hin.
  - cbn [fetch_loop] in H. unfold_monad.
    destruct (fetch_item item articles) as [articles'|] eqn:Hi; [|discriminate].
    destruct (IH articles' out H article Hin) as [Hin' | (d & Hd & Hs & Ht)].
    + destruct (fetch_item_inv item articles articles' Hi)
        as (d & -> & [[_ ->] | (Hs & a & -> & Ht)]).
      * left. exact Hin'.
      * apply elem_of_app in Hin' as [Hin' | Hin'].
        -- left. exact Hin'.
        -- apply list_elem_of_singleton in Hin'. subst a.
           right. exists d. split; [left|]. split; assumption.
    + right. exists d. split; [right; exact Hd|]. split; assumption.
Qed.

(** An item with a title whose description and body are both missing
    or empty does not change what the loop yields. *)
Lemma fetch_loop_skips (early late : list pyval) (d : pydict) :
  sufficient d = false →
  ∀ articles,
  fetch_loop (early ++ PDict d :: late) articles
  = fetch_loop (early ++ late) articles.
Proof.
  intros Hs. induction early as [|item early IH]; intros articles.
  - cbn [app fetch_loop]. rewrite (fetch_item_insufficient d articles Hs).
    reflexivity.
  - cbn [app fetch_loop]. unfold_monad.
    destruct (fetch_item item articles); [apply IH|reflexivity].
Qed.

Lemma ne_str_false (v : pyval) (s : pystr) :
  ne_str v s = false ↔ v = PStr s.
Proof.
  destruct v; cbn; try (split; [discriminate|discriminate]).
  rewrite negb_false_iff, bool_decide_eq_true.
  split; [intros ->; reflexivity|intros [= ->]; reflexivity].
Qed.

(** Each handler puts one error on the page and returns the empty list. *)
Lemma fetch_handler_spec (e : exn) (page : list diagnostic) :
  ∃ message, fetch_handler rt e page = (Ret [], page ++ [StError message]).
Proof. destruct e; eexists; reflexivity. Qed.

Section Request.

Variable http : transport.
Variables query api_key : pystr.
Variable max_results : Z.

(** The [try] block on a response that decodes to a success payload
    with a list of results is the loop over that list. *)
Lemma fetch_body_success (resp : response) (data : pydict)
    (items : list pyval) :
  http base_url (params_of query api_key max_results) 10%Z = Ret resp →
  raise_for_status resp = None →
  json resp = Ret (PDict data) →
  data !! py "status" = Some (PStr (py "success")) →
  data !! py "results" = Some (PList items) →
  fetch_body rt http query api_key max_results = lift (fetch_loop items []).
Proof.
  intros Hr Hs Hj Hst Hres.
  unfold fetch_body. rewrite Hr. unfold_monad. rewrite Hs, Hj.
  rewrite !get_dict, Hst, Hres. cbn [from_option id iterate].
  replace (ne_str (PStr (py "success")) (py "success")) with false
    by (symmetry; apply ne_str_false; reflexivity).
  reflexivity.
Qed.

(** The [try] block either returns and leaves the page alone, or
    returns the empty list after one error, or raises and leaves the page
    alone. *)
Lemma fetch_body_outcome (page : list diagnostic) :
  (∃ articles,
      fetch_body rt http query api_key max_results page = (Ret articles, page))
  ∨ (∃ message,
        fetch_body rt http query api_key max_results page
        = (Ret [], page ++ [StError message]))
  ∨ (∃ e, fetch_body rt http query api_key max_results page = (Raise e, page)).
Proof.
  unfold fetch_body. unfold_monad.
  destruct (http base_url _ _) as [resp|e]; [|right; right; eauto].
  destruct (raise_for_status resp) as [e|]; [right; right; eauto|].
  destruct (json resp) as [data|e]; [|right; right; eauto].
  destruct (get data (py "status") PNone) as [status|e]; [|right; right; eauto].
  destruct (ne_str status (py "success")).
  - destruct (get data (py "results") (PDict ∅)) as [results|e];
      [|right; right; eauto].
    destruct (get results (py "message") _) as [message|e];
      [|right; right; eauto].
    right. left. eauto.
  - destruct (get data (py "results") (PList [])) as [results|e];
      [|right; right; eauto].
    destruct (iterate results) as [items|e]; [|right; right; eauto].
    destruct (fetch_loop items []) as [articles|e]; [left|right; right]; eauto.
Qed.

(** The function returns in every case: the articles with the page
    untouched, or the empty list with one error added. *)
Lemma fetch_news_outcome (page : list diagnostic) :
  (∃ articles,
      fetch_news rt http query api_key max_results page = (Ret articles, page))
  ∨ (∃ message,
        fetch_news rt http query api_key max_results page
        = (Ret [], page ++ [StError message])).
Proof.
  unfold fetch_news, try_except.
  destruct (fetch_body_outcome page) as [[a ->] | [[m ->] | [e ->]]].
  - left. eauto.
  - right. eauto.
  - right. apply fetch_handler_spec.
Qed.

(** A returned article was built by the loop from a list of results
    of a success payload. *)
Lemma fetch_news_inv (page page' : list diagnostic) (articles : list pydict)
    (article : pydict) :
  fetch_news rt http query api_key max_results page = (Ret articles, page') →
  article ∈ articles →
  ∃ resp data items,
    http base_url (params_of query api_key max_results) 10%Z = Ret resp
    ∧ raise_for_status resp = None
    ∧ json resp = Ret (PDict data)
    ∧ data !! py "status" = Some (PStr (py "success"))
    ∧ data !! py "results" = Some (PList items)
    ∧ fetch_loop items [] = Ret articles.
Proof.
  unfold fetch_news, try_except, fetch_body. unfold_monad.
  intros H Hin.
  assert (Hh : ∀ e p, fetch_handler rt e p ≠ (Ret articles, page')).
  { intros e p E. destruct (fetch_handler_spec e p) as [m Em].
    rewrite Em in E. injection E as <- _. apply elem_of_nil in Hin. exact Hin. }
  destruct (http base_url _ _) as [resp|e]; [|destruct (Hh _ _ H)].
  destruct (raise_for_status resp) as [e|] eqn:Hs; [destruct (Hh _ _ H)|].
  destruct (json resp) as [data|e] eqn:Hj; [|destruct (Hh _ _ H)].
  destruct data as [| | | | | |data]; try destruct (Hh _ _ H).
  rewrite !get_dict in H.
  destruct (ne_str _ (py "success")) eqn:Hne.
  - destruct (get _ (py "message") _); [|destruct (Hh _ _ H)].
    injection H as <- _. apply elem_of_nil in Hin. contradiction.
  - apply ne_str_false in Hne.
    destruct (data !! py "status") as [status|] eqn:Hst; [|discriminate].
    cbn [from_option id] in Hne. subst status.
    destruct (iterate _) as [items|e] eqn:Hit; [|destruct (Hh _ _ H)].
    destruct (fetch_loop items []) as [out|e] eqn:Hl; [|destruct (Hh _ _ H)].
    injection H as -> _.
    destruct (fetch_loop_inv items [] articles Hl article Hin)
      as [Hnil | (d & Hd & _)]; [apply elem_of_nil in Hnil; contradiction|].
    exists resp, data, items.
    split; [reflexivity|]. split; [exact Hs|]. split; [exact Hj|].
    split; [exact Hst|]. split; [|exact Hl].
    destruct (data !! py "results") as [results|] eqn:Hres.
    + cbn [from_option id] in Hit.
      destruct results as [| | | |s|l|dd]; try discriminate.
      * injection Hit as <-. apply list_elem_of_In, in_map_iff in Hd.
        destruct Hd as (c & Hc & _). discriminate.
      * injection Hit as <-. reflexivity.
      * injection Hit as <-. apply list_elem_of_In, in_map_iff in Hd.
        destruct Hd as (c & Hc & _). discriminate.
    + cbn in Hit. injection Hit as <-. apply elem_of_nil in Hd. contradiction.
Qed.

End Request.

End Fetch.

(** C6: an Article is emitted only for an item that has a title and a
    description or a body, each present and not empty; an item with a
    title whose description and body are both missing or empty is left
    out, and the call returns what it returns without that item. *)
Theorem fetch_news_only_sufficient_items (rt : runtime) (http : transport)
    (query api_key : pystr) (max_results : Z) (page : list diagnostic) :
  (∀ articles page' article,
      fetch_news rt http query api_key max_results page = (Ret articles, page') →
      article ∈ articles →
      ∃ resp data items d,
        http base_url (params_of query api_key max_results) 10%Z = Ret resp
        ∧ json resp = Ret (PDict data)
        ∧ data !! py "results" = Some (PList items)
        ∧ PDict d ∈ items
        ∧ article !! py "title" = Some (field d (py "title"))
        ∧ truthy (field d (py "title")) = true
        ∧ (truthy (field d (py "description")) = true
           ∨ truthy (field d (py "content")) = true))
  ∧ (∀ resp data early d late,
        http base_url (params_of query api_key max_results) 10%Z = Ret resp →
        raise_for_status resp = None →
        json resp = Ret (PDict data) →
        data !! py "status" = Some (PStr (py "success")) →
        data !! py "results" = Some (PList (early ++ PDict d :: late)) →
        truthy (field d (py "title")) = true →
        truthy (field d (py "description")) = false →
        truthy (field d (py "content")) = false →
        fetch_news rt http query api_key max_results page
        = fetch_news rt
            (serving (PDict (<[py "results" := PList (early ++ late)]> data)))
            query api_key max_results page).
Proof.
  split.
  - intros articles page' article H Hin.
    destruct (fetch_news_inv rt http query api_key max_results page page'
                articles article H Hin)
      as (resp & data & items & Hr & _ & Hj & _ & Hres & Hl).
    destruct (fetch_loop_inv items [] articles Hl article Hin)
      as [Hnil | (d & Hd & Hs & Ht)]; [apply elem_of_nil in Hnil; contradiction|].
    exists resp, data, items, d.
    unfold sufficient in Hs. apply andb_true_iff in Hs as [Hs1 Hs2].
    apply orb_true_iff in Hs2. tauto.
  - intros resp data early d late Hr Hs Hj Hst Hres Ht Hd Hc.
    unfold fetch_news.
    rewrite (fetch_body_success rt http query api_key max_results resp data
               (early ++ PDict d :: late) Hr Hs Hj Hst Hres).
    rewrite (fetch_body_success rt (serving _) query api_key max_results
               {| raise_for_status := None;
                  json := Ret (PDict (<[py "results" := PList (early ++ late)]> data)) |}
               (<[py "results" := PList (early ++ late)]> data)
               (early ++ late) eq_refl eq_refl eq_refl).
    + rewrite fetch_loop_skips; [reflexivity|].
      unfold sufficient. rewrite Ht, Hd, Hc. reflexivity.
    + rewrite lookup_insert_ne by (vm_compute; discriminate). exact Hst.
    + apply lookup_insert_eq.
Qed.

Lemma fetch_news_only_sufficient_items_witness :
  fetch_news ascii_runtime (serving (PDict two_items)) (py "q") (py "k") 10 []
  = (Ret [full_article], [])
  ∧ ∃ resp data items d,
      serving (PDict two_items) base_url (params_of (py "q") (py "k") 10) 10%Z
      = Ret resp
      ∧ json resp = Ret (PDict data)
      ∧ data !! py "results" = Some (PList items)
      ∧ PDict d ∈ items
      ∧ full_article !! py "title" = Some (field d (py "title"))
      ∧ truthy (field d (py "title")) = true
      ∧ (truthy (field d (py "description")) = true
         ∨ truthy (field d (py "content")) = true).
Proof.
  assert (E : fetch_news ascii_runtime (serving (PDict two_items))
                (py "q") (py "k") 10 [] = (Ret [full_article], [])).
  { rewrite (proj2 (fetch_news_only_sufficient_items ascii_runtime
                      (serving (PDict two_items)) (py "q") (py "k") 10 [])
               {| raise_for_status := None; json := Ret (PDict two_items) |}
               two_items [] bare_item [PDict full_item]
               eq_refl eq_refl eq_refl eq_refl eq_refl eq_refl eq_refl eq_refl).
    reflexivity. }
  split; [exact E|].
  apply (proj1 (fetch_news_only_sufficient_items ascii_runtime
                  (serving (PDict two_items)) (py "q") (py "k") 10 [])
           [full_article] [] full_article E).
  apply list_elem_of_In. left. reflexivity.
Defined.

(** C7: the adapter never raises.  Whatever the network does, it
    returns a list and adds at most one message to the page; when the
    network call fails, and in particular when it times out, when the
    status check fails or when the body does not decode, it returns the
    empty list and adds exactly one error. *)
Theorem fetch_news_never_raises (rt : runtime) (http : transport)
    (query api_key : pystr) (max_results : Z) (page : list diagnostic) :
  ((∃ articles,
       fetch_news rt http query api_key max_results page = (Ret articles, page))
   ∨ (∃ message,
         fetch_news rt http query api_key max_results page
         = (Ret [], page ++ [StError message])))
  ∧ (∀ e,
        http base_url (params_of query api_key max_results) 10%Z = Raise e →
        ∃ message,
          fetch_news rt http query api_key max_results page
          = (Ret [], page ++ [StError message]))
  ∧ (http base_url (params_of query api_key max_results) 10%Z = Raise Timeout →
     fetch_news rt http query api_key max_results page
     = (Ret [],
        page ++ [StError ([9201; 65039]
                          ++ py " Request timed out. Please try again.")]))
  ∧ (∀ resp e,
        http base_url (params_of query api_key max_results) 10%Z = Ret resp →
        raise_for_status resp = Some e ∨ (raise_for_status resp = None
                                          ∧ json resp = Raise e) →
        ∃ message,
          fetch_news rt http query api_key max_results page
          = (Ret [], page ++ [StError message])).
Proof.
  split; [apply fetch_news_outcome|]. split; [|split].
  - intros e He. unfold fetch_news, try_except, fetch_body. unfold_monad.
    rewrite He. apply fetch_handler_spec.
  - intros He. unfold fetch_news, try_except, fetch_body. unfold_monad.
    rewrite He. reflexivity.
  - intros resp e Hr [Hs | [Hs Hj]];
      unfold fetch_news, try_except, fetch_body; unfold_monad;
      rewrite Hr, Hs; [|rewrite Hj]; apply fetch_handler_spec.
Qed.

Lemma fetch_news_never_raises_witness :
  fetch_news ascii_runtime (unreachable Timeout) (py "q") (py "k") 10 []
  = (Ret [],
     [StError ([9201; 65039] ++ py " Request timed out. Please try again.")])
  ∧ (∃ message,
        fetch_news ascii_runtime (unreachable (Failure (py "dns"))) (py "q")
          (py "k") 10 [] = (Ret [], [] ++ [StError message]))
  ∧ (∃ message,
        fetch_news ascii_runtime
          (fun _ _ _ => Ret {| raise_for_status := Some RequestException;
                               json := Ret PNone |})
          (py "q") (py "k") 10 [] = (Ret [], [] ++ [StError message])).
Proof.
  split; [|split].
  - apply (proj1 (proj2 (proj2 (fetch_news_never_raises ascii_runtime
                                  (unreachable Timeout) (py "q") (py "k") 10 [])))).
    reflexivity.
  - apply (proj1 (proj2 (fetch_news_never_raises ascii_runtime
                           (unreachable (Failure (py "dns"))) (py "q") (py "k")
                           10 [])) (Failure (py "dns"))).
    reflexivity.
  - apply (proj2 (proj2 (proj2 (fetch_news_never_raises ascii_runtime
                                  (fun _ _ _ =>
                                     Ret {| raise_for_status := Some RequestException;
                                            json := Ret PNone |})
                                  (py "q") (py "k") 10 [])))
             {| raise_for_status := Some RequestException; json := Ret PNone |}
             RequestException eq_refl).
    left. reflexivity.
Defined.

(** C8: the round-trip scenario.  A success payload with the one item
    title A, description B, link http://x, source_id S, pubDate t yields
    exactly one Article with title A, description B, url http://x,
    source S, published_at t, and nothing on the page. *)
Theorem fetch_news_round_trip (rt : runtime) (http : transport)
    (query api_key : pystr) (max_results : Z) (page : list diagnostic)
    (resp : response) :
  http base_url (params_of query api_key max_results) 10%Z = Ret resp →
  raise_for_status resp = None →
  json resp = Ret round_trip_json →
  fetch_news rt http query api_key max_results page
  = (Ret [round_trip_article], page).
Proof.
  intros Hr Hs Hj. unfold fetch_news, try_except, fetch_body. unfold_monad.
  rewrite Hr, Hs, Hj. vm_compute. reflexivity.
Qed.

Lemma fetch_news_round_trip_witness :
  fetch_news ascii_runtime (serving round_trip_json) (py "q") (py "k") 10 []
  = (Ret [round_trip_article], []).
Proof.
  apply (fetch_news_round_trip ascii_runtime (serving round_trip_json)
           (py "q") (py "k") 10 []
           {| raise_for_status := None; json := Ret round_trip_json |});
    reflexivity.
Defined.

(** ** The matcher on the patterns of the source *)

Section Matching.

Variable rt : runtime.

Lemma trimmed_end_tail (c : N) (s : pystr) :
  trimmed_end rt (c :: s) → trimmed_end rt s.
Proof.
  intros H pre x E. apply (H (c :: pre) x). rewrite E. reflexivity.
Qed.

(** [lstrip] leaves nothing, or a text that starts with a character
    that is not white space. *)
Lemma lstrip_head (s : pystr) (c : N) (rest : pystr) :
  lstrip rt s = c :: rest → isspace rt c = false.
Proof.
  induction s as [|x s IH]; cbn [lstrip]; [discriminate|].
  destruct (isspace rt x) eqn:E; [exact IH|].
  intros [= <- <-]. exact E.
Qed.

Lemma strip_trimmed_end (text : pystr) : trimmed_end rt (strip rt text).
Proof.
  unfold strip, rstrip. intros pre c E.
  apply (f_equal (@rev N)) in E. rewrite rev_involutive, rev_app_distr in E.
  cbn in E. exact (lstrip_head _ _ _ E).
Qed.

(** [lstrip] drops a prefix. *)
Lemma lstrip_suffix (s : pystr) : ∃ pre, s = pre ++ lstrip rt s.
Proof.
  induction s as [|x s [pre IH]]; [exists []; reflexivity|].
  cbn [lstrip]. destruct (isspace rt x).
  - exists (x :: pre). cbn. rewrite <- IH. reflexivity.
  - exists []. reflexivity.
Qed.

(** A text that ends in no white space and is all white space is empty. *)
Lemma lstrip_nil_trimmed (s : pystr) :
  trimmed_end rt s → lstrip rt s = [] → s = [].
Proof.
  induction s as [|x s IH]; [reflexivity|].
  intros Ht. cbn [lstrip]. destruct (isspace rt x) eqn:Ex; [|discriminate].
  intros E. specialize (IH (trimmed_end_tail _ _ Ht) E). subst s.
  rewrite (Ht [] x eq_refl) in Ex. discriminate.
Qed.

Section Flags.

Variable fl : flags.

(** A run of literals consumes as many characters as it has. *)
Lemma str_match_length (cs s rest : pystr) :
  str_match rt fl cs s = Some rest → length s = (length cs + length rest)%nat.
Proof.
  revert s. induction cs as [|p cs IH]; intros s; cbn [str_match].
  - intros [= ->]. reflexivity.
  - destruct s as [|c s]; [discriminate|].
    destruct (lit_match rt fl p c); [|discriminate].
    intros H. cbn [length]. rewrite (IH s H). reflexivity.
Qed.

Lemma str_match_short (cs s : pystr) :
  (length s < length cs)%nat → str_match rt fl cs s = None.
Proof.
  intros Hlt. destruct (str_match rt fl cs s) as [rest|] eqn:E; [|reflexivity].
  apply str_match_length in E. lia.
Qed.

(** The greedy star hands over the text without its leading white
    space when the rest of the pattern accepts that. *)
Lemma star_space_greedy (s : pystr) (k : pystr → option capture) (m : capture) :
  k (lstrip rt s) = Some m → star (isspace rt) s k = Some m.
Proof.
  induction s as [|c s IH]; cbn [lstrip star]; [trivial|].
  destruct (isspace rt c); [|trivial].
  intros H. rewrite (IH H). reflexivity.
Qed.

(** What a star, a plus and a lazy plus have consumed when the match
    succeeds. *)
Lemma star_inv (p : N → bool) (s : pystr) (k : pystr → option capture)
    (m : capture) :
  star p s k = Some m →
  ∃ s1 s2, s = s1 ++ s2 ∧ forallb p s1 = true ∧ k s2 = Some m.
Proof.
  induction s as [|c s IH]; cbn [star].
  - intros H. exists [], []. auto.
  - destruct (p c) eqn:Ec.
    + destruct (star p s k) as [m'|] eqn:Es.
      * intros [= ->]. destruct (IH eq_refl) as (s1 & s2 & -> & Hp & Hk).
        exists (c :: s1), s2. cbn. rewrite Ec, Hp. auto.
      * intros H. exists [], (c :: s). auto.
    + intros H. exists [], (c :: s). auto.
Qed.

Lemma plus_inv (p : N → bool) (s : pystr) (k : pystr → option capture)
    (m : capture) :
  plus p s k = Some m →
  ∃ c s1 s2, s = c :: s1 ++ s2 ∧ forallb p (c :: s1) = true ∧ k s2 = Some m.
Proof.
  destruct s as [|c s]; cbn [plus]; [discriminate|].
  destruct (p c) eqn:Ec; [|discriminate].
  intros H. destruct (star_inv p s k m H) as (s1 & s2 & -> & Hp & Hk).
  exists c, s1, s2. cbn. rewrite Ec, Hp. auto.
Qed.

End Flags.

(** The group of a match that consumed [s1] of [s1 ++ s2]. *)
Lemma consumed (s1 s2 : pystr) :
  firstn (length (s1 ++ s2) - length s2) (s1 ++ s2) = s1.
Proof.
  rewrite length_app.
  replace (length s1 + length s2 - length s2)%nat with (length s1) by lia.
  apply take_app_length.
Qed.

(** *** The summary pattern *)

Lemma str_match_suffix (fl : flags) (cs s rest : pystr) :
  str_match rt fl cs s = Some rest → ∃ pre, s = pre ++ rest.
Proof.
  revert s. induction cs as [|p cs IH]; intros s; cbn [str_match].
  - intros [= ->]. exists []. reflexivity.
  - destruct s as [|c s]; [discriminate|].
    destruct (lit_match rt fl p c); [|discriminate].
    intros H. destruct (IH s H) as [pre ->]. exists (c :: pre). reflexivity.
Qed.

Lemma trimmed_end_app (s1 s2 : pystr) :
  trimmed_end rt (s1 ++ s2) → trimmed_end rt s2.
Proof.
  intros H pre c E. apply (H (s1 ++ pre) c).
  rewrite E, app_assoc. reflexivity.
Qed.

Lemma newline_is_space : isspace rt 10 = true.
Proof. reflexivity. Qed.

(** A text that does not end in white space is at [$] only at its end. *)
Lemma at_eos_trimmed (s : pystr) :
  trimmed_end rt s → at_eos s = true → s = [].
Proof.
  destruct s as [|c [|c' s]]; cbn [at_eos]; [reflexivity| |discriminate].
  intros Ht Hc. apply N.eqb_eq in Hc. subst c.
  pose proof (Ht [] 10 eq_refl) as E. rewrite newline_is_space in E.
  discriminate.
Qed.

Lemma plus_lazy_dotall (c : N) (s : pystr) (k : pystr → option capture) :
  plus_lazy (atom_match rt dotall_ignorecase Dot) (c :: s) k =
    match k s with
    | Some m => Some m
    | None => plus_lazy (atom_match rt dotall_ignorecase Dot) s k
    end.
Proof. reflexivity. Qed.

(** The lazy group stops before the first SENTIMENT: marker that lies
    after its first character, or at the end. *)
Lemma summary_group (rest : pystr) :
  ∀ pre c s,
  s = pre ++ c :: rest →
  trimmed_end rt s →
  plus_lazy (atom_match rt dotall_ignorecase Dot) (c :: rest)
    (fun s' =>
       if summary_ends rt s'
       then Some (Some (firstn (length s - length s') s))
       else None)
  = Some (Some (pre ++ c :: before_marker rt (py "SENTIMENT:") rest)).
Proof.
  induction rest as [|c' rest IH]; intros pre c s -> Ht.
  - rewrite plus_lazy_dotall.
    replace (summary_ends rt []) with true by reflexivity.
    cbn [length]. rewrite Nat.sub_0_r, firstn_all. reflexivity.
  - rewrite plus_lazy_dotall.
    unfold summary_ends at 1. cbn [before_marker].
    destruct (str_match rt dotall_ignorecase (py "SENTIMENT:") (c' :: rest))
      as [after|] eqn:Em.
    + replace (pre ++ c :: c' :: rest) with ((pre ++ [c]) ++ c' :: rest)
        by (rewrite <- app_assoc; reflexivity).
      rewrite consumed. reflexivity.
    + destruct (at_eos (c' :: rest)) eqn:Ee.
      * apply at_eos_trimmed in Ee; [discriminate|].
        apply (trimmed_end_app (pre ++ [c])). rewrite <- app_assoc. exact Ht.
      * rewrite (IH (pre ++ [c]) c' (pre ++ c :: c' :: rest)).
        -- rewrite <- app_assoc. reflexivity.
        -- rewrite <- app_assoc. reflexivity.
        -- exact Ht.
Qed.

Lemma plus_lazy_ext (p : N → bool) (k1 k2 : pystr → option capture) :
  (∀ s, k1 s = k2 s) → ∀ s, plus_lazy p s k1 = plus_lazy p s k2.
Proof.
  intros Hk. induction s as [|c s IH]; cbn [plus_lazy]; [reflexivity|].
  rewrite Hk, IH. reflexivity.
Qed.

(** The pattern at one start of a text that does not end in white
    space. *)
Lemma match_here_summary (s : pystr) :
  trimmed_end rt s →
  match_here rt dotall_ignorecase summary_re s =
    match str_match rt dotall_ignorecase (py "SUMMARY:") s with
    | Some rest =>
        match lstrip rt rest with
        | c :: rest' =>
            Some (Some (c :: before_marker rt (py "SENTIMENT:") rest'))
        | [] => None
        end
    | None => None
    end.
Proof.
  intros Ht. unfold match_here, summary_re. cbn [exec].
  destruct (str_match rt dotall_ignorecase (py "SUMMARY:") s) as [rest|] eqn:Em;
    [|reflexivity].
  destruct (str_match_suffix _ _ _ _ Em) as [pre0 ->].
  apply trimmed_end_app in Ht.
  change (atom_match rt dotall_ignorecase Space) with (isspace rt).
  destruct (lstrip rt rest) as [|c rest'] eqn:El.
  - rewrite (lstrip_nil_trimmed rest Ht El). reflexivity.
  - apply star_space_greedy. rewrite El.
    destruct (lstrip_suffix rest) as [ws Ews]. rewrite El in Ews.
    rewrite Ews in Ht. apply trimmed_end_app in Ht.
    etransitivity;
      [|exact (summary_group rest' [] c (c :: rest') eq_refl Ht)].
    apply plus_lazy_ext. intros s'. unfold summary_ends.
    destruct (str_match rt dotall_ignorecase (py "SENTIMENT:") s');
      [reflexivity|].
    destruct (at_eos s'); reflexivity.
Qed.

Lemma match_here_summary_none (s : pystr) :
  str_match rt dotall_ignorecase (py "SUMMARY:") s = None →
  match_here rt dotall_ignorecase summary_re s = None.
Proof.
  intros H. unfold match_here, summary_re. cbn [exec]. rewrite H. reflexivity.
Qed.

(** Too short a text holds no SUMMARY: marker. *)
Lemma search_summary_short (s : pystr) :
  (length s < length (py "SUMMARY:"))%nat →
  search rt dotall_ignorecase summary_re s = None.
Proof.
  induction s as [|c s IH]; intros Hlt; cbn [search];
    rewrite match_here_summary_none by (apply str_match_short; exact Hlt).
  - reflexivity.
  - apply IH. cbn [length] in Hlt. lia.
Qed.

(** [re.search] with the summary pattern on a text that does not end
    in white space. *)
Lemma search_summary (s : pystr) :
  trimmed_end rt s →
  search rt dotall_ignorecase summary_re s =
    match after_marker rt (py "SUMMARY:") s with
    | Some rest =>
        match lstrip rt rest with
        | c :: rest' =>
            Some (Some (c :: before_marker rt (py "SENTIMENT:") rest'))
        | [] => None
        end
    | None => None
    end.
Proof.
  induction s as [|x s IH]; intros Ht.
  - reflexivity.
  - cbn [search after_marker]. rewrite (match_here_summary _ Ht).
    destruct (str_match rt dotall_ignorecase (py "SUMMARY:") (x :: s))
      as [rest|] eqn:Em.
    + destruct (lstrip rt rest) as [|c rest'] eqn:El; [|reflexivity].
      apply search_summary_short.
      destruct (str_match_suffix _ _ _ _ Em) as [pre E].
      assert (rest = []) as ->.
      { apply lstrip_nil_trimmed; [|exact El].
        rewrite E in Ht. exact (trimmed_end_app _ _ Ht). }
      apply str_match_length in Em. cbn [length] in Em.
      rewrite Nat.add_0_r in Em. lia.
    + apply IH, (trimmed_end_tail _ _ Ht).
Qed.

(** The summary of a trimmed reply. *)
Lemma extract_summary_matched (text : pystr) :
  extract_summary rt (strip rt text)
  = Ret (summary_as_matched rt (strip rt text)).
Proof.
  unfold extract_summary, summary_as_matched.
  rewrite (search_summary _ (strip_trimmed_end text)).
  destruct (after_marker rt (py "SUMMARY:") (strip rt text)) as [rest|];
    [|reflexivity].
  destruct (lstrip rt rest); reflexivity.
Qed.

(** *** The sentiment and score patterns *)

(** A successful search matched at some start. *)
Lemma search_inv (fl : flags) (r : regex) (s : pystr) (m : capture) :
  search rt fl r s = Some m →
  ∃ pre s', s = pre ++ s' ∧ match_here rt fl r s' = Some m.
Proof.
  induction s as [|c s IH]; cbn [search].
  - destruct (match_here rt fl r []) eqn:E; [|discriminate].
    intros [= ->]. exists [], []. auto.
  - destruct (match_here rt fl r (c :: s)) eqn:E.
    + intros [= ->]. exists [], (c :: s). auto.
    + intros H. destruct (IH H) as (pre & s' & -> & Hm).
      exists (c :: pre), s'. auto.
Qed.

(** A group around a greedy plus that ends the pattern captures a
    text that is not empty and lies in the class. *)
Lemma plus_group (p : N → bool) (s : pystr) (m : capture) :
  plus p s (fun s' => Some (Some (firstn (length s - length s') s))) = Some m →
  ∃ g, m = Some g ∧ g ≠ [] ∧ forallb p g = true.
Proof.
  intros H. destruct (plus_inv p s _ m H) as (c & s1 & s2 & -> & Hp & Hk).
  pose proof (consumed (c :: s1) s2) as Hc. cbn [app] in Hc.
  rewrite Hc in Hk. injection Hk as <-. exists (c :: s1).
  split; [reflexivity|]. split; [discriminate|exact Hp].
Qed.

Lemma match_here_sentiment (s : pystr) (m : capture) :
  match_here rt ignorecase sentiment_re s = Some m →
  ∃ g, m = Some g ∧ g ≠ [] ∧ forallb (isword rt) g = true.
Proof.
  unfold match_here, sentiment_re. cbn [exec].
  destruct (str_match rt ignorecase (py "SENTIMENT:") s) as [s1|];
    [|discriminate].
  intros H. apply star_inv in H as (ws & s2 & _ & _ & H).
  exact (plus_group _ _ _ H).
Qed.

Lemma match_here_score (s : pystr) (m : capture) :
  match_here rt ignorecase score_re s = Some m →
  ∃ g, m = Some g ∧ g ≠ [] ∧ forallb (isdigit rt) g = true.
Proof.
  unfold match_here, score_re. cbn [exec].
  destruct (str_match rt ignorecase (py "IMPACT") s) as [[|c s1]|];
    try discriminate.
  destruct (atom_match rt ignorecase (OneOf (py "_ ")) c); [|discriminate].
  destruct (str_match rt ignorecase (py "SCORE:") s1) as [s2|];
    [|discriminate].
  intros H. apply star_inv in H as (ws & s3 & _ & _ & H).
  exact (plus_group _ _ _ H).
Qed.

(** A text of digits has a value. *)
Lemma digits_value_total (g : pystr) :
  forallb (isdigit rt) g = true → ∀ acc, ∃ v, digits_value rt acc g = Some v.
Proof.
  induction g as [|c g IH]; cbn [forallb digits_value]; intros H acc.
  - eauto.
  - apply andb_true_iff in H as [Hc Hg]. unfold isdigit in Hc.
    destruct (digit_value rt c) as [d|]; [|discriminate].
    apply (IH Hg).
Qed.

(** [int] fails on a captured score only beyond the digit limit. *)
Lemma int_digits (g : pystr) :
  g ≠ [] → forallb (isdigit rt) g = true →
  (∃ v, int rt g = Ret v ∧ over_digit_limit rt (length g) = false)
  ∨ (int rt g = Raise ValueError ∧ over_digit_limit rt (length g) = true).
Proof.
  intros Hne Hd. destruct (digits_value_total g Hd 0%Z) as [v Hv].
  unfold int. destruct g as [|c g]; [contradiction|]. rewrite Hv.
  destruct (over_digit_limit rt (length (c :: g))); eauto.
Qed.

(** The summary and the sentiment are always extracted. *)
Lemma extract_sentiment_total (text : pystr) :
  ∃ sentiment, extract_sentiment rt text = Ret sentiment.
Proof.
  unfold extract_sentiment. unfold_monad.
  destruct (search rt ignorecase sentiment_re text) as [m|] eqn:E.
  - destruct (search_inv _ _ _ _ E) as (pre & s' & _ & Hm).
    destruct (match_here_sentiment _ _ Hm) as (g & -> & _). eauto.
  - eauto.
Qed.

(** A reply parses unless the digits of its score are more than the
    interpreter converts. *)
Lemma parse_reply_total (text : pystr) :
  (∃ r, parse_reply rt text = Ret r)
  ∨ (∃ digits,
        search rt ignorecase score_re (strip rt text) = Some (Some digits)
        ∧ over_digit_limit rt (length digits) = true
        ∧ parse_reply rt text = Raise ValueError).
Proof.
  unfold parse_reply. rewrite extract_summary_matched.
  destruct (extract_sentiment_total (strip rt text)) as [t Et].
  unfold_monad. rewrite Et. unfold extract_impact_score. unfold_monad.
  destruct (search rt ignorecase score_re (strip rt text)) as [m|] eqn:E.
  - destruct (search_inv _ _ _ _ E) as (pre & s' & _ & Hm).
    destruct (match_here_score _ _ Hm) as (g & -> & Hne & Hd).
    cbn [group1].
    destruct (int_digits g Hne Hd) as [(v & -> & _) | [-> Hover]].
    + left. eauto.
    + right. exists g. auto.
  - left. eauto.
Qed.

End Matching.

(** *** The summary in the specification's words *)

(** White space in front does not count for [strip]. *)
Lemma strip_space_cons (rt : runtime) (x : N) (s : pystr) :
  isspace rt x = true → strip rt (x :: s) = strip rt s.
Proof. intros Hx. unfold strip. cbn [lstrip]. rewrite Hx. reflexivity. Qed.

(** When the text up to the next marker is not blank, it starts, after
    its white space, before that marker, and the pattern's group and the
    specification's text are trimmed to the same summary. *)
Lemma strip_before_marker (rt : runtime) (marker rest : pystr) :
  strip rt (before_marker rt marker rest) ≠ [] →
  ∃ c rest',
    lstrip rt rest = c :: rest'
    ∧ strip rt (c :: before_marker rt marker rest')
      = strip rt (before_marker rt marker rest).
Proof.
  induction rest as [|x rest IH].
  - cbn [before_marker].
    destruct (str_match rt dotall_ignorecase marker []);
      intros H; exfalso; apply H; reflexivity.
  - cbn [before_marker lstrip].
    destruct (str_match rt dotall_ignorecase marker (x :: rest)).
    { intros H. exfalso. apply H. reflexivity. }
    destruct (isspace rt x) eqn:Hx.
    + rewrite (strip_space_cons rt x _ Hx). exact IH.
    + intros _. exists x, rest. split; reflexivity.
Qed.

(** Where the specification's text is not blank, the pattern takes the
    same summary. *)
Lemma summary_as_specified_matched (rt : runtime) (text : pystr) :
  summary_as_specified rt text ≠ [] →
  summary_as_matched rt text = summary_as_specified rt text.
Proof.
  unfold summary_as_specified, summary_as_matched.
  destruct (after_marker rt (py "SUMMARY:") text) as [rest|]; [|reflexivity].
  intros H.
  destruct (strip_before_marker rt (py "SENTIMENT:") rest H)
    as (c & rest' & -> & E).
  exact E.
Qed.

(** C5, against the specification's wording: on the reply SUMMARY:
    alone the marker is there with nothing after it, yet the fallback
    text is returned; on the empty reply the summary is that of the
    fixed analysis; and on a reply whose score has 4301 digits the
    conversion fails under the default limit and the summary is the
    article's description. *)
Lemma summary_not_as_specified :
  (analyze_article ascii_runtime (answering (py "SUMMARY:")) sample_article [] []
   = (Ret (Some (result (py "Summary not available.") (py "Neutral") 5)), [])
   ∧ summary_as_specified ascii_runtime (strip ascii_runtime (py "SUMMARY:"))
     = []
   ∧ py "Summary not available." ≠ [])
  ∧ (analyze_article ascii_runtime (answering []) sample_article [] []
     = (Ret (Some (result (py "Analysis unavailable.") (py "neutral") 5)), [])
     ∧ summary_as_specified ascii_runtime (strip ascii_runtime [])
       = py "Summary not available."
     ∧ py "Analysis unavailable." ≠ py "Summary not available.")
  ∧ (∃ warning,
        analyze_article ascii_runtime (answering long_score_reply)
          sample_article [] []
        = (Ret (Some (result (py "Leaders met in Geneva...." ) (py "Neutral") 5)),
           [warning])
        ∧ summary_as_specified ascii_runtime
            (strip ascii_runtime long_score_reply) = py "a"
        ∧ py "Leaders met in Geneva...." ≠ py "a").
Proof.
  split; [|split].
  - repeat split; try reflexivity. vm_compute. discriminate.
  - repeat split; try reflexivity. vm_compute. discriminate.
  - eexists. split; [vm_compute; reflexivity|].
    split; [vm_compute; reflexivity|]. vm_compute. discriminate.
Qed.

Lemma parse_scenario_reply (rt : runtime) :
  parse_reply rt scenario_reply = Ret (result (py "X. Y.") (py "Positive") 10).
Proof. vm_compute. reflexivity. Qed.

(** C5, as the code has it: the scenario's reply gives summary X. Y.,
    sentiment Positive and impact score 10.  In general, for a reply that
    is not empty and whose score digits the interpreter converts, the
    function returns an analysis whose summary is read off the trimmed
    reply.  When the text following the first SUMMARY: (in any case) up
    to the next SENTIMENT: marker or the end, across lines, is not blank,
    the summary is that text, trimmed; when SUMMARY: is absent, or
    nothing follows it, the summary is Summary not available. *)
Theorem summary_extraction (rt : runtime) (g : gemini) (article : pydict)
    (api_key : pystr) (page : list diagnostic) (title description : pyval)
    (text : pystr) :
  article !! py "title" = Some title →
  article !! py "description" = Some description →
  configure g api_key = None →
  generate_content g (prompt_for rt title description) = Ret text →
  (text = scenario_reply →
   analyze_article rt g article api_key page
   = (Ret (Some (result (py "X. Y.") (py "Positive") 10)), page))
  ∧ (text ≠ [] →
     (∀ digits,
         search rt ignorecase score_re (strip rt text) = Some (Some digits) →
         over_digit_limit rt (length digits) = false) →
     ∃ r summary,
       analyze_article rt g article api_key page = (Ret (Some r), page)
       ∧ r !! py "summary" = Some (PStr summary)
       ∧ (summary_as_specified rt (strip rt text) ≠ [] →
          summary = summary_as_specified rt (strip rt text))
       ∧ (after_marker rt (py "SUMMARY:") (strip rt text) = None
          ∨ after_marker rt (py "SUMMARY:") (strip rt text) = Some [] →
          summary = py "Summary not available.")).
Proof.
  intros Ht Hd Hc Hg.
  rewrite (analyze_article_configured rt g article api_key _ _ Hc Ht Hd).
  unfold try_except, analyze_body. unfold_monad. rewrite Hg.
  split.
  - intros ->. rewrite parse_scenario_reply. reflexivity.
  - intros Hne Hlimit. destruct text as [|c text]; [contradiction|].
    destruct (parse_reply_total rt (c :: text))
      as [[r Hr] | (digits & Hs & Hover & _)].
    + rewrite Hr. exists r, (summary_as_matched rt (strip rt (c :: text))).
      split; [reflexivity|].
      destruct (parse_reply_shape rt _ _ Hr) as (s & t & n & -> & Hsum & _).
      rewrite extract_summary_matched in Hsum. injection Hsum as <-.
      split; [apply result_summary|]. split.
      * apply summary_as_specified_matched.
      * unfold summary_as_matched. intros [-> | ->]; reflexivity.
    + rewrite (Hlimit digits Hs) in Hover. discriminate.
Qed.

Lemma summary_extraction_witness :
  analyze_article ascii_runtime (answering scenario_reply) sample_article [] []
  = (Ret (Some (result (py "X. Y.") (py "Positive") 10)), [])
  ∧ (∃ r summary,
        analyze_article ascii_runtime (answering scenario_reply) sample_article
          [] [] = (Ret (Some r), [])
        ∧ r !! py "summary" = Some (PStr summary)
        ∧ summary = py "X. Y.")
  ∧ (∃ r summary,
        analyze_article ascii_runtime (answering (py "No markers here"))
          sample_article [] [] = (Ret (Some r), [])
        ∧ r !! py "summary" = Some (PStr summary)
        ∧ summary = py "Summary not available.")
  ∧ (∃ r summary,
        analyze_article ascii_runtime (answering (py "Tense. SUMMARY:"))
          sample_article [] [] = (Ret (Some r), [])
        ∧ r !! py "summary" = Some (PStr summary)
        ∧ summary = py "Summary not available.").
Proof.
  split; [|split; [|split]].
  - apply (summary_extraction ascii_runtime (answering scenario_reply)
             sample_article [] [] (PStr (py "Summit ends"))
             (PStr (py "Leaders met in Geneva.")) scenario_reply
             eq_refl eq_refl eq_refl eq_refl).
    reflexivity.
  - destruct (summary_extraction ascii_runtime (answering scenario_reply)
                sample_article [] [] (PStr (py "Summit ends"))
                (PStr (py "Leaders met in Geneva.")) scenario_reply
                eq_refl eq_refl eq_refl eq_refl) as [_ H].
    destruct H as (r & summary & Hr & Hs & Hspec & _).
    + vm_compute. discriminate.
    + intros digits Hd. vm_compute in Hd. injection Hd as <-. reflexivity.
    + exists r, summary. split; [exact Hr|]. split; [exact Hs|].
      rewrite Hspec; [vm_compute; reflexivity|vm_compute; discriminate].
  - destruct (summary_extraction ascii_runtime
                (answering (py "No markers here")) sample_article [] []
                (PStr (py "Summit ends")) (PStr (py "Leaders met in Geneva."))
                (py "No markers here") eq_refl eq_refl eq_refl eq_refl)
      as [_ H].
    destruct H as (r & summary & Hr & Hs & _ & Hfb).
    + vm_compute. discriminate.
    + intros digits Hd. vm_compute in Hd. discriminate.
    + exists r, summary. split; [exact Hr|]. split; [exact Hs|].
      apply Hfb. left. vm_compute. reflexivity.
  - destruct (summary_extraction ascii_runtime
                (answering (py "Tense. SUMMARY:")) sample_article [] []
                (PStr (py "Summit ends")) (PStr (py "Leaders met in Geneva."))
                (py "Tense. SUMMARY:") eq_refl eq_refl eq_refl eq_refl)
      as [_ H].
    destruct H as (r & summary & Hr & Hs & _ & Hfb).
    + vm_compute. discriminate.
    + intros digits Hd. vm_compute in Hd. discriminate.
    + exists r, summary. split; [exact Hr|]. split; [exact Hs|].
      apply Hfb. right. vm_compute. reflexivity.
Defined.

(** ** More on [fetch_news] *)

Section FetchMore.

Variable rt : runtime.

(** One turn of the loop on a dict, in full. *)
Lemma fetch_item_dict (d : pydict) (articles : list pydict) :
  fetch_item (PDict d) articles =
    if sufficient d
    then match article_of d with
         | Some article => Ret (articles ++ [article])
         | None => Raise TypeError
         end
    else Ret articles.
Proof.
  destruct (sufficient d) eqn:Hs;
    [|apply fetch_item_insufficient; exact Hs].
  unfold sufficient in Hs. apply andb_true_iff in Hs as [Ht Hdc].
  unfold fetch_item, article_of, description_of. rewrite !get_dict.
  fold (field d (py "title")). fold (field d (py "description")).
  fold (field d (py "content")). unfold_monad. rewrite Ht.
  rewrite (truthy_field d (py "title") _ Ht). unfold py_or.
  destruct (truthy (field d (py "description"))) eqn:Hd.
  - reflexivity.
  - rewrite orb_false_l in Hdc. rewrite Hdc.
    destruct (from_option id (PStr []) (d !! py "content"));
      reflexivity.
Qed.

(** An item that is not a dict stops the loop. *)
Lemma fetch_item_not_dict (item : pyval) (articles : list pydict) :
  (∀ d, item ≠ PDict d) → fetch_item item articles = Raise AttributeError.
Proof.
  intros H. destruct item; try reflexivity. destruct (H d eq_refl).
Qed.

(** The loop raises nothing but [AttributeError] and [TypeError]. *)
Lemma fetch_loop_raises (items : list pyval) :
  ∀ articles e,
  fetch_loop items articles = Raise e → e = AttributeError ∨ e = TypeError.
Proof.
  induction items as [|item rest IH]; intros articles e; cbn [fetch_loop].
  - discriminate.
  - unfold_monad.
    destruct (fetch_item item articles) as [articles'|e'] eqn:Hi.
    + apply IH.
    + intros [= <-]. destruct item as [| | | | | |d];
        try (left; cbn in Hi; congruence).
      rewrite fetch_item_dict in Hi.
      destruct (sufficient d); [|discriminate].
      destruct (article_of d); [discriminate|]. right. congruence.
Qed.

(** A malformed item makes its turn of the loop raise. *)
Lemma fetch_item_malformed (item : pyval) (articles : list pydict) :
  malformed item → ∃ e, fetch_item item articles = Raise e.
Proof.
  intros [Hn | (d & -> & Hs & Hd)].
  - rewrite (fetch_item_not_dict item articles Hn). eauto.
  - rewrite fetch_item_dict, Hs. unfold article_of. rewrite Hd. cbn. eauto.
Qed.

(** With a malformed item among them, the loop raises. *)
Lemma fetch_loop_poisoned (early late : list pyval) (item : pyval) :
  malformed item →
  ∀ articles, ∃ e, fetch_loop (early ++ item :: late) articles = Raise e.
Proof.
  intros Hm. induction early as [|x early IH]; intros articles;
    cbn [app fetch_loop]; unfold_monad.
  - destruct (fetch_item_malformed item articles Hm) as [e ->]. eauto.
  - destruct (fetch_item x articles) as [articles'|e]; [apply IH|eauto].
Qed.

(** The loop on well-formed items is a filter followed by a map. *)
Lemma fetch_loop_exact (ds : list pydict) :
  Forall (fun d => sufficient d = true → is_Some (article_of d)) ds →
  ∀ articles,
  fetch_loop (List.map PDict ds) articles
  = Ret (articles ++ omap article_of (List.filter sufficient ds)).
Proof.
  induction 1 as [|d ds Hd _ IH]; intros articles; cbn [List.map fetch_loop].
  - cbn. rewrite app_nil_r. reflexivity.
  - unfold_monad. rewrite fetch_item_dict. cbn [List.filter].
    destruct (sufficient d).
    + destruct (Hd eq_refl) as [article Ha]. rewrite Ha.
      cbn [omap list_omap]. rewrite Ha, IH, <- app_assoc. reflexivity.
    + apply IH.
Qed.

Lemma handler_unexpected (e : exn) (page : list diagnostic) :
  e = AttributeError ∨ e = TypeError →
  fetch_handler rt e page = (Ret [], page ++ [unexpected_error rt e]).
Proof. intros [-> | ->]; reflexivity. Qed.

(** A returned article was made by [article_of] from an item. *)
Lemma fetch_loop_provenance (items : list pyval) :
  ∀ articles out,
  fetch_loop items articles = Ret out →
  ∀ article, article ∈ out →
    article ∈ articles
    ∨ ∃ d, PDict d ∈ items ∧ sufficient d = true ∧ article_of d = Some article.
Proof.
  induction items as [|item rest IH]; intros articles out H article Hin.
  - cbn in H. injection H as <-. left. exact Hin.
  - cbn [fetch_loop] in H. unfold_monad.
    destruct (fetch_item item articles) as [articles'|] eqn:Hi; [|discriminate].
    destruct (IH articles' out H article Hin) as [Hin' | (d & Hd & Hs & Ha)].
    + destruct item as [| | | | | |d]; try discriminate.
      rewrite fetch_item_dict in Hi.
      destruct (sufficient d) eqn:Hs.
      * destruct (article_of d) as [a|] eqn:Ha; [|discriminate].
        injection Hi as <-. apply elem_of_app in Hin' as [Hin' | Hin'].
        -- left. exact Hin'.
        -- apply list_elem_of_singleton in Hin'. subst a.
           right. exists d. split; [left|]. split; assumption.
      * injection Hi as <-. left. exact Hin'.
    + right. exists d. split; [right; exact Hd|]. split; assumption.
Qed.

Lemma fetch_news_on_results (http : transport) (query api_key : pystr)
    (max_results : Z) (data : pydict) (items : list pyval) :
  answers http base_url (params_of query api_key max_results) (PDict data) →
  data !! py "status" = Some (PStr (py "success")) →
  data !! py "results" = Some (PList items) →
  fetch_news rt http query api_key max_results =
    try_except (lift (fetch_loop items [])) (fetch_handler rt).
Proof.
  intros (resp & Hr & Hs & Hj) Hst Hres. unfold fetch_news.
  rewrite (fetch_body_success rt http query api_key max_results resp data items
             Hr Hs Hj Hst Hres).
  reflexivity.
Qed.

Lemma article_of_dom (d article : pydict) :
  article_of d = Some article → dom article = article_keys.
Proof.
  unfold article_of. destruct (description_of d) as [v|]; [|discriminate].
  cbn. intros [= <-]. unfold article_keys.
  rewrite !dom_insert_L, dom_empty_L. set_solver.
Qed.

Lemma first300_truthy (v w : pyval) :
  truthy v = true → first300 v = Some w → truthy w = true.
Proof.
  destruct v as [| | | |s|l|]; try discriminate;
    intros Ht [= <-]; [destruct s|destruct l]; try discriminate; reflexivity.
Qed.

Lemma description_of_truthy (d : pydict) (v : pyval) :
  sufficient d = true → description_of d = Some v → truthy v = true.
Proof.
  unfold sufficient, description_of. intros Hs.
  apply andb_true_iff in Hs as [_ Hs].
  destruct (truthy (field d (py "description"))) eqn:Hd.
  - intros [= <-]. exact Hd.
  - rewrite orb_false_l in Hs. unfold field in Hs.
    destruct (d !! py "content") as [c|]; [|discriminate].
    cbn [from_option id] in *. apply first300_truthy, Hs.
Qed.

End FetchMore.

(** X1: on a success payload whose results are dicts, each with a
    description or a body that can be cut, the adapter returns, in the
    order of the payload, the Article of every item that has a title and
    a description or body, and writes nothing on the page; so it never
    returns more articles than the payload has items. *)
Theorem fetch_news_exact (rt : runtime) (http : transport)
    (query api_key : pystr) (max_results : Z) (page : list diagnostic)
    (data : pydict) (ds : list pydict) :
  answers http base_url (params_of query api_key max_results) (PDict data) →
  data !! py "status" = Some (PStr (py "success")) →
  data !! py "results" = Some (PList (List.map PDict ds)) →
  Forall (fun d => sufficient d = true → is_Some (description_of d)) ds →
  fetch_news rt http query api_key max_results page
  = (Ret (omap article_of (List.filter sufficient ds)), page)
  ∧ (length (omap article_of (List.filter sufficient ds)) <= length ds)%nat.
Proof.
  intros Ha Hst Hres Hall. split.
  - rewrite (fetch_news_on_results rt http query api_key max_results data _
               Ha Hst Hres).
    unfold try_except, lift. rewrite fetch_loop_exact; [reflexivity|].
    eapply Forall_impl; [exact Hall|]. intros d Hd Hs.
    unfold article_of. destruct (Hd Hs) as [v ->]. cbn. eauto.
  - etransitivity; [apply omap_length_le|]. apply List.filter_length_le.
Qed.

Lemma fetch_news_exact_witness :
  fetch_news ascii_runtime (serving (PDict two_items)) (py "q") (py "k") 10 []
  = (Ret [full_article], []).
Proof.
  apply (fetch_news_exact ascii_runtime (serving (PDict two_items)) (py "q")
           (py "k") 10 [] two_items [bare_item; full_item]).
  - eexists. repeat split; reflexivity.
  - reflexivity.
  - reflexivity.
  - repeat constructor; intros H; vm_compute in H; try discriminate;
      eexists; reflexivity.
Defined.

(** X2: whatever the service answers, every article the adapter returns
    has exactly the five keys title, description, url, source and
    published_at, was made from a dict of the results list, and its title
    and description are present and not empty; where the item has no
    description of its own, the description is the item's body cut to its
    first 300 characters. *)
Theorem fetch_news_article_fields (rt : runtime) (http : transport)
    (query api_key : pystr) (max_results : Z) (page page' : list diagnostic)
    (articles : list pydict) (article : pydict) :
  fetch_news rt http query api_key max_results page = (Ret articles, page') →
  article ∈ articles →
  dom article = article_keys
  ∧ ∃ data items d title description,
      answers http base_url (params_of query api_key max_results) (PDict data)
      ∧ data !! py "results" = Some (PList items)
      ∧ PDict d ∈ items
      ∧ article_of d = Some article
      ∧ article !! py "title" = Some title ∧ truthy title = true
      ∧ article !! py "description" = Some description
      ∧ truthy description = true
      ∧ (truthy (field d (py "description")) = false →
         first300 (field d (py "content")) = Some description
         ∧ ∀ s, description = PStr s → (length s <= 300)%nat).
Proof.
  intros H Hin.
  destruct (fetch_news_inv rt http query api_key max_results page page'
              articles article H Hin)
    as (resp & data & items & Hr & Hs & Hj & _ & Hres & Hl).
  destruct (fetch_loop_provenance items [] articles Hl article Hin)
    as [Hnil | (d & Hd & Hsuf & Ha)]; [apply elem_of_nil in Hnil; contradiction|].
  split; [exact (article_of_dom d article Ha)|].
  pose proof Ha as Ha'. unfold article_of in Ha'.
  destruct (description_of d) as [v|] eqn:Hv; [|discriminate].
  cbn in Ha'. injection Ha' as <-.
  exists data, items, d, (field d (py "title")), v.
  split; [exists resp; auto|]. split; [exact Hres|]. split; [exact Hd|].
  split; [exact Ha|]. split; [apply lookup_insert_eq|].
  split; [unfold sufficient in Hsuf; apply andb_true_iff in Hsuf; tauto|].
  split.
  { rewrite lookup_insert_ne by (vm_compute; discriminate).
    apply lookup_insert_eq. }
  split; [exact (description_of_truthy d v Hsuf Hv)|].
  intros Hfalse. unfold description_of in Hv. rewrite Hfalse in Hv.
  assert (Hc : from_option id (PStr []) (d !! py "content") = field d (py "content")).
  { unfold sufficient in Hsuf. rewrite Hfalse, orb_false_l in Hsuf.
    apply andb_true_iff in Hsuf as [_ Hc]. apply truthy_field, Hc. }
  rewrite Hc in Hv. split; [exact Hv|].
  intros s ->. destruct (field d (py "content")); try discriminate.
  injection Hv as <-. rewrite length_take. lia.
Qed.

Lemma fetch_news_article_fields_witness :
  dom full_article = article_keys
  ∧ ∃ data items d title description,
      answers (serving (PDict two_items)) base_url
        (params_of (py "q") (py "k") 10) (PDict data)
      ∧ data !! py "results" = Some (PList items)
      ∧ PDict d ∈ items
      ∧ article_of d = Some full_article
      ∧ full_article !! py "title" = Some title ∧ truthy title = true
      ∧ full_article !! py "description" = Some description
      ∧ truthy description = true
      ∧ (truthy (field d (py "description")) = false →
         first300 (field d (py "content")) = Some description
         ∧ ∀ s, description = PStr s → (length s <= 300)%nat).
Proof.
  apply (fetch_news_article_fields ascii_runtime (serving (PDict two_items))
           (py "q") (py "k") 10 [] [] [full_article] full_article).
  - reflexivity.
  - apply list_elem_of_In. left. reflexivity.
Defined.

Lemma ne_str_true (v : pyval) (s : pystr) : v ≠ PStr s → ne_str v s = true.
Proof.
  intros H. destruct (ne_str v s) eqn:E; [reflexivity|].
  apply ne_str_false in E. contradiction.
Qed.

(** X3: when the payload's status is not success, no article is
    built, whatever the results hold: the adapter returns the empty list
    and writes one error, which carries the message found under results,
    or Unknown error when there is none; and when results is not an
    object, the lookup of the message fails and the error is the one of
    the last handler. *)
Theorem fetch_news_api_error (rt : runtime) (http : transport)
    (query api_key : pystr) (max_results : Z) (page : list diagnostic)
    (data : pydict) :
  answers http base_url (params_of query api_key max_results) (PDict data) →
  data !! py "status" ≠ Some (PStr (py "success")) →
  (∀ results,
      from_option id (PDict ∅) (data !! py "results") = PDict results →
      fetch_news rt http query api_key max_results page
      = (Ret [],
         page ++ [StError (py "API Error: "
                           ++ format rt (from_option id
                                           (PStr (py "Unknown error"))
                                           (results !! py "message")))]))
  ∧ ((∀ results, data !! py "results" ≠ Some (PDict results)) →
     is_Some (data !! py "results") →
     fetch_news rt http query api_key max_results page
     = (Ret [], page ++ [unexpected_error rt AttributeError])).
Proof.
  intros (resp & Hr & Hs & Hj) Hst.
  assert (Hne : ne_str (from_option id PNone (data !! py "status"))
                  (py "success") = true).
  { apply ne_str_true. intros E. apply Hst.
    destruct (data !! py "status"); [cbn in E; congruence|discriminate]. }
  split.
  - intros results Hres. unfold fetch_news, try_except, fetch_body.
    unfold_monad. rewrite Hr, Hs, Hj, !get_dict, Hne, Hres. reflexivity.
  - intros Hres [v Hv]. unfold fetch_news, try_except, fetch_body.
    unfold_monad. rewrite Hr, Hs, Hj, !get_dict, Hne, Hv.
    cbn [from_option id].
    destruct v; try reflexivity. destruct (Hres d Hv).
Qed.

Lemma fetch_news_api_error_witness :
  fetch_news ascii_runtime
    (serving (PDict (<[py "status" := PStr (py "error")]>
                       (<[py "results" :=
                            PDict (<[py "message" := PStr (py "Bad key")]> ∅)]>
                          ∅))))
    (py "q") (py "k") 10 []
  = (Ret [], [] ++ [StError (py "API Error: Bad key")])
  ∧ fetch_news ascii_runtime
      (serving (PDict (<[py "results" := PList [PDict full_item]]> ∅)))
      (py "q") (py "k") 10 []
    = (Ret [], [] ++ [unexpected_error ascii_runtime AttributeError]).
Proof.
  split.
  - rewrite (proj1 (fetch_news_api_error ascii_runtime (serving _) (py "q")
                    (py "k") 10 []
                    (<[py "status" := PStr (py "error")]>
                       (<[py "results" :=
                            PDict (<[py "message" := PStr (py "Bad key")]> ∅)]>
                          ∅))
                    ltac:(eexists; repeat split; reflexivity)
                    ltac:(vm_compute; discriminate))
             (<[py "message" := PStr (py "Bad key")]> ∅) eq_refl).
    reflexivity.
  - apply (proj2 (fetch_news_api_error ascii_runtime (serving _) (py "q")
                    (py "k") 10 []
                    (<[py "results" := PList [PDict full_item]]> ∅)
                    ltac:(eexists; repeat split; reflexivity)
                    ltac:(vm_compute; discriminate))).
    + intros results H. vm_compute in H. discriminate.
    + eexists. reflexivity.
Defined.

(** X4: one malformed item empties the whole result.  When the results
    of a success payload hold an item that is not a dict, or a dict that
    has a title but whose body, standing in for the description, cannot
    be cut, the adapter returns the empty list, also dropping the
    articles it had built from the items before it, and writes one
    error. *)
Theorem fetch_news_malformed_item (rt : runtime) (http : transport)
    (query api_key : pystr) (max_results : Z) (page : list diagnostic)
    (data : pydict) (early late : list pyval) (item : pyval) :
  answers http base_url (params_of query api_key max_results) (PDict data) →
  data !! py "status" = Some (PStr (py "success")) →
  data !! py "results" = Some (PList (early ++ item :: late)) →
  malformed item →
  ∃ e,
    (e = AttributeError ∨ e = TypeError)
    ∧ fetch_news rt http query api_key max_results page
      = (Ret [], page ++ [unexpected_error rt e]).
Proof.
  intros Ha Hst Hres Hm.
  rewrite (fetch_news_on_results rt http query api_key max_results data _
             Ha Hst Hres).
  destruct (fetch_loop_poisoned early late item Hm []) as [e He].
  exists e. pose proof (fetch_loop_raises _ _ _ He) as Hcls.
  split; [exact Hcls|].
  unfold try_except, lift. rewrite He. apply handler_unexpected, Hcls.
Qed.

Lemma fetch_news_malformed_item_witness :
  ∃ e,
    (e = AttributeError ∨ e = TypeError)
    ∧ fetch_news ascii_runtime
        (serving (PDict (<[py "status" := PStr (py "success")]>
                           (<[py "results" :=
                                PList ([PDict full_item] ++ PNone :: [])]> ∅))))
        (py "q") (py "k") 10 []
      = (Ret [], [] ++ [unexpected_error ascii_runtime e]).
Proof.
  apply (fetch_news_malformed_item ascii_runtime (serving _) (py "q") (py "k")
           10 []
           (<[py "status" := PStr (py "success")]>
              (<[py "results" := PList ([PDict full_item] ++ PNone :: [])]> ∅))
           [PDict full_item] [] PNone).
  - eexists. repeat split; reflexivity.
  - reflexivity.
  - reflexivity.
  - left. intros d H. discriminate.
Defined.

(** ** The second adapter *)

Section FallbackFacts.

Variable rt : runtime.

(** One turn of the loop on a dict. *)
Lemma fallback_item_dict (d : pydict) (articles : list pydict) :
  fallback_item (PDict d) articles =
    if newsapi_sufficient d
    then match newsapi_article_of d with
         | Some article => Ret (articles ++ [article])
         | None => Raise AttributeError
         end
    else Ret articles.
Proof.
  unfold newsapi_sufficient, fallback_item, newsapi_article_of, source_name.
  rewrite !get_dict. fold (field d (py "title")).
  fold (field d (py "description")). unfold_monad.
  destruct (truthy (field d (py "title"))) eqn:Ht; [|reflexivity].
  destruct (truthy (field d (py "description"))) eqn:Hd; [|reflexivity].
  rewrite (truthy_field d (py "title") _ Ht).
  rewrite (truthy_field d (py "description") _ Hd). cbn [andb].
  destruct (from_option id (PDict ∅) (d !! py "source")); reflexivity.
Qed.

Lemma fallback_loop_exact (ds : list pydict) :
  Forall (fun d => newsapi_sufficient d = true → is_Some (source_name d)) ds →
  ∀ articles,
  fallback_loop (List.map PDict ds) articles
  = Ret (articles ++ omap newsapi_article_of (List.filter newsapi_sufficient ds)).
Proof.
  induction 1 as [|d ds Hd _ IH]; intros articles;
    cbn [List.map fallback_loop].
  - cbn. rewrite app_nil_r. reflexivity.
  - unfold_monad. rewrite fallback_item_dict. cbn [List.filter].
    destruct (newsapi_sufficient d).
    + destruct (Hd eq_refl) as [name Hn].
      assert (Ha : is_Some (newsapi_article_of d)).
      { unfold newsapi_article_of. rewrite Hn. cbn. eauto. }
      destruct Ha as [article Ha]. rewrite Ha.
      cbn [omap list_omap]. rewrite Ha, IH, <- app_assoc. reflexivity.
    + apply IH.
Qed.

(** The [try] block returns and leaves the page alone, or returns the
    empty list after one error, or raises and leaves the page alone. *)
Lemma fallback_body_outcome (http : transport) (query api_key : pystr)
    (max_results : Z) (page : list diagnostic) :
  (∃ articles,
      fallback_body rt http query api_key max_results page
      = (Ret articles, page))
  ∨ (∃ message,
        fallback_body rt http query api_key max_results page
        = (Ret [], page ++ [StError message]))
  ∨ (∃ e, fallback_body rt http query api_key max_results page
          = (Raise e, page)).
Proof.
  unfold fallback_body. unfold_monad.
  destruct (http newsapi_url _ _) as [resp|e]; [|right; right; eauto].
  destruct (raise_for_status resp) as [e|]; [right; right; eauto|].
  destruct (json resp) as [data|e]; [|right; right; eauto].
  destruct (get data (py "status") PNone) as [status|e]; [|right; right; eauto].
  destruct (ne_str status (py "ok")).
  - destruct (get data (py "message") _) as [message|e];
      [|right; right; eauto].
    right. left. eauto.
  - destruct (get data (py "articles") (PList [])) as [results|e];
      [|right; right; eauto].
    destruct (iterate results) as [items|e]; [|right; right; eauto].
    destruct (fallback_loop items []) as [articles|e];
      [left|right; right]; eauto.
Qed.

End FallbackFacts.

(** X5: the second adapter never raises either.  It returns its
    articles and leaves the page alone, or returns the empty list and
    writes exactly one error; a request that fails gives the empty list
    and one error, the time-out its own message; and a payload whose
    status is not ok gives the empty list and the payload's message, or
    Unknown error. *)
Theorem fetch_news_fallback_never_raises (rt : runtime) (http : transport)
    (query api_key : pystr) (max_results : Z) (page : list diagnostic) :
  ((∃ articles,
       fetch_news_fallback_newsapi rt http query api_key max_results page
       = (Ret articles, page))
   ∨ (∃ message,
         fetch_news_fallback_newsapi rt http query api_key max_results page
         = (Ret [], page ++ [StError message])))
  ∧ (∀ e,
        http newsapi_url (newsapi_params_of query api_key max_results) 10%Z
        = Raise e →
        ∃ message,
          fetch_news_fallback_newsapi rt http query api_key max_results page
          = (Ret [], page ++ [StError message]))
  ∧ (http newsapi_url (newsapi_params_of query api_key max_results) 10%Z
     = Raise Timeout →
     fetch_news_fallback_newsapi rt http query api_key max_results page
     = (Ret [],
        page ++ [StError ([9201; 65039]
                          ++ py " Request timed out. Please try again.")]))
  ∧ (∀ data,
        answers http newsapi_url (newsapi_params_of query api_key max_results)
          (PDict data) →
        data !! py "status" ≠ Some (PStr (py "ok")) →
        fetch_news_fallback_newsapi rt http query api_key max_results page
        = (Ret [],
           page ++ [StError (py "API Error: "
                             ++ format rt (from_option id
                                             (PStr (py "Unknown error"))
                                             (data !! py "message")))])).
Proof.
  split; [|split; [|split]].
  - unfold fetch_news_fallback_newsapi, try_except.
    destruct (fallback_body_outcome rt http query api_key max_results page)
      as [[a ->] | [[m ->] | [e ->]]].
    + left. eauto.
    + right. eauto.
    + right. apply fetch_handler_spec.
  - intros e He. unfold fetch_news_fallback_newsapi, try_except, fallback_body.
    unfold_monad. rewrite He. apply fetch_handler_spec.
  - intros He. unfold fetch_news_fallback_newsapi, try_except, fallback_body.
    unfold_monad. rewrite He. reflexivity.
  - intros data (resp & Hr & Hs & Hj) Hst.
    assert (Hne : ne_str (from_option id PNone (data !! py "status"))
                    (py "ok") = true).
    { apply ne_str_true. intros E. apply Hst.
      destruct (data !! py "status"); [cbn in E; congruence|discriminate]. }
    unfold fetch_news_fallback_newsapi, try_except, fallback_body.
    unfold_monad. rewrite Hr, Hs, Hj, !get_dict, Hne. reflexivity.
Qed.

Lemma fetch_news_fallback_never_raises_witness :
  fetch_news_fallback_newsapi ascii_runtime (unreachable Timeout) (py "q")
    (py "k") 10 []
  = (Ret [],
     [] ++ [StError ([9201; 65039] ++ py " Request timed out. Please try again.")])
  ∧ fetch_news_fallback_newsapi ascii_runtime
      (serving (PDict (<[py "status" := PStr (py "error")]>
                         (<[py "message" := PStr (py "Bad key")]> ∅))))
      (py "q") (py "k") 10 []
    = (Ret [], [] ++ [StError (py "API Error: Bad key")])
  ∧ ∃ message,
      fetch_news_fallback_newsapi ascii_runtime (unreachable RequestException)
        (py "q") (py "k") 10 []
      = (Ret [], [] ++ [StError message]).
Proof.
  split; [|split].
  - apply (proj1 (proj2 (proj2 (fetch_news_fallback_never_raises ascii_runtime
                                  (unreachable Timeout) (py "q") (py "k") 10 [])))).
    reflexivity.
  - rewrite (proj2 (proj2 (proj2 (fetch_news_fallback_never_raises ascii_runtime
                                    (serving _) (py "q") (py "k") 10 [])))
               (<[py "status" := PStr (py "error")]>
                  (<[py "message" := PStr (py "Bad key")]> ∅))
               ltac:(eexists; repeat split; reflexivity)
               ltac:(vm_compute; discriminate)).
    reflexivity.
  - apply (proj1 (proj2 (fetch_news_fallback_never_raises ascii_runtime
                           (unreachable RequestException) (py "q") (py "k")
                           10 [])) RequestException).
    reflexivity.
Defined.

(** X6: on an ok payload whose articles are dicts, each with a source
    that is missing or an object, the second adapter returns, in the
    order of the payload, the Article of every item that has a title and
    a description, and writes nothing; an item with only a title and a
    body is left out, where the first adapter would keep it. *)
Theorem fetch_news_fallback_exact (rt : runtime) (http : transport)
    (query api_key : pystr) (max_results : Z) (page : list diagnostic)
    (data : pydict) (ds : list pydict) :
  answers http newsapi_url (newsapi_params_of query api_key max_results)
    (PDict data) →
  data !! py "status" = Some (PStr (py "ok")) →
  data !! py "articles" = Some (PList (List.map PDict ds)) →
  Forall (fun d => newsapi_sufficient d = true → is_Some (source_name d)) ds →
  fetch_news_fallback_newsapi rt http query api_key max_results page
  = (Ret (omap newsapi_article_of (List.filter newsapi_sufficient ds)), page)
  ∧ (∀ d acc body,
        truthy (field d (py "title")) = true →
        truthy (field d (py "description")) = false →
        d !! py "content" = Some (PStr body) → body ≠ [] →
        fallback_item (PDict d) acc = Ret acc
        ∧ ∃ article, fetch_item (PDict d) acc = Ret (acc ++ [article])).
Proof.
  intros (resp & Hr & Hs & Hj) Hst Hres Hall. split.
  - unfold fetch_news_fallback_newsapi, try_except, fallback_body.
    unfold_monad. rewrite Hr, Hs, Hj, !get_dict, Hst, Hres.
    cbn [from_option id iterate].
    replace (ne_str (PStr (py "ok")) (py "ok")) with false
      by (symmetry; apply ne_str_false; reflexivity).
    rewrite (fallback_loop_exact ds Hall). reflexivity.
  - intros d acc body Ht Hd Hc Hne. split.
    + rewrite fallback_item_dict. unfold newsapi_sufficient.
      rewrite Ht, Hd. reflexivity.
    + rewrite fetch_item_dict. unfold sufficient, article_of, description_of.
      unfold field at 3. rewrite Ht, Hd, Hc. cbn [from_option id].
      destruct body; [contradiction|]. cbn. eauto.
Qed.

Lemma fetch_news_fallback_exact_witness :
  fetch_news_fallback_newsapi ascii_runtime (serving (PDict newsapi_payload))
    (py "q") (py "k") 10 []
  = (Ret [<[py "title" := PStr (py "C")]>
            (<[py "description" := PStr (py "D")]>
               (<[py "url" := PStr (py "#")]>
                  (<[py "source" := PStr (py "Wire")]>
                     (<[py "published_at" := PStr []]> ∅))))], [])
  ∧ (fallback_item (PDict full_item) [] = Ret []
     ∧ ∃ article, fetch_item (PDict full_item) [] = Ret ([] ++ [article])).
Proof.
  pose proof (fetch_news_fallback_exact ascii_runtime
                (serving (PDict newsapi_payload)) (py "q") (py "k") 10 []
                newsapi_payload newsapi_items
                ltac:(eexists; repeat split; reflexivity)
                eq_refl eq_refl
                ltac:(repeat constructor; intros H; vm_compute in H;
                      try discriminate; eexists; reflexivity)) as [H1 H2].
  split.
  - rewrite H1. reflexivity.
  - apply (H2 full_item [] (py "D")); try reflexivity.
    vm_compute. discriminate.
Defined.

(** ** More on [analyze_article] *)

Section AnalyzeMore.

Variable rt : runtime.

Lemma lstrip_spaces (ws s : pystr) :
  forallb (isspace rt) ws = true → lstrip rt (ws ++ s) = lstrip rt s.
Proof.
  induction ws as [|c ws IH]; cbn [forallb app lstrip]; [reflexivity|].
  intros H. apply andb_true_iff in H as [-> H]. exact (IH H).
Qed.

Lemma lstrip_all_spaces (ws : pystr) :
  forallb (isspace rt) ws = true → lstrip rt ws = [].
Proof.
  intros H. rewrite <- (app_nil_r ws). rewrite (lstrip_spaces ws [] H).
  reflexivity.
Qed.

(** [lstrip] keeps what follows a character that is not white space. *)
Lemma lstrip_app (s t : pystr) :
  lstrip rt s ≠ [] → lstrip rt (s ++ t) = lstrip rt s ++ t.
Proof.
  induction s as [|c s IH]; cbn [lstrip app]; [contradiction|].
  destruct (isspace rt c); [exact IH|reflexivity].
Qed.

Lemma lstrip_nil_spaces (s : pystr) :
  lstrip rt s = [] → forallb (isspace rt) s = true.
Proof.
  induction s as [|c s IH]; cbn [lstrip forallb]; [reflexivity|].
  destruct (isspace rt c); [exact IH|discriminate].
Qed.

Lemma rstrip_spaces (s ws : pystr) :
  forallb (isspace rt) ws = true → rstrip rt (s ++ ws) = rstrip rt s.
Proof.
  intros H. unfold rstrip. rewrite rev_app_distr, lstrip_spaces; [reflexivity|].
  rewrite forallb_forall in *. intros c Hc. apply H, in_rev. exact Hc.
Qed.

(** White space around a text does not change what [strip] returns. *)
Lemma strip_padding (ws1 text ws2 : pystr) :
  forallb (isspace rt) ws1 = true →
  forallb (isspace rt) ws2 = true →
  strip rt (ws1 ++ text ++ ws2) = strip rt text.
Proof.
  intros H1 H2. unfold strip. rewrite (lstrip_spaces ws1 _ H1).
  destruct (lstrip rt text) as [|c t] eqn:E.
  - assert (Hall : forallb (isspace rt) (text ++ ws2) = true).
    { rewrite forallb_app, H2, (lstrip_nil_spaces text E). reflexivity. }
    rewrite (lstrip_all_spaces _ Hall). reflexivity.
  - rewrite lstrip_app by (rewrite E; discriminate).
    rewrite E. apply rstrip_spaces, H2.
Qed.

(** [strip] of a text that starts with a character that is not white
    space keeps that character in front. *)
Lemma strip_head (c : N) (s : pystr) :
  isspace rt c = false → ∃ t, strip rt (c :: s) = c :: t.
Proof.
  intros Hc. unfold strip. cbn [lstrip]. rewrite Hc. unfold rstrip.
  cbn [rev].
  assert (H : ∀ l, ∃ u, lstrip rt (l ++ [c]) = u ++ [c]).
  { induction l as [|x l [u IH]]; cbn [app lstrip].
    - rewrite Hc. exists []. reflexivity.
    - destruct (isspace rt x); [eauto|]. exists (x :: l). reflexivity. }
  destruct (H (rev s)) as [u ->]. rewrite rev_app_distr. cbn. eauto.
Qed.

Lemma strip_shorter (s : pystr) : (length (strip rt s) <= length s)%nat.
Proof.
  assert (H : ∀ l, (length (lstrip rt l) <= length l)%nat).
  { induction l as [|x l IH]; cbn [lstrip length]; [lia|].
    destruct (isspace rt x); cbn [length]; lia. }
  unfold strip, rstrip. rewrite length_rev.
  etransitivity; [apply H|]. rewrite length_rev. apply H.
Qed.

(** The summary the pattern takes is never empty. *)
Lemma summary_as_matched_nonempty (text : pystr) :
  summary_as_matched rt text ≠ [].
Proof.
  unfold summary_as_matched.
  destruct (after_marker rt (py "SUMMARY:") text) as [rest|];
    [|vm_compute; discriminate].
  destruct (lstrip rt rest) as [|c rest'] eqn:E; [vm_compute; discriminate|].
  destruct (strip_head c (before_marker rt (py "SENTIMENT:") rest')
              (lstrip_head rt _ _ _ E)) as [t ->].
  discriminate.
Qed.

Lemma result_dom (s t : pystr) (n : Z) : dom (result s t n) = analysis_keys.
Proof.
  unfold result, analysis_keys. rewrite !dom_insert_L, dom_empty_L. set_solver.
Qed.

Lemma degraded_dom (v : pyval) : dom (degraded v) = analysis_keys.
Proof.
  unfold degraded, analysis_keys. rewrite !dom_insert_L, dom_empty_L.
  set_solver.
Qed.

Lemma degraded_summary (v : pyval) : degraded v !! py "summary" = Some v.
Proof. unfold degraded. apply lookup_insert_eq. Qed.

(** The three ways in which the function hands back a dict, with what
    the handler's summary is. *)
Lemma analyze_article_some_str (g : gemini) (article : pydict)
    (api_key : pystr) (page page' : list diagnostic) (r : pydict) :
  analyze_article rt g article api_key page = (Ret (Some r), page') →
  (∃ text, text ≠ [] ∧ parse_reply rt text = Ret r)
  ∨ r = result (py "Analysis unavailable.") (py "neutral") 5
  ∨ (∃ a, r = degraded (PStr (a ++ py "..."))).
Proof.
  unfold analyze_article.
  destruct (configure g api_key) as [e|].
  { unfold_monad. discriminate. }
  unfold getitem.
  destruct (article !! py "title") as [title|] eqn:Ht;
    [|unfold_monad; discriminate].
  destruct (article !! py "description") as [description|] eqn:Hd;
    [|unfold_monad; discriminate].
  unfold_monad. unfold analyze_body. unfold_monad.
  assert (Hf : ∀ e p,
             analyze_fallback rt article e p = (Ret (Some r), page') →
             ∃ a, r = degraded (PStr (a ++ py "..."))).
  { intros e p. unfold analyze_fallback, getitem. rewrite Ht, Hd. unfold_monad.
    destruct (slice_to 50 title); [|discriminate].
    destruct (slice_to 200 description) as [d200|]; [|discriminate].
    destruct d200; try discriminate.
    cbn [add_str]. intros H. injection H as <- _. eauto. }
  destruct (generate_content g _) as [text|e].
  - destruct text as [|c text].
    + intros H. injection H as <- _. right. left. reflexivity.
    + destruct (parse_reply rt (c :: text)) as [r0|e] eqn:Hp.
      * intros H. injection H as <- _. left. exists (c :: text).
        split; [discriminate|exact Hp].
      * intros H. right. right. exact (Hf _ _ H).
  - intros H. right. right. exact (Hf _ _ H).
Qed.

(** The same three ways, each with the reply that leads to it: a reply
    that is parsed, the empty reply, or the handler's dict. *)
Lemma analyze_article_some_reply (g : gemini) (article : pydict)
    (api_key : pystr) (page page' : list diagnostic) (title description : pyval)
    (r : pydict) :
  article !! py "title" = Some title →
  article !! py "description" = Some description →
  analyze_article rt g article api_key page = (Ret (Some r), page') →
  (∃ text, generate_content g (prompt_for rt title description) = Ret text
           ∧ text ≠ [] ∧ parse_reply rt text = Ret r)
  ∨ (generate_content g (prompt_for rt title description) = Ret []
     ∧ r = result (py "Analysis unavailable.") (py "neutral") 5)
  ∨ (∃ a, r = degraded (PStr (a ++ py "..."))).
Proof.
  intros Ht Hd.
  destruct (configure g api_key) as [e|] eqn:Hc.
  { unfold analyze_article. rewrite Hc. unfold_monad. discriminate. }
  rewrite (analyze_article_configured rt g article api_key _ _ Hc Ht Hd).
  unfold try_except, analyze_body. unfold_monad.
  assert (Hf : ∀ e p,
             analyze_fallback rt article e p = (Ret (Some r), page') →
             ∃ a, r = degraded (PStr (a ++ py "..."))).
  { intros e p. unfold analyze_fallback, getitem. rewrite Ht, Hd. unfold_monad.
    destruct (slice_to 50 title); [|discriminate].
    destruct (slice_to 200 description) as [d200|]; [|discriminate].
    destruct d200; try discriminate.
    cbn [add_str]. intros H. injection H as <- _. eauto. }
  destruct (generate_content g _) as [text|e] eqn:Hg.
  - destruct text as [|c text].
    + intros H. injection H as <- _. right. left. split; reflexivity.
    + destruct (parse_reply rt (c :: text)) as [r0|e] eqn:Hp.
      * intros H. injection H as <- _. left. exists (c :: text).
        split; [reflexivity|]. split; [discriminate|exact Hp].
      * intros H. right. right. exact (Hf _ _ H).
  - intros H. right. right. exact (Hf _ _ H).
Qed.

(** A call that hands back a dict wrote nothing, or one warning. *)
Lemma analyze_article_some_page (g : gemini) (article : pydict)
    (api_key : pystr) (page page' : list diagnostic) (r : pydict) :
  analyze_article rt g article api_key page = (Ret (Some r), page') →
  page' = page ∨ ∃ message, page' = page ++ [StWarning message].
Proof.
  unfold analyze_article.
  destruct (configure g api_key) as [e|]; [unfold_monad; discriminate|].
  unfold getitem.
  destruct (article !! py "title") as [title|] eqn:Ht;
    [|unfold_monad; discriminate].
  destruct (article !! py "description") as [description|] eqn:Hd;
    [|unfold_monad; discriminate].
  unfold_monad.
  destruct (analyze_body rt g _) as [r0|e].
  { intros H. injection H as _ <-. left. reflexivity. }
  unfold analyze_fallback, getitem. rewrite Ht, Hd. unfold_monad.
  destruct (slice_to 50 title); [|discriminate].
  destruct (slice_to 200 description) as [d200|]; [|discriminate].
  destruct (add_str d200 (py "...")); [|discriminate].
  intros H. injection H as _ <-. right. eauto.
Qed.

End AnalyzeMore.

(** C10, against the claim's wording: a dict that holds both keys is
    not enough.  With a description that is a number and a model call
    that fails, the handler writes its warning and then raises TypeError
    on the slice of the description; with a title that is a number it
    raises before the warning.  In both cases the configuration
    succeeded and the function returns nothing at all. *)
Lemma analyze_article_raises_off_type :
  (is_Some (numeric_description !! py "title")
   ∧ is_Some (numeric_description !! py "description")
   ∧ configure (failing (Failure (py "quota"))) [] = None
   ∧ (∃ warning,
         analyze_article ascii_runtime (failing (Failure (py "quota")))
           numeric_description [] [] = (Raise TypeError, [StWarning warning]))
   ∧ ¬ ∃ outcome page',
         analyze_article ascii_runtime (failing (Failure (py "quota")))
           numeric_description [] [] = (Ret outcome, page'))
  ∧ (is_Some (numeric_title !! py "title")
     ∧ is_Some (numeric_title !! py "description")
     ∧ analyze_article ascii_runtime (failing (Failure (py "quota")))
         numeric_title [] [] = (Raise TypeError, [])
     ∧ ¬ ∃ outcome page',
           analyze_article ascii_runtime (failing (Failure (py "quota")))
             numeric_title [] [] = (Ret outcome, page')).
Proof.
  split.
  - split; [eexists; reflexivity|]. split; [eexists; reflexivity|].
    split; [reflexivity|]. split.
    + eexists. vm_compute. reflexivity.
    + intros (outcome & page' & H). vm_compute in H. discriminate.
  - split; [eexists; reflexivity|]. split; [eexists; reflexivity|].
    split; [vm_compute; reflexivity|].
    intros (outcome & page' & H). vm_compute in H. discriminate.
Qed.

(** C10, as the code has it: on an article whose title and description
    are strings the function always returns, and it returns nothing
    exactly when the configuration of the model fails, with one error on
    the page.  What it returns otherwise, whatever the model call does,
    is a dict with exactly the keys summary, sentiment and impact_score,
    whose summary is a string that is not empty and whose impact score
    is an integer from 1 to 10, with at most one warning on the page;
    and unless the model returned the empty text, its sentiment is one
    of Positive, Negative, Tense and Neutral. *)
Theorem analyze_article_nothing_iff_configuration_fails (rt : runtime)
    (g : gemini) (article : pydict) (api_key : pystr)
    (page : list diagnostic) (title description : pystr) :
  article !! py "title" = Some (PStr title) →
  article !! py "description" = Some (PStr description) →
  ∃ outcome page',
    analyze_article rt g article api_key page = (Ret outcome, page')
    ∧ (outcome = None ↔ configure g api_key ≠ None)
    ∧ (outcome = None → ∃ message, page' = page ++ [StError message])
    ∧ (∀ r, outcome = Some r →
         dom r = analysis_keys
         ∧ (page' = page ∨ ∃ message, page' = page ++ [StWarning message])
         ∧ ∃ summary sentiment impact_score,
             r = result summary sentiment impact_score
             ∧ summary ≠ []
             ∧ (1 <= impact_score <= 10)%Z
             ∧ (generate_content g
                  (prompt_for rt (PStr title) (PStr description)) ≠ Ret [] →
                sentiment ∈ canonical_sentiments)).
Proof.
  intros Ht Hd.
  assert (Ha : is_article article) by (exists title, description; auto).
  destruct (analyze_article_cases rt g article api_key page Ha)
    as [(e & Hc & E) | (Hc & r & page' & E)].
  - rewrite E, Hc. eexists None, _. split; [reflexivity|].
    split; [split; [discriminate|reflexivity]|].
    split; [eauto|]. intros r [=].
  - rewrite Hc. exists (Some r), page'. split; [exact E|].
    split; [split; [discriminate|intros H; contradiction]|].
    split; [discriminate|]. intros r' [= <-].
    assert (Hpage : page' = page ∨ ∃ message, page' = page ++ [StWarning message]).
    { exact (analyze_article_some_page rt g article api_key page page' r E). }
    destruct (analyze_article_some_reply rt g article api_key page page'
                _ _ r Ht Hd E)
      as [(text & Hg & Hne & Hp) | [[Hg ->] | [a ->]]].
    + destruct (parse_reply_shape rt text r Hp)
        as (s & t & n & -> & Hs & Hin & Hn).
      split; [apply result_dom|]. split; [exact Hpage|].
      exists s, (capitalize rt t), n.
      split; [reflexivity|]. split.
      * rewrite extract_summary_matched in Hs. injection Hs as <-.
        apply summary_as_matched_nonempty.
      * split; [exact Hn|]. intros _. apply capitalize_sentiment, Hin.
    + split; [apply result_dom|]. split; [exact Hpage|].
      eexists _, _, _. split; [reflexivity|].
      split; [vm_compute; discriminate|]. split; [lia|].
      intros H. contradiction.
    + split; [apply degraded_dom|]. split; [exact Hpage|].
      exists (a ++ py "..."), (py "Neutral"), 5%Z.
      split; [reflexivity|]. split; [destruct a; discriminate|].
      split; [lia|]. intros _. apply list_elem_of_In. simpl. tauto.
Qed.

Lemma analyze_article_nothing_iff_configuration_fails_witness :
  (∃ message,
      analyze_article ascii_runtime (misconfigured ValueError) sample_article
        (py "key") [] = (Ret None, [StError message]))
  ∧ (∃ r message,
        analyze_article ascii_runtime (failing (Failure (py "quota")))
          sample_article (py "key") [] = (Ret (Some r), [StWarning message])
        ∧ dom r = analysis_keys
        ∧ r !! py "sentiment" = Some (PStr (py "Neutral")))
  ∧ (∃ r,
        analyze_article ascii_runtime (answering (py "no markers"))
          sample_article (py "key") [] = (Ret (Some r), [])
        ∧ dom r = analysis_keys
        ∧ ∃ sentiment,
            r !! py "sentiment" = Some (PStr sentiment)
            ∧ sentiment ∈ canonical_sentiments).
Proof.
  split; [|split].
  - destruct (analyze_article_nothing_iff_configuration_fails ascii_runtime
                (misconfigured ValueError) sample_article (py "key") []
                (py "Summit ends") (py "Leaders met in Geneva.")
                eq_refl eq_refl)
      as (outcome & page' & E & Hiff & Hnone & _).
    assert (Ho : outcome = None) by (apply Hiff; discriminate).
    destruct (Hnone Ho) as (message & ->). subst outcome.
    exists message. exact E.
  - destruct (analyze_article_nothing_iff_configuration_fails ascii_runtime
                (failing (Failure (py "quota"))) sample_article (py "key") []
                (py "Summit ends") (py "Leaders met in Geneva.")
                eq_refl eq_refl)
      as (outcome & page' & E & _ & _ & Hsome).
    destruct outcome as [r|]; [|vm_compute in E; discriminate].
    destruct (Hsome r eq_refl) as (Hdom & _ & _).
    pose proof (f_equal snd E) as Hp. vm_compute in Hp. subst page'.
    pose proof (f_equal fst E) as Hr. vm_compute in Hr. injection Hr as Hr.
    exists r. eexists. split; [exact E|]. split; [exact Hdom|].
    subst r. vm_compute. reflexivity.
  - destruct (analyze_article_nothing_iff_configuration_fails ascii_runtime
                (answering (py "no markers")) sample_article (py "key") []
                (py "Summit ends") (py "Leaders met in Geneva.")
                eq_refl eq_refl)
      as (outcome & page' & E & _ & _ & Hsome).
    destruct outcome as [r|]; [|vm_compute in E; discriminate].
    destruct (Hsome r eq_refl)
      as (Hdom & _ & summary & sentiment & n & -> & _ & _ & Hin).
    pose proof (f_equal snd E) as Hp. vm_compute in Hp. subst page'.
    exists (result summary sentiment n).
    split; [exact E|]. split; [exact Hdom|].
    exists sentiment. split; [reflexivity|].
    apply Hin. cbn. discriminate.
Defined.


(** X7: every analysis the function returns is a dict with exactly the
    keys summary, sentiment and impact_score; its summary is a string
    that is not empty, its sentiment is one of Positive, Negative, Tense,
    Neutral or the lower-case neutral of the empty reply, and its impact
    score is an integer from 1 to 10. *)
Theorem analysis_shape (rt : runtime) (g : gemini) (article : pydict)
    (api_key : pystr) (page page' : list diagnostic) (r : pydict) :
  analyze_article rt g article api_key page = (Ret (Some r), page') →
  dom r = analysis_keys
  ∧ ∃ summary sentiment impact_score,
      r = result summary sentiment impact_score
      ∧ summary ≠ []
      ∧ (sentiment ∈ canonical_sentiments ∨ sentiment = py "neutral")
      ∧ (1 <= impact_score <= 10)%Z.
Proof.
  intros H.
  destruct (analyze_article_some_str rt g article api_key page page' r H)
    as [(text & _ & Hp) | [-> | [a ->]]].
  - destruct (parse_reply_shape rt text r Hp)
      as (s & t & n & -> & Hs & Ht & Hn).
    split; [apply result_dom|]. exists s, (capitalize rt t), n.
    split; [reflexivity|]. split.
    + rewrite extract_summary_matched in Hs. injection Hs as <-.
      apply summary_as_matched_nonempty.
    + split; [left; apply capitalize_sentiment, Ht|exact Hn].
  - split; [apply result_dom|]. eexists _, _, _. split; [reflexivity|].
    split; [vm_compute; discriminate|]. split; [right; reflexivity|lia].
  - split; [apply degraded_dom|].
    exists (a ++ py "..."), (py "Neutral"), 5%Z.
    split; [reflexivity|]. split; [destruct a; discriminate|].
    split; [|lia]. left. apply list_elem_of_In. simpl. tauto.
Qed.

Lemma analysis_shape_witness :
  dom (result (py "X. Y.") (py "Positive") 10) = analysis_keys
  ∧ ∃ summary sentiment impact_score,
      result (py "X. Y.") (py "Positive") 10
      = result summary sentiment impact_score
      ∧ summary ≠ []
      ∧ (sentiment ∈ canonical_sentiments ∨ sentiment = py "neutral")
      ∧ (1 <= impact_score <= 10)%Z.
Proof.
  apply (analysis_shape ascii_runtime (answering scenario_reply) sample_article
           [] [] []).
  vm_compute. reflexivity.
Defined.

(** X8: the configuration is tried before the article is read.  Once
    the model is configured, an article without a title or without a
    description makes the function raise KeyError, with nothing on the
    page; when the configuration fails, the function returns nothing and
    writes one error, whatever the article holds. *)
Theorem analyze_article_missing_key (rt : runtime) (g : gemini)
    (article : pydict) (api_key : pystr) (page : list diagnostic) :
  (configure g api_key = None →
   article !! py "title" = None ∨ article !! py "description" = None →
   analyze_article rt g article api_key page = (Raise KeyError, page))
  ∧ (∀ e,
        configure g api_key = Some e →
        analyze_article rt g article api_key page
        = (Ret None,
           page ++ [StError ([10060] ++ py " Failed to configure Gemini API: "
                             ++ str_exn rt e)])).
Proof.
  split.
  - intros Hc Hk. unfold analyze_article, getitem. rewrite Hc. unfold_monad.
    destruct (article !! py "title"); [|reflexivity].
    destruct Hk as [Hk | Hk]; [discriminate|]. rewrite Hk. reflexivity.
  - intros e Hc. unfold analyze_article. rewrite Hc. reflexivity.
Qed.

Lemma analyze_article_missing_key_witness :
  analyze_article ascii_runtime (answering scenario_reply) untitled_article
    (py "key") [] = (Raise KeyError, [])
  ∧ analyze_article ascii_runtime (misconfigured ValueError) untitled_article
      (py "key") []
    = (Ret None,
       [] ++ [StError ([10060] ++ py " Failed to configure Gemini API: "
                       ++ str_exn ascii_runtime ValueError)]).
Proof.
  split.
  - apply (proj1 (analyze_article_missing_key ascii_runtime
                    (answering scenario_reply) untitled_article (py "key") []));
      [reflexivity|left; reflexivity].
  - apply (proj2 (analyze_article_missing_key ascii_runtime
                    (misconfigured ValueError) untitled_article (py "key") [])
             ValueError).
    reflexivity.
Defined.

(** X9: a call writes at most one message.  The page it leaves is the
    page it found, or that page with one error and nothing returned, or
    that page with one warning. *)
Theorem analyze_article_one_report (rt : runtime) (g : gemini)
    (article : pydict) (api_key : pystr) (page : list diagnostic) :
  snd (analyze_article rt g article api_key page) = page
  ∨ (∃ message,
        analyze_article rt g article api_key page
        = (Ret None, page ++ [StError message]))
  ∨ (∃ message,
        snd (analyze_article rt g article api_key page)
        = page ++ [StWarning message]).
Proof.
  unfold analyze_article.
  destruct (configure g api_key) as [e|]; [right; left; eauto|].
  unfold getitem.
  destruct (article !! py "title") as [title|] eqn:Ht; [|left; reflexivity].
  destruct (article !! py "description") as [description|] eqn:Hd;
    [|left; reflexivity].
  unfold_monad.
  destruct (analyze_body rt g _) as [r|e]; [left; reflexivity|].
  unfold analyze_fallback, getitem. rewrite Ht, Hd. unfold_monad.
  destruct (slice_to 50 title); [|left; reflexivity].
  right. right.
  destruct (slice_to 200 description) as [d200|]; [|eauto].
  destruct (add_str d200 (py "...")); eauto.
Qed.

(** X10: white space around the reply is of no account: a reply that is
    not empty gives the same analysis, and the same page, with white
    space put before and after it. *)
Theorem analyze_article_reply_padding (rt : runtime) (article : pydict)
    (api_key : pystr) (page : list diagnostic) (ws1 text ws2 : pystr) :
  forallb (isspace rt) ws1 = true →
  forallb (isspace rt) ws2 = true →
  text ≠ [] →
  parse_reply rt (ws1 ++ text ++ ws2) = parse_reply rt text
  ∧ analyze_article rt (answering (ws1 ++ text ++ ws2)) article api_key page
    = analyze_article rt (answering text) article api_key page.
Proof.
  intros H1 H2 Hne.
  assert (Hp : parse_reply rt (ws1 ++ text ++ ws2) = parse_reply rt text).
  { unfold parse_reply. rewrite (strip_padding rt ws1 text ws2 H1 H2).
    reflexivity. }
  split; [exact Hp|].
  unfold analyze_article. cbn [configure answering].
  destruct (getitem article (py "title")) as [title|]; [|reflexivity].
  unfold_monad.
  destruct (getitem article (py "description")) as [description|];
    [|reflexivity].
  unfold analyze_body. cbn [generate_content answering]. unfold_monad.
  rewrite <- Hp. destruct text as [|c text]; [contradiction|].
  destruct (ws1 ++ (c :: text) ++ ws2) as [|x y] eqn:E; [|reflexivity].
  apply app_eq_nil in E as [_ E]. discriminate.
Qed.

Lemma analyze_article_reply_padding_witness :
  parse_reply ascii_runtime (py "  " ++ scenario_reply ++ nl)
  = parse_reply ascii_runtime scenario_reply
  ∧ analyze_article ascii_runtime (answering (py "  " ++ scenario_reply ++ nl))
      sample_article (py "key") []
    = analyze_article ascii_runtime (answering scenario_reply) sample_article
        (py "key") [].
Proof.
  apply (analyze_article_reply_padding ascii_runtime sample_article (py "key")
           [] (py "  ") scenario_reply nl).
  - reflexivity.
  - reflexivity.
  - vm_compute. discriminate.
Defined.

Section ParseMore.

Variable rt : runtime.

(** The digits the score pattern captures are part of the text. *)
Lemma match_here_score_length (s g : pystr) :
  match_here rt ignorecase score_re s = Some (Some g) →
  (length g <= length s)%nat.
Proof.
  unfold match_here, score_re. cbn [exec].
  destruct (str_match rt ignorecase (py "IMPACT") s) as [[|c s1]|] eqn:E1;
    try discriminate.
  destruct (atom_match rt ignorecase (OneOf (py "_ ")) c); [|discriminate].
  destruct (str_match rt ignorecase (py "SCORE:") s1) as [s2|] eqn:E2;
    [|discriminate].
  intros H. apply star_inv in H as (ws & s3 & -> & _ & H).
  apply plus_inv in H as (x & d & s4 & -> & _ & H). injection H as <-.
  apply str_match_length in E1, E2. cbn [length] in E1.
  rewrite length_take. rewrite E1, E2, !length_app. cbn [length].
  rewrite !length_app. lia.
Qed.

Lemma search_score_length (s g : pystr) :
  search rt ignorecase score_re s = Some (Some g) → (length g <= length s)%nat.
Proof.
  intros H. destruct (search_inv rt _ _ _ _ H) as (pre & s' & -> & Hm).
  apply match_here_score_length in Hm. rewrite length_app. lia.
Qed.

(** A literal of the pattern is matched by a character of the text. *)
Lemma str_match_has (fl : flags) (cs s rest : pystr) (p : N) :
  str_match rt fl cs s = Some rest → In p cs →
  ∃ c, In c s ∧ lit_match rt fl p c = true.
Proof.
  revert s. induction cs as [|q cs IH]; intros s; cbn [str_match In];
    [contradiction|].
  destruct s as [|c s]; [discriminate|].
  destruct (lit_match rt fl q c) eqn:E; [|discriminate].
  intros H [-> | Hin].
  - exists c. split; [left; reflexivity|exact E].
  - destruct (IH s H Hin) as (c' & Hc & Hm). exists c'. split; [right|]; auto.
Qed.

(** Under IGNORECASE an ASCII character matches the colon only when it
    is the colon. *)
Lemma colon_match (fl : flags) (c : N) :
  IGNORECASE fl = true →
  is_ascii c = true → c ≠ 58 → lit_match rt fl 58 c = false.
Proof.
  intros Hi Ha Hc. unfold lit_match, fold_eq. rewrite Hi, Ha.
  apply N.eqb_neq. unfold ascii_lower, between.
  change (((65 <=? 58) && (58 <=? 90))) with false. cbn match.
  destruct ((65 <=? c) && (c <=? 90)) eqn:E; [|exact Hc].
  apply andb_true_iff in E as [E _]. apply N.leb_le in E. lia.
Qed.

(** A run of literals with a colon does not match a text of ASCII
    characters without one. *)
Lemma str_match_no_colon (fl : flags) (cs s : pystr) :
  IGNORECASE fl = true →
  In 58 cs →
  Forall (fun c => is_ascii c = true ∧ c ≠ 58) s →
  str_match rt fl cs s = None.
Proof.
  intros Hi Hin Hall.
  destruct (str_match rt fl cs s) as [rest|] eqn:E; [|reflexivity].
  destruct (str_match_has fl cs s rest 58 E Hin) as (c & Hc & Hm).
  rewrite Forall_forall in Hall.
  destruct (Hall c (proj2 (list_elem_of_In _ _) Hc)) as [Ha Hne].
  rewrite (colon_match fl c Hi Ha Hne) in Hm. discriminate.
Qed.

Lemma match_here_no_colon (s : pystr) :
  Forall (fun c => is_ascii c = true ∧ c ≠ 58) s →
  match_here rt dotall_ignorecase summary_re s = None
  ∧ match_here rt ignorecase sentiment_re s = None
  ∧ match_here rt ignorecase score_re s = None.
Proof.
  intros Hall. split; [|split].
  - apply match_here_summary_none, str_match_no_colon;
      [reflexivity | vm_compute; tauto | exact Hall].
  - unfold match_here, sentiment_re. cbn [exec].
    rewrite str_match_no_colon;
      [reflexivity | reflexivity | vm_compute; tauto | exact Hall].
  - unfold match_here, score_re. cbn [exec].
    destruct (str_match rt ignorecase (py "IMPACT") s) as [[|c s1]|] eqn:E;
      try reflexivity.
    destruct (atom_match rt ignorecase (OneOf (py "_ ")) c); [|reflexivity].
    rewrite str_match_no_colon;
      [reflexivity | reflexivity | vm_compute; tauto |].
    destruct (str_match_suffix rt _ _ _ _ E) as [pre ->].
    apply Forall_app in Hall as [_ Hall]. exact (Forall_inv_tail Hall).
Qed.

Lemma search_no_colon (s : pystr) :
  Forall (fun c => is_ascii c = true ∧ c ≠ 58) s →
  search rt dotall_ignorecase summary_re s = None
  ∧ search rt ignorecase sentiment_re s = None
  ∧ search rt ignorecase score_re s = None.
Proof.
  induction s as [|c s IH]; intros Hall;
    destruct (match_here_no_colon _ Hall) as (H1 & H2 & H3);
    cbn [search]; rewrite H1, H2, H3.
  - auto.
  - exact (IH (Forall_inv_tail Hall)).
Qed.

Lemma strip_Forall (P : N → Prop) (s : pystr) :
  Forall P s → Forall P (strip rt s).
Proof.
  assert (H : ∀ l, Forall P l → Forall P (lstrip rt l)).
  { intros l Hl. destruct (lstrip_suffix rt l) as [pre E].
    rewrite E in Hl. apply Forall_app in Hl. tauto. }
  intros Hs. unfold strip, rstrip.
  apply Forall_rev, H, Forall_rev, H, Hs.
Qed.

End ParseMore.

(** X11: a reply that is not empty and has at most 640 characters is
    always parsed, and so is every reply when the interpreter's digit
    limit is switched off: the function returns the parsed analysis and
    writes nothing, however malformed the reply is. *)
Theorem short_reply_always_parses (rt : runtime) (g : gemini)
    (article : pydict) (api_key : pystr) (page : list diagnostic)
    (title description : pyval) (text : pystr) :
  article !! py "title" = Some title →
  article !! py "description" = Some description →
  configure g api_key = None →
  generate_content g (prompt_for rt title description) = Ret text →
  text ≠ [] →
  (length text <= 640)%nat ∨ int_max_str_digits rt = 0%nat →
  ∃ r,
    parse_reply rt text = Ret r
    ∧ analyze_article rt g article api_key page = (Ret (Some r), page).
Proof.
  intros Ht Hd Hc Hg Hne Hlim.
  rewrite (analyze_article_configured rt g article api_key _ _ Hc Ht Hd).
  unfold try_except, analyze_body. unfold_monad. rewrite Hg.
  destruct text as [|c text]; [contradiction|].
  destruct (parse_reply_total rt (c :: text))
    as [[r Hr] | (digits & Hs & Hover & _)].
  - exists r. rewrite Hr. auto.
  - exfalso. apply search_score_length in Hs.
    pose proof (strip_shorter rt (c :: text)) as Hlen.
    unfold over_digit_limit in Hover.
    apply andb_true_iff in Hover as [H640 Hover].
    apply andb_true_iff in Hover as [H0 _].
    apply Nat.ltb_lt in H640, H0.
    destruct Hlim as [Hlim | Hlim]; lia.
Qed.

Lemma short_reply_always_parses_witness :
  ∃ r,
    parse_reply ascii_runtime (py "no structure at all") = Ret r
    ∧ analyze_article ascii_runtime (answering (py "no structure at all"))
        sample_article (py "key") [] = (Ret (Some r), []).
Proof.
  apply (short_reply_always_parses ascii_runtime
           (answering (py "no structure at all")) sample_article (py "key") []
           (PStr (py "Summit ends")) (PStr (py "Leaders met in Geneva."))
           (py "no structure at all")); try reflexivity.
  - vm_compute. discriminate.
  - left. vm_compute. lia.
Defined.

(** X12: a reply of ASCII characters with no colon in it carries none
    of the three markers, and its analysis is the one made of the three
    defaults: summary Summary not available., sentiment Neutral, impact
    score 5. *)
Theorem reply_without_colon (rt : runtime) (g : gemini)
    (article : pydict) (api_key : pystr) (page : list diagnostic)
    (title description : pyval) (text : pystr) :
  article !! py "title" = Some title →
  article !! py "description" = Some description →
  configure g api_key = None →
  generate_content g (prompt_for rt title description) = Ret text →
  text ≠ [] →
  Forall (fun c => is_ascii c = true ∧ c ≠ 58) text →
  analyze_article rt g article api_key page
  = (Ret (Some (result (py "Summary not available.") (py "Neutral") 5)), page).
Proof.
  intros Ht Hd Hc Hg Hne Hall.
  rewrite (analyze_article_configured rt g article api_key _ _ Hc Ht Hd).
  unfold try_except, analyze_body. unfold_monad. rewrite Hg.
  destruct text as [|c text]; [contradiction|].
  destruct (search_no_colon rt _ (strip_Forall rt _ _ Hall)) as (H1 & H2 & H3).
  unfold parse_reply, extract_summary, extract_sentiment, extract_impact_score.
  rewrite H1, H2, H3. reflexivity.
Qed.

Lemma reply_without_colon_witness :
  analyze_article ascii_runtime (answering (py "I cannot help with that."))
    sample_article (py "key") []
  = (Ret (Some (result (py "Summary not available.") (py "Neutral") 5)), []).
Proof.
  apply (reply_without_colon ascii_runtime
           (answering (py "I cannot help with that.")) sample_article (py "key")
           [] (PStr (py "Summit ends")) (PStr (py "Leaders met in Geneva."))
           (py "I cannot help with that.")); try reflexivity.
  - vm_compute. discriminate.
  - vm_compute. repeat constructor; discriminate.
Defined.

(** ** More on [batch_analyze_articles] *)

Section BatchMore.

Variable rt : runtime.
Variable api_key : pystr.

(** The records already collected are only carried along. *)
Lemma batch_loop_acc (svc : nat → gemini) (articles : list pydict) :
  ∀ i analyzed page,
  batch_loop rt svc i articles api_key analyzed page =
    match batch_loop rt svc i articles api_key [] page with
    | (Ret out, page') => (Ret (analyzed ++ out), page')
    | (Raise e, page') => (Raise e, page')
    end.
Proof.
  induction articles as [|article rest IH]; intros i analyzed page.
  - cbn. rewrite app_nil_r. reflexivity.
  - cbn [batch_loop]. unfold mbind, M_mbind, M_bind.
    destruct (analyze_article rt (svc i) article api_key page)
      as [[analysis|e] page1]; [|reflexivity].
    rewrite IH. symmetry. rewrite IH. symmetry.
    destruct (batch_loop rt svc (S i) rest api_key [] page1)
      as [[out|e] page2]; [|reflexivity].
    destruct analysis as [a|]; [|rewrite app_nil_l; reflexivity].
    destruct (truthy_opt (Some a)).
    + rewrite app_nil_l, <- app_assoc. reflexivity.
    + rewrite app_nil_l. reflexivity.
Qed.

Lemma batch_loop_app (svc : nat → gemini) (l1 l2 : list pydict) :
  ∀ i analyzed page,
  batch_loop rt svc i (l1 ++ l2) api_key analyzed page =
    match batch_loop rt svc i l1 api_key analyzed page with
    | (Ret analyzed', page') =>
        batch_loop rt svc (i + length l1) l2 api_key analyzed' page'
    | (Raise e, page') => (Raise e, page')
    end.
Proof.
  induction l1 as [|article rest IH]; intros i analyzed page.
  - cbn. rewrite Nat.add_0_r. reflexivity.
  - cbn [app batch_loop length]. unfold mbind, M_mbind, M_bind.
    destruct (analyze_article rt (svc i) article api_key page)
      as [[analysis|e] page1]; [|reflexivity].
    rewrite IH. replace (S i + length rest)%nat with (i + S (length rest))%nat
      by lia.
    reflexivity.
Qed.

Lemma batch_loop_shift (svc : nat → gemini) (n : nat) (articles : list pydict) :
  ∀ i analyzed page,
  batch_loop rt svc (n + i) articles api_key analyzed page
  = batch_loop rt (fun j => svc (n + j)%nat) i articles api_key analyzed page.
Proof.
  induction articles as [|article rest IH]; intros i analyzed page;
    [reflexivity|].
  cbn [batch_loop]. unfold mbind, M_mbind, M_bind.
  destruct (analyze_article rt (svc (n + i)%nat) article api_key page)
    as [[analysis|e] page1]; [|reflexivity].
  replace (S (n + i)) with (n + S i)%nat by lia. apply IH.
Qed.

End BatchMore.

(** X13: a batch can be cut in two.  Analysing a list is analysing its
    first part and then, on the page that leaves and against the calls
    that follow, its second part: the records are those of the first
    part followed by those of the second, and a failure of either is the
    failure of the whole. *)
Theorem batch_analyze_articles_app (rt : runtime) (svc : nat → gemini)
    (l1 l2 : list pydict) (api_key : pystr) (page : list diagnostic) :
  batch_analyze_articles rt svc (l1 ++ l2) api_key page =
    match batch_analyze_articles rt svc l1 api_key page with
    | (Ret out1, page1) =>
        match batch_analyze_articles rt (fun j => svc (length l1 + j)%nat) l2
                api_key page1 with
        | (Ret out2, page2) => (Ret (out1 ++ out2), page2)
        | (Raise e, page2) => (Raise e, page2)
        end
    | (Raise e, page1) => (Raise e, page1)
    end.
Proof.
  unfold batch_analyze_articles. rewrite batch_loop_app.
  destruct (batch_loop rt svc 0 l1 api_key [] page) as [[out1|e] page1];
    [|reflexivity].
  rewrite batch_loop_acc. cbn [Nat.add].
  rewrite <- (Nat.add_0_r (length l1)) at 1. rewrite batch_loop_shift.
  reflexivity.
Qed.

Section BatchFacts.

Variable rt : runtime.

Lemma analyze_article_dom (g : gemini) (article : pydict) (api_key : pystr)
    (page page' : list diagnostic) (r : pydict) :
  analyze_article rt g article api_key page = (Ret (Some r), page') →
  dom r = analysis_keys.
Proof.
  intros H.
  destruct (analyze_article_some rt g article api_key page page' r H)
    as [[text Hp] | [-> | [summary ->]]].
  - destruct (parse_reply_shape rt text r Hp) as (s & t & n & -> & _).
    apply result_dom.
  - apply result_dom.
  - apply degraded_dom.
Qed.

(** A call adds at most one message to the page. *)
Lemma analyze_article_reports (g : gemini) (article : pydict)
    (api_key : pystr) :
  (length (snd (analyze_article rt g article api_key [])) <= 1)%nat.
Proof.
  unfold analyze_article.
  destruct (configure g api_key) as [e|]; [unfold_monad; cbn; lia|].
  unfold getitem.
  destruct (article !! py "title") as [title|] eqn:Ht;
    [|unfold_monad; cbn; lia].
  destruct (article !! py "description") as [description|] eqn:Hd;
    [|unfold_monad; cbn; lia].
  unfold_monad.
  destruct (analyze_body rt g _) as [r|e]; [cbn; lia|].
  unfold analyze_fallback, getitem. rewrite Ht, Hd. unfold_monad.
  destruct (slice_to 50 title); [|cbn; lia].
  destruct (slice_to 200 description) as [d200|]; [|cbn; lia].
  destruct (add_str d200 (py "...")); cbn; lia.
Qed.

Lemma reported_bound (svc : nat → gemini) (api_key : pystr)
    (l : list (nat * pydict)) :
  (length (flat_map (reported rt svc api_key) l) <= length l)%nat.
Proof.
  induction l as [|call l IH]; cbn [flat_map length]; [lia|].
  rewrite length_app. unfold reported at 1.
  pose proof (analyze_article_reports (svc (fst call)) (snd call) api_key).
  lia.
Qed.

(** The loop, whatever it ends in, has written what its calls wrote. *)
Lemma batch_loop_page (svc : nat → gemini) (api_key : pystr)
    (articles : list pydict) :
  ∀ i analyzed page,
  ∃ made : nat,
    (made <= length articles)%nat
    ∧ snd (batch_loop rt svc i articles api_key analyzed page)
      = page ++ flat_map (reported rt svc api_key) (firstn made (calls i articles)).
Proof.
  induction articles as [|article rest IH]; intros i analyzed page.
  - exists 0%nat. cbn. rewrite app_nil_r. auto.
  - cbn [batch_loop]. unfold mbind at 1, M_mbind, M_bind.
    rewrite analyze_article_page, calls_cons.
    destruct (fst (analyze_article rt (svc i) article api_key []))
      as [analysis|e].
    + destruct (IH (S i)
                  (match analysis with
                   | Some a =>
                       if truthy_opt analysis
                       then analyzed ++ [a ∪ article] else analyzed
                   | None => analyzed
                   end)
                  (page ++ snd (analyze_article rt (svc i) article api_key [])))
        as (made & Hle & ->).
      exists (S made). split; [cbn [length]; lia|].
      cbn [firstn flat_map]. rewrite <- app_assoc. reflexivity.
    + exists 1%nat. split; [cbn [length]; lia|].
      cbn [snd firstn flat_map]. rewrite firstn_O. cbn [flat_map].
      rewrite app_nil_r. reflexivity.
Qed.

End BatchFacts.

(** X14: every record of the output is an input article merged with
    the analysis its call returned: the keys summary, sentiment and
    impact_score hold the analysis, also where the article had such a
    key of its own, and every other key holds what the article held. *)
Theorem batch_record_fields (rt : runtime) (svc : nat → gemini)
    (articles : list pydict) (api_key : pystr) (page page' : list diagnostic)
    (out : list pydict) (record : pydict) :
  batch_analyze_articles rt svc articles api_key page = (Ret out, page') →
  record ∈ out →
  ∃ i article analysis,
    (i, article) ∈ calls 0 articles
    ∧ article ∈ articles
    ∧ returned rt (svc i) article api_key = Some analysis
    ∧ dom analysis = analysis_keys
    ∧ record = analysis ∪ article
    ∧ (∀ k, k ∈ analysis_keys → is_Some (record !! k)
                               ∧ record !! k = analysis !! k)
    ∧ (∀ k, k ∉ analysis_keys → record !! k = article !! k).
Proof.
  intros H Hin.
  destruct (batch_loop_inv rt svc api_key articles 0%nat [] page out page' H)
    as (-> & _ & Hcalls).
  rewrite app_nil_l in Hin. apply list_elem_of_omap in Hin
    as ([i article] & Hcall & He).
  unfold enrich in He. cbn [fst snd] in He.
  destruct (returned rt (svc i) article api_key) as [analysis|] eqn:Hr;
    [|discriminate].
  cbn in He. injection He as <-.
  specialize (Hcalls (i, article) Hcall). cbn [fst snd] in Hcalls.
  rewrite Hr in Hcalls.
  assert (Hd : dom analysis = analysis_keys).
  { destruct (analyze_article rt (svc i) article api_key []) as [o p] eqn:E.
    cbn in Hcalls. subst o. eapply analyze_article_dom, E. }
  exists i, article, analysis. split; [exact Hcall|]. split.
  { rewrite <- (calls_snd articles 0).
    apply list_elem_of_In, in_map_iff. exists (i, article).
    split; [reflexivity|]. apply list_elem_of_In, Hcall. }
  split; [exact Hr|]. split; [exact Hd|]. split; [reflexivity|]. split.
  - intros k Hk. rewrite <- Hd in Hk. apply elem_of_dom in Hk.
    rewrite (lookup_union_l' _ _ _ Hk). auto.
  - intros k Hk. rewrite <- Hd in Hk. apply not_elem_of_dom in Hk.
    apply lookup_union_r, Hk.
Qed.

Lemma batch_record_fields_witness :
  ∃ i article analysis,
    (i, article) ∈ calls 0 [sample_article]
    ∧ article ∈ [sample_article]
    ∧ returned ascii_runtime (answering scenario_reply) article (py "key")
      = Some analysis
    ∧ dom analysis = analysis_keys
    ∧ result (py "X. Y.") (py "Positive") 10 ∪ sample_article
      = analysis ∪ article
    ∧ (∀ k, k ∈ analysis_keys →
         is_Some ((result (py "X. Y.") (py "Positive") 10 ∪ sample_article) !! k)
         ∧ (result (py "X. Y.") (py "Positive") 10 ∪ sample_article) !! k
           = analysis !! k)
    ∧ (∀ k, k ∉ analysis_keys →
         (result (py "X. Y.") (py "Positive") 10 ∪ sample_article) !! k
         = article !! k).
Proof.
  apply (batch_record_fields ascii_runtime (fun _ => answering scenario_reply)
           [sample_article] (py "key") [] []
           [result (py "X. Y.") (py "Positive") 10 ∪ sample_article]).
  - vm_compute. reflexivity.
  - apply list_elem_of_In. left. reflexivity.
Defined.

(** X15: the orchestrator writes at most one message for each article:
    whatever it ends in, a list of records or an exception, the page it
    leaves is the page it found followed by the messages of the calls it
    made, and they are no more than the articles. *)
Theorem batch_reports_bound (rt : runtime) (svc : nat → gemini)
    (articles : list pydict) (api_key : pystr) (page : list diagnostic) :
  ∃ reports,
    snd (batch_analyze_articles rt svc articles api_key page) = page ++ reports
    ∧ (length reports <= length articles)%nat.
Proof.
  destruct (batch_loop_page rt svc api_key articles 0%nat [] page)
    as (made & Hle & E).
  eexists. split; [exact E|].
  etransitivity; [apply reported_bound|].
  rewrite length_take, calls_length. lia.
Qed.

Section BatchEdges.

Variable rt : runtime.

Lemma batch_loop_unconfigured (svc : nat → gemini) (api_key : pystr)
    (articles : list pydict) :
  ∀ i analyzed page,
  (∀ j, (i <= j < i + length articles)%nat →
        configure (svc j) api_key ≠ None) →
  ∃ reports,
    batch_loop rt svc i articles api_key analyzed page
    = (Ret analyzed, page ++ reports)
    ∧ length reports = length articles
    ∧ Forall (fun d => ∃ message, d = StError message) reports.
Proof.
  induction articles as [|article rest IH]; intros i analyzed page Hc.
  - exists []. cbn. rewrite app_nil_r. auto.
  - cbn [batch_loop]. unfold mbind at 1, M_mbind, M_bind.
    unfold analyze_article at 1.
    destruct (configure (svc i) api_key) as [e|] eqn:E.
    + unfold_monad.
      destruct (IH (S i) analyzed
                  (page ++ [StError ([10060]
                                     ++ py " Failed to configure Gemini API: "
                                     ++ str_exn rt e)]))
        as (reports & -> & Hlen & Hall).
      { intros j Hj. apply Hc. cbn [length]. lia. }
      eexists (_ :: reports). rewrite <- app_assoc.
      split; [reflexivity|]. split; [cbn [length]; lia|].
      constructor; [eauto|exact Hall].
    + destruct (Hc i); [cbn [length]; lia|exact E].
Qed.

End BatchEdges.

(** X16: when the configuration fails at every call, the orchestrator
    returns the empty list and writes one error for each article; it does
    so for any articles, also those without a title or a description,
    which are not read before the configuration is tried. *)
Theorem batch_all_configurations_fail (rt : runtime) (svc : nat → gemini)
    (articles : list pydict) (api_key : pystr) (page : list diagnostic) :
  (∀ j, (j < length articles)%nat → configure (svc j) api_key ≠ None) →
  ∃ reports,
    batch_analyze_articles rt svc articles api_key page
    = (Ret [], page ++ reports)
    ∧ length reports = length articles
    ∧ Forall (fun d => ∃ message, d = StError message) reports.
Proof.
  intros Hc. apply batch_loop_unconfigured. intros j Hj. apply Hc. lia.
Qed.

Lemma batch_all_configurations_fail_witness :
  ∃ reports,
    batch_analyze_articles ascii_runtime (fun _ => misconfigured ValueError)
      [sample_article; untitled_article] (py "key") []
    = (Ret [], [] ++ reports)
    ∧ length reports = length [sample_article; untitled_article]
    ∧ Forall (fun d => ∃ message, d = StError message) reports.
Proof.
  apply (batch_all_configurations_fail ascii_runtime
           (fun _ => misconfigured ValueError)
           [sample_article; untitled_article] (py "key") []).
  intros j Hj. discriminate.
Defined.

(** X17: one article without a title or a description ends the batch.
    When the articles before it are Articles and the model is configured
    at its call, the orchestrator raises KeyError: the records made so
    far are lost and the articles after it are not analysed; the page
    holds what the calls before it wrote. *)
Theorem batch_aborted_by_missing_key (rt : runtime) (svc : nat → gemini)
    (early late : list pydict) (bad : pydict) (api_key : pystr)
    (page : list diagnostic) :
  Forall is_article early →
  configure (svc (length early)) api_key = None →
  bad !! py "title" = None ∨ bad !! py "description" = None →
  batch_analyze_articles rt svc (early ++ bad :: late) api_key page
  = (Raise KeyError,
     page ++ flat_map (reported rt svc api_key) (calls 0 early)).
Proof.
  intros Hall Hc Hk. unfold batch_analyze_articles.
  rewrite batch_loop_app, (batch_loop_spec rt svc api_key early Hall).
  cbn [Nat.add batch_loop]. unfold mbind at 1, M_mbind, M_bind.
  unfold analyze_article at 1, getitem. rewrite Hc. unfold_monad.
  destruct (bad !! py "title"); [|reflexivity].
  destruct Hk as [Hk | Hk]; [discriminate|]. rewrite Hk. reflexivity.
Qed.

Lemma batch_aborted_by_missing_key_witness :
  batch_analyze_articles ascii_runtime (fun _ => answering scenario_reply)
    ([sample_article] ++ untitled_article :: [sample_article]) (py "key") []
  = (Raise KeyError, []).
Proof.
  rewrite (batch_aborted_by_missing_key ascii_runtime
             (fun _ => answering scenario_reply) [sample_article]
             [sample_article] untitled_article (py "key") []).
  - vm_compute. reflexivity.
  - repeat constructor.
    exists (py "Summit ends"), (py "Leaders met in Geneva.").
    split; reflexivity.
  - reflexivity.
  - left. reflexivity.
Defined.

(** ** The dashboard *)

Section Sorting.

Context {A : Type} (key : A → Z).

Lemma insert_desc_perm (x : A) (l : list A) :
  Permutation (insert_desc key x l) (x :: l).
Proof.
  induction l as [|y l IH]; cbn [insert_desc]; [reflexivity|].
  destruct (key y <=? key x)%Z; [reflexivity|].
  rewrite IH. apply perm_swap.
Qed.

Lemma sorted_desc_perm (l : list A) : Permutation (sorted_desc key l) l.
Proof.
  induction l as [|x l IH]; cbn [sorted_desc]; [reflexivity|].
  rewrite insert_desc_perm, IH. reflexivity.
Qed.

Lemma insert_desc_sorted (x : A) (l : list A) :
  StronglySorted (fun a b => (key b <= key a)%Z) l →
  StronglySorted (fun a b => (key b <= key a)%Z) (insert_desc key x l).
Proof.
  induction 1 as [|y l Hs IH Hy]; cbn [insert_desc].
  - repeat constructor.
  - destruct (key y <=? key x)%Z eqn:E.
    + apply Z.leb_le in E. constructor; [constructor; assumption|].
      constructor; [exact E|].
      eapply Forall_impl; [exact Hy|]. intros b Hb. cbn in Hb. lia.
    + apply Z.leb_gt in E. constructor; [exact IH|].
      rewrite (insert_desc_perm x l). constructor; [lia|exact Hy].
Qed.

Lemma sorted_desc_sorted (l : list A) :
  StronglySorted (fun a b => (key b <= key a)%Z) (sorted_desc key l).
Proof.
  induction l as [|x l IH]; cbn [sorted_desc]; [constructor|].
  apply insert_desc_sorted, IH.
Qed.

(** The sort is stable: elements of one key keep their order. *)
Lemma insert_desc_stable (k : Z) (x : A) (l : list A) :
  List.filter (fun a => (key a =? k)%Z) (insert_desc key x l)
  = List.filter (fun a => (key a =? k)%Z) (x :: l).
Proof.
  induction l as [|y l IH]; cbn [insert_desc]; [reflexivity|].
  destruct (key y <=? key x)%Z eqn:E; [reflexivity|].
  apply Z.leb_gt in E. cbn [List.filter] in *. rewrite IH.
  destruct (key y =? k)%Z eqn:Ey, (key x =? k)%Z eqn:Ex; try reflexivity.
  apply Z.eqb_eq in Ey, Ex. lia.
Qed.

Lemma sorted_desc_stable (k : Z) (l : list A) :
  List.filter (fun a => (key a =? k)%Z) (sorted_desc key l)
  = List.filter (fun a => (key a =? k)%Z) l.
Proof.
  induction l as [|x l IH]; cbn [sorted_desc]; [reflexivity|].
  rewrite insert_desc_stable. cbn [List.filter]. rewrite IH. reflexivity.
Qed.

End Sorting.

(** X18: the three records of highest impact.  On records whose impact
    is an integer, the selection has three records, or all of them when
    there are fewer; it is the head of a rearrangement of the records, in
    descending order of impact, in which no record left out has a higher
    impact than a selected one and records of equal impact stay in their
    input order. *)
Theorem top_impact_spec (records : list pydict) :
  Forall (fun r => is_Some (impact_key r)) records →
  ∃ top rest,
    top_impact records = Some top
    ∧ length top = Nat.min 3 (length records)
    ∧ Permutation (top ++ rest) records
    ∧ StronglySorted (fun a b => (impact_of b <= impact_of a)%Z) (top ++ rest)
    ∧ (∀ a b, a ∈ top → b ∈ rest → (impact_of b <= impact_of a)%Z)
    ∧ (∀ k, with_impact k (top ++ rest) = with_impact k records).
Proof.
  intros Hall.
  exists (firstn 3 (sorted_desc impact_of records)),
         (skipn 3 (sorted_desc impact_of records)).
  assert (Hs : StronglySorted (fun a b => (impact_of b <= impact_of a)%Z)
                 (firstn 3 (sorted_desc impact_of records)
                  ++ skipn 3 (sorted_desc impact_of records))).
  { rewrite firstn_skipn. apply sorted_desc_sorted. }
  split.
  { unfold top_impact.
    replace (forallb _ records) with true; [reflexivity|].
    symmetry. apply forallb_forall. intros r Hr.
    apply bool_decide_eq_true. rewrite Forall_forall in Hall.
    apply Hall, list_elem_of_In, Hr. }
  split.
  { rewrite length_take. f_equal.
    apply Permutation_length, sorted_desc_perm. }
  split; [rewrite firstn_skipn; apply sorted_desc_perm|].
  split; [exact Hs|]. split.
  - intros a b Ha Hb. revert Hs Ha Hb.
    generalize (firstn 3 (sorted_desc impact_of records)) as top.
    generalize (skipn 3 (sorted_desc impact_of records)) as rest.
    intros rest top. induction top as [|x top IH]; intros Hs Ha Hb.
    + apply elem_of_nil in Ha. contradiction.
    + cbn [app] in Hs. apply StronglySorted_inv in Hs as [Hs Hx].
      apply elem_of_cons in Ha as [-> | Ha]; [|exact (IH Hs Ha Hb)].
      rewrite Forall_forall in Hx. apply Hx, elem_of_app. right. exact Hb.
  - intros k. unfold with_impact. rewrite firstn_skipn.
    apply (sorted_desc_stable impact_of).
Qed.

Lemma top_impact_spec_witness :
  top_impact three_records
  = Some [result (py "b") (py "Tense") 9 ∪ sample_article;
          result (py "a") (py "Neutral") 5 ∪ sample_article;
          result (py "c") (py "neutral") 5 ∪ sample_article]
  ∧ ∃ top rest,
      top_impact three_records = Some top
      ∧ length top = Nat.min 3 (length three_records)
      ∧ Permutation (top ++ rest) three_records
      ∧ StronglySorted (fun a b => (impact_of b <= impact_of a)%Z) (top ++ rest)
      ∧ (∀ a b, a ∈ top → b ∈ rest → (impact_of b <= impact_of a)%Z)
      ∧ (∀ k, with_impact k (top ++ rest) = with_impact k three_records).
Proof.
  split; [vm_compute; reflexivity|].
  apply (top_impact_spec three_records).
  repeat constructor; eexists; vm_compute; reflexivity.
Defined.

Section Chart.

Variable rt : runtime.

Lemma chart_label_returns (article : pydict) :
  sentiment_is_text article →
  ∃ label, chart_label rt article = Ret label ∧ label ∈ chart_labels.
Proof.
  unfold chart_label, chart_labels. unfold_monad.
  intros [-> | [s ->]]; cbn [from_option id lower_of].
  - eexists. split; [reflexivity|]. vm_compute lower.
    repeat (destruct (contains _ _)); set_solver.
  - eexists. split; [reflexivity|].
    repeat (destruct (contains _ _)); set_solver.
Qed.

(** The loop adds one to the count of each record's label. *)
Lemma count_sentiments_spec (records : list pydict) :
  Forall sentiment_is_text records →
  ∀ counts,
  (∀ label n, counts !! label = Some n → (0 < n)%Z) →
  ∃ m,
    count_sentiments rt records counts = Ret m
    ∧ (∀ label,
          from_option id 0%Z (m !! label)
          = (from_option id 0 (counts !! label) + count_of rt label records)%Z)
    ∧ (∀ label n, m !! label = Some n → (0 < n)%Z)
    ∧ dom m ⊆ dom counts ∪ chart_labels.
Proof.
  induction 1 as [|r records Hr _ IH]; intros counts Hpos.
  - exists counts. cbn. split; [reflexivity|].
    split; [intros label; unfold count_of; cbn; lia|].
    split; [exact Hpos|set_solver].
  - cbn [count_sentiments]. unfold_monad.
    destruct (chart_label_returns r Hr) as (l & Hl & Hin). rewrite Hl.
    destruct (IH (<[l := (from_option id 0 (counts !! l) + 1)%Z]> counts))
      as (m & -> & Hm & Hmpos & Hdom).
    { intros label n. destruct (decide (l = label)) as [->|Hne].
      - rewrite lookup_insert_eq. intros [= <-].
        destruct (counts !! label) as [c|] eqn:E; cbn; [|lia].
        specialize (Hpos _ _ E). lia.
      - rewrite lookup_insert_ne by exact Hne. apply Hpos. }
    exists m. split; [reflexivity|]. split; [|split; [exact Hmpos|]].
    + intros label. rewrite Hm. unfold count_of. cbn [List.filter].
      unfold counted_as at 2. rewrite Hl.
      destruct (decide (l = label)) as [->|Hne].
      * rewrite lookup_insert_eq, bool_decide_eq_true_2 by reflexivity.
        cbn [from_option id length]. lia.
      * rewrite lookup_insert_ne, bool_decide_eq_false_2 by exact Hne.
        lia.
    + rewrite dom_insert in Hdom. intros x Hx. apply Hdom in Hx.
      rewrite !elem_of_union, elem_of_singleton in Hx. rewrite elem_of_union.
      destruct Hx as [[-> | Hx] | Hx]; auto.
Qed.

(** Each record is counted under exactly one of the four labels. *)
Lemma counts_add_up (records : list pydict) :
  Forall sentiment_is_text records →
  (count_of rt (py "Positive") records + count_of rt (py "Negative") records
   + count_of rt (py "Tense") records + count_of rt (py "Neutral") records
   = Z.of_nat (length records))%Z.
Proof.
  induction 1 as [|r records Hr _ IH]; [reflexivity|].
  unfold count_of in *. cbn [List.filter length].
  destruct (chart_label_returns r Hr) as (l & Hl & Hin).
  assert (Hc : ∀ label, counted_as rt label r = bool_decide (l = label))
    by (intros label; unfold counted_as; rewrite Hl; reflexivity).
  rewrite !Hc. unfold chart_labels in Hin.
  assert (Hcase : l = py "Positive" ∨ l = py "Negative" ∨ l = py "Tense"
                  ∨ l = py "Neutral")
    by (rewrite !elem_of_union, !elem_of_singleton in Hin; tauto).
  destruct Hcase as [-> | [-> | [-> | ->]]];
    repeat first
      [ rewrite bool_decide_eq_true_2 by reflexivity
      | rewrite bool_decide_eq_false_2 by (vm_compute; discriminate) ];
    cbn [length]; lia.
Qed.

End Chart.

(** X19: the sentiment chart.  On records whose sentiment is a string
    or missing, the loop returns a table that holds, for each of
    Positive, Negative, Tense and Neutral, the number of records counted
    under that label, has an entry exactly for the labels that occur, and
    whose counts add up to the number of records. *)
Theorem sentiment_counts_spec (rt : runtime) (records : list pydict) :
  Forall sentiment_is_text records →
  ∃ m,
    count_sentiments rt records ∅ = Ret m
    ∧ (∀ label, from_option id 0%Z (m !! label) = count_of rt label records)
    ∧ (∀ label, is_Some (m !! label) ↔ (0 < count_of rt label records)%Z)
    ∧ dom m ⊆ chart_labels
    ∧ (count_of rt (py "Positive") records + count_of rt (py "Negative") records
       + count_of rt (py "Tense") records + count_of rt (py "Neutral") records
       = Z.of_nat (length records))%Z.
Proof.
  intros Hall.
  destruct (count_sentiments_spec rt records Hall ∅)
    as (m & Hm & Hcount & Hpos & Hdom).
  { intros label n. rewrite lookup_empty. discriminate. }
  exists m. split; [exact Hm|].
  assert (Hc : ∀ label,
             from_option id 0%Z (m !! label) = count_of rt label records).
  { intros label. rewrite Hcount, lookup_empty. cbn. lia. }
  split; [exact Hc|]. split; [|split].
  - intros label. rewrite <- Hc. split.
    + intros [n Hn]. rewrite Hn. cbn. exact (Hpos _ _ Hn).
    + destruct (m !! label); [eauto|cbn; lia].
  - rewrite dom_empty in Hdom. set_solver.
  - apply counts_add_up, Hall.
Qed.

Lemma sentiment_counts_spec_witness :
  count_sentiments ascii_runtime three_records ∅
  = Ret (<[py "Neutral" := 2%Z]> (<[py "Tense" := 1%Z]> ∅))
  ∧ ∃ m,
      count_sentiments ascii_runtime three_records ∅ = Ret m
      ∧ (∀ label,
            from_option id 0%Z (m !! label)
            = count_of ascii_runtime label three_records)
      ∧ (∀ label, is_Some (m !! label)
                  ↔ (0 < count_of ascii_runtime label three_records)%Z)
      ∧ dom m ⊆ chart_labels
      ∧ (count_of ascii_runtime (py "Positive") three_records
         + count_of ascii_runtime (py "Negative") three_records
         + count_of ascii_runtime (py "Tense") three_records
         + count_of ascii_runtime (py "Neutral") three_records
         = Z.of_nat (length three_records))%Z.
Proof.
  split; [vm_compute; reflexivity|].
  apply (sentiment_counts_spec ascii_runtime three_records).
  unfold three_records.
  do 3 (constructor;
        [right; eexists; apply lookup_union_Some_l, result_sentiment|]).
  constructor.
Defined.

Section Pipeline.

Variable rt : runtime.




End Pipeline.



(** X21: the impact bar of a score from 0 to 10 has ten cells, as many
    coloured as the score says, red from 7, yellow from 4 to 6 and green
    below; the division and multiplication in floating point lose
    nothing on these scores. *)
Theorem create_impact_bar_cells (score : Z) :
  (0 <= score <= 10)%Z →
  create_impact_bar score
  = Some (times (if (7 <=? score)%Z then 128997
                 else if (4 <=? score)%Z then 129000 else 129001) score
          ++ times 11036 (10 - score))
  ∧ ∀ bar, create_impact_bar score = Some bar → length bar = 10%nat.
Proof.
  intros H.
  assert (C : (score = 0 ∨ score = 1 ∨ score = 2 ∨ score = 3 ∨ score = 4
               ∨ score = 5 ∨ score = 6 ∨ score = 7 ∨ score = 8 ∨ score = 9
               ∨ score = 10)%Z) by lia.
  assert (E : create_impact_bar score
              = Some (times (if (7 <=? score)%Z then 128997
                             else if (4 <=? score)%Z then 129000 else 129001)
                        score
                      ++ times 11036 (10 - score))).
  { repeat (destruct C as [-> | C]; [vm_compute; reflexivity|]).
    subst score. vm_compute. reflexivity. }
  split; [exact E|].
  intros bar Hb. rewrite E in Hb. injection Hb as <-.
  unfold times. rewrite length_app, !repeat_length. lia.
Qed.

Lemma create_impact_bar_cells_witness :
  create_impact_bar 7
  = Some (times 128997 7 ++ times 11036 3)
  ∧ ∀ bar, create_impact_bar 7 = Some bar → length bar = 10%nat.
Proof.
  apply (create_impact_bar_cells 7). lia.
Defined.

(** ** The score and the sentiment are read whole *)

Section Whole.

Variable rt : runtime.

(** A star before a continuation that cannot fail takes all it can. *)
Lemma star_maximal (p : N → bool) (k : pystr → option capture) (s : pystr)
    (m : capture) :
  (∀ s', is_Some (k s')) →
  star p s k = Some m →
  ∃ s1 s2, s = s1 ++ s2 ∧ forallb p s1 = true ∧ stops p s2 ∧ k s2 = Some m.
Proof.
  intros Hk. induction s as [|c s IH]; cbn [star].
  - intros H. exists [], []. cbn. auto.
  - destruct (p c) eqn:Ec.
    + destruct (star p s k) as [m'|] eqn:Es.
      * intros [= ->]. destruct (IH eq_refl) as (s1 & s2 & -> & Hp & Hs & Hm).
        exists (c :: s1), s2. cbn. rewrite Ec, Hp. auto.
      * exfalso. clear IH. revert Es. induction s as [|x s IH]; cbn [star].
        -- destruct (Hk []) as [v ->]. discriminate.
        -- destruct (p x); [|destruct (Hk (x :: s)) as [v ->]; discriminate].
           destruct (star p s k); [discriminate|]. intros _. apply IH.
           reflexivity.
    + intros H. exists [], (c :: s). cbn. auto.
Qed.

(** A group around a greedy plus at the end of the pattern captures a
    maximal run of its class. *)
Lemma plus_group_maximal (p : N → bool) (s : pystr) (m : capture) :
  plus p s (fun s' => Some (Some (firstn (length s - length s') s))) = Some m →
  ∃ g post,
    m = Some g ∧ s = g ++ post ∧ g ≠ [] ∧ forallb p g = true ∧ stops p post.
Proof.
  destruct s as [|c s]; cbn [plus]; [discriminate|].
  destruct (p c) eqn:Ec; [|discriminate].
  intros H. apply star_maximal in H as (s1 & s2 & -> & Hp & Hs & Hm);
    [|eauto].
  pose proof (consumed (c :: s1) s2) as Hc. cbn [app] in Hc.
  rewrite Hc in Hm. injection Hm as <-.
  exists (c :: s1), s2. split; [reflexivity|]. split; [reflexivity|].
  split; [discriminate|]. cbn. rewrite Ec, Hp. auto.
Qed.

(** What a run of literals matched is an occurrence of them. *)
Lemma str_match_marker (cs s rest : pystr) :
  str_match rt ignorecase cs s = Some rest →
  ∃ m, s = m ++ rest ∧ is_marker rt cs m.
Proof.
  unfold is_marker. revert s.
  induction cs as [|p cs IH]; intros s; cbn [str_match].
  - intros [= ->]. exists []. auto.
  - destruct s as [|c s]; [discriminate|].
    destruct (lit_match rt ignorecase p c) eqn:E; [|discriminate].
    intros H. destruct (IH s H) as (m & -> & Hm).
    exists (c :: m). cbn [app str_match]. rewrite E. auto.
Qed.

Lemma match_here_score_whole (s : pystr) (m : capture) :
  match_here rt ignorecase score_re s = Some m →
  ∃ m1 c m2 ws digits post,
    m = Some digits
    ∧ s = m1 ++ c :: m2 ++ ws ++ digits ++ post
    ∧ is_marker rt (py "IMPACT") m1
    ∧ atom_match rt ignorecase (OneOf (py "_ ")) c = true
    ∧ is_marker rt (py "SCORE:") m2
    ∧ forallb (isspace rt) ws = true
    ∧ digits ≠ []
    ∧ forallb (isdigit rt) digits = true
    ∧ stops (isdigit rt) post.
Proof.
  unfold match_here, score_re. cbn [exec].
  destruct (str_match rt ignorecase (py "IMPACT") s) as [[|c s1]|] eqn:E1;
    try discriminate.
  destruct (atom_match rt ignorecase (OneOf (py "_ ")) c) eqn:Ec;
    [|discriminate].
  destruct (str_match rt ignorecase (py "SCORE:") s1) as [s2|] eqn:E2;
    [|discriminate].
  intros H. apply star_inv in H as (ws & s3 & -> & Hws & H).
  apply plus_group_maximal in H as (g & post & -> & -> & Hne & Hg & Hpost).
  destruct (str_match_marker _ _ _ E1) as (m1 & -> & Hm1).
  destruct (str_match_marker _ _ _ E2) as (m2 & -> & Hm2).
  exists m1, c, m2, ws, g, post. repeat (split; [first [reflexivity|assumption]|]).
  assumption.
Qed.

Lemma match_here_sentiment_whole (s : pystr) (m : capture) :
  match_here rt ignorecase sentiment_re s = Some m →
  ∃ m1 ws word post,
    m = Some word
    ∧ s = m1 ++ ws ++ word ++ post
    ∧ is_marker rt (py "SENTIMENT:") m1
    ∧ forallb (isspace rt) ws = true
    ∧ word ≠ []
    ∧ forallb (isword rt) word = true
    ∧ stops (isword rt) post.
Proof.
  unfold match_here, sentiment_re. cbn [exec].
  destruct (str_match rt ignorecase (py "SENTIMENT:") s) as [s1|] eqn:E1;
    [|discriminate].
  intros H. apply star_inv in H as (ws & s3 & -> & Hws & H).
  apply plus_group_maximal in H as (g & post & -> & -> & Hne & Hg & Hpost).
  destruct (str_match_marker _ _ _ E1) as (m1 & -> & Hm1).
  exists m1, ws, g, post. repeat (split; [first [reflexivity|assumption]|]).
  assumption.
Qed.

End Whole.

(** X22: the impact score is read whole.  When the score pattern finds
    nothing the score is 5; otherwise the reply holds IMPACT, an
    underscore or a space, SCORE: (in any case), white space or none, and
    then the digits that were read: at least one, all of them digits, and
    followed by no further digit, so that 12 is never read as 1; the score
    is the value of these digits brought into the range from 1 to 10. *)
Theorem impact_score_read_whole (rt : runtime) (text : pystr) (n : Z) :
  extract_impact_score rt text = Ret n →
  (search rt ignorecase score_re text = None ∧ n = 5%Z)
  ∨ ∃ pre m1 c m2 ws digits post v,
      text = pre ++ m1 ++ c :: m2 ++ ws ++ digits ++ post
      ∧ is_marker rt (py "IMPACT") m1
      ∧ atom_match rt ignorecase (OneOf (py "_ ")) c = true
      ∧ is_marker rt (py "SCORE:") m2
      ∧ forallb (isspace rt) ws = true
      ∧ digits ≠ []
      ∧ forallb (isdigit rt) digits = true
      ∧ stops (isdigit rt) post
      ∧ digits_value rt 0 digits = Some v
      ∧ n = Z.max 1 (Z.min 10 v).
Proof.
  unfold extract_impact_score. unfold_monad.
  destruct (search rt ignorecase score_re text) as [m|] eqn:E.
  - destruct (search_inv rt _ _ _ _ E) as (pre & s' & -> & Hm).
    destruct (match_here_score_whole rt _ _ Hm)
      as (m1 & c & m2 & ws & g & post & -> & -> & H1 & Hc & H2 & Hws & Hne
          & Hg & Hpost).
    cbn [group1]. unfold int. destruct g as [|d g]; [contradiction|].
    destruct (digits_value rt 0 (d :: g)) as [v|] eqn:Ev; [|discriminate].
    destruct (over_digit_limit rt (length (d :: g))); [discriminate|].
    intros [= <-]. right.
    exists pre, m1, c, m2, ws, (d :: g), post, v.
    repeat (split; [first [reflexivity|assumption]|]). reflexivity.
  - intros [= <-]. left. auto.
Qed.

Lemma impact_score_read_whole_witness :
  (search ascii_runtime ignorecase score_re (py "Impact score:  12 of 10") = None
   ∧ 10%Z = 5%Z)
  ∨ ∃ pre m1 c m2 ws digits post v,
      py "Impact score:  12 of 10"
      = pre ++ m1 ++ c :: m2 ++ ws ++ digits ++ post
      ∧ is_marker ascii_runtime (py "IMPACT") m1
      ∧ atom_match ascii_runtime ignorecase (OneOf (py "_ ")) c = true
      ∧ is_marker ascii_runtime (py "SCORE:") m2
      ∧ forallb (isspace ascii_runtime) ws = true
      ∧ digits ≠ []
      ∧ forallb (isdigit ascii_runtime) digits = true
      ∧ stops (isdigit ascii_runtime) post
      ∧ digits_value ascii_runtime 0 digits = Some v
      ∧ 10%Z = Z.max 1 (Z.min 10 v).
Proof.
  apply (impact_score_read_whole ascii_runtime (py "Impact score:  12 of 10")).
  vm_compute. reflexivity.
Defined.

(** X23: the sentiment word is read whole.  When the sentiment pattern
    finds nothing the sentiment is neutral; otherwise the reply holds
    SENTIMENT: (in any case), white space or none, and then the word that
    was read: at least one word character, followed by no further one, so
    that tense_1 or positively is never taken for tense or positive; the
    sentiment is that word in lower case when it is one of the four, and
    neutral when it is not. *)
Theorem sentiment_read_whole (rt : runtime) (text sentiment : pystr) :
  extract_sentiment rt text = Ret sentiment →
  (search rt ignorecase sentiment_re text = None ∧ sentiment = py "neutral")
  ∨ ∃ pre m1 ws word post,
      text = pre ++ m1 ++ ws ++ word ++ post
      ∧ is_marker rt (py "SENTIMENT:") m1
      ∧ forallb (isspace rt) ws = true
      ∧ word ≠ []
      ∧ forallb (isword rt) word = true
      ∧ stops (isword rt) post
      ∧ sentiment = (if bool_decide (lower rt (strip rt word) ∈ sentiments)
                     then lower rt (strip rt word) else py "neutral").
Proof.
  unfold extract_sentiment. unfold_monad.
  destruct (search rt ignorecase sentiment_re text) as [m|] eqn:E.
  - destruct (search_inv rt _ _ _ _ E) as (pre & s' & -> & Hm).
    destruct (match_here_sentiment_whole rt _ _ Hm)
      as (m1 & ws & g & post & -> & -> & H1 & Hws & Hne & Hg & Hpost).
    cbn [group1]. intros [= <-]. right.
    exists pre, m1, ws, g, post.
    repeat (split; [first [reflexivity|assumption]|]). reflexivity.
  - intros H. left. split; [reflexivity|].
    injection H as <-. reflexivity.
Qed.

Lemma sentiment_read_whole_witness :
  (search ascii_runtime ignorecase sentiment_re (py "Sentiment: Tense_1 x") = None
   ∧ py "neutral" = py "neutral")
  ∨ ∃ pre m1 ws word post,
      py "Sentiment: Tense_1 x" = pre ++ m1 ++ ws ++ word ++ post
      ∧ is_marker ascii_runtime (py "SENTIMENT:") m1
      ∧ forallb (isspace ascii_runtime) ws = true
      ∧ word ≠ []
      ∧ forallb (isword ascii_runtime) word = true
      ∧ stops (isword ascii_runtime) post
      ∧ py "neutral"
        = (if bool_decide (lower ascii_runtime (strip ascii_runtime word)
                           ∈ sentiments)
           then lower ascii_runtime (strip ascii_runtime word)
           else py "neutral").
Proof.
  apply (sentiment_read_whole ascii_runtime (py "Sentiment: Tense_1 x")).
  vm_compute. reflexivity.
Defined.

(** ** The summary holds no sentiment marker *)

Section Clean.

Variable rt : runtime.
Variable fl : flags.

(** A run of literals that matches a text matches every text that
    starts with it. *)
Lemma str_match_extend (cs a b rest : pystr) :
  str_match rt fl cs a = Some rest →
  str_match rt fl cs (a ++ b) = Some (rest ++ b).
Proof.
  revert a. induction cs as [|p cs IH]; intros a; cbn [str_match].
  - intros [= ->]. reflexivity.
  - destruct a as [|c a]; [discriminate|]. cbn [app].
    destruct (lit_match rt fl p c); [apply IH|discriminate].
Qed.

Lemma str_match_start (cs a b : pystr) :
  str_match rt fl cs (a ++ b) = None → str_match rt fl cs a = None.
Proof.
  intros H. destruct (str_match rt fl cs a) as [rest|] eqn:E; [|reflexivity].
  rewrite (str_match_extend cs a b rest E) in H. discriminate.
Qed.

End Clean.

Section CleanSummary.

Variable rt : runtime.

Lemma before_marker_prefix (marker s : pystr) :
  ∃ t, s = before_marker rt marker s ++ t.
Proof.
  induction s as [|c s [t IH]]; cbn [before_marker].
  - destruct (str_match rt dotall_ignorecase marker []); exists []; reflexivity.
  - destruct (str_match rt dotall_ignorecase marker (c :: s)).
    + exists (c :: s). reflexivity.
    + exists t. cbn [app]. rewrite <- IH. reflexivity.
Qed.

(** No marker begins inside the text that [before_marker] returns. *)
Lemma before_marker_clean (marker : pystr) (s : pystr) :
  marker ≠ [] →
  ∀ pre post,
  before_marker rt marker s = pre ++ post →
  str_match rt dotall_ignorecase marker post = None.
Proof.
  intros Hm. induction s as [|c s IH]; intros pre post E.
  - assert (post = []) as ->.
    { cbn [before_marker] in E.
      destruct (str_match rt dotall_ignorecase marker []);
        symmetry in E; apply app_eq_nil in E; tauto. }
    destruct marker; [contradiction|reflexivity].
  - pose proof (before_marker_prefix marker (c :: s)) as [t Ht].
    cbn [before_marker] in E, Ht.
    destruct (str_match rt dotall_ignorecase marker (c :: s)) eqn:Em.
    + symmetry in E. apply app_eq_nil in E as [_ ->].
      destruct marker; [contradiction|reflexivity].
    + destruct pre as [|x pre].
      * cbn [app] in E. subst post.
        apply (str_match_start rt dotall_ignorecase marker _ t).
        rewrite <- Ht. exact Em.
      * cbn [app] in E. injection E as _ E. exact (IH pre post E).
Qed.

Lemma rstrip_prefix (s : pystr) : ∃ u, s = rstrip rt s ++ u.
Proof.
  unfold rstrip. destruct (lstrip_suffix rt (rev s)) as [pre E].
  exists (rev pre). apply (f_equal (@rev N)) in E.
  rewrite rev_involutive, rev_app_distr in E. exact E.
Qed.

(** The summary the pattern takes has no SENTIMENT: marker past its
    first character. *)
Lemma summary_as_matched_clean (text : pystr) :
  summary_as_matched rt text = py "Summary not available."
  ∨ ∀ pre post,
      summary_as_matched rt text = pre ++ post → pre ≠ [] →
      str_match rt dotall_ignorecase (py "SENTIMENT:") post = None.
Proof.
  unfold summary_as_matched.
  destruct (after_marker rt (py "SUMMARY:") text) as [rest|]; [|left; reflexivity].
  destruct (lstrip rt rest) as [|c rest'] eqn:E; [left; reflexivity|].
  right. intros pre post Hs Hpre.
  unfold strip in Hs. cbn [lstrip] in Hs.
  rewrite (lstrip_head rt _ _ _ E) in Hs.
  destruct (rstrip_prefix (c :: before_marker rt (py "SENTIMENT:") rest'))
    as [u Hu].
  rewrite Hs in Hu. destruct pre as [|x pre]; [contradiction|].
  cbn [app] in Hu. injection Hu as _ Hu. rewrite <- app_assoc in Hu.
  apply (str_match_start rt dotall_ignorecase _ post u).
  apply (before_marker_clean (py "SENTIMENT:") rest'
           ltac:(vm_compute; discriminate) pre (post ++ u) Hu).
Qed.

End CleanSummary.

(** X24: the summary of a parsed reply is the fallback text Summary not
    available., or a text in which no SENTIMENT: marker, in any case,
    begins after the first character: the sentiment line never ends up
    inside the summary, except at its very start when nothing stood
    between the two markers. *)
Theorem summary_holds_no_marker (rt : runtime) (text : pystr) (r : pydict) :
  parse_reply rt text = Ret r →
  ∃ summary,
    r !! py "summary" = Some (PStr summary)
    ∧ (summary = py "Summary not available."
       ∨ ∀ pre post,
           summary = pre ++ post → pre ≠ [] →
           str_match rt dotall_ignorecase (py "SENTIMENT:") post = None).
Proof.
  intros H.
  destruct (parse_reply_shape rt text r H) as (s & t & n & -> & Hs & _).
  rewrite extract_summary_matched in Hs. injection Hs as <-.
  exists (summary_as_matched rt (strip rt text)).
  split; [apply result_summary|apply summary_as_matched_clean].
Qed.

Lemma summary_holds_no_marker_witness :
  ∃ summary,
    result (py "X. Y.") (py "Positive") 10 !! py "summary" = Some (PStr summary)
    ∧ (summary = py "Summary not available."
       ∨ ∀ pre post,
           summary = pre ++ post → pre ≠ [] →
           str_match ascii_runtime dotall_ignorecase (py "SENTIMENT:") post
           = None).
Proof.
  apply (summary_holds_no_marker ascii_runtime scenario_reply).
  vm_compute. reflexivity.
Defined.

(** X25: a success payload without a list of results.  When results is
    missing, or is an empty string or an empty object, the adapter
    returns the empty list in silence; when it is null, a number or a
    boolean, or a string or an object that is not empty, the adapter
    returns the empty list and writes one error, because the loop cannot
    run over it or its items are no dicts. *)
Theorem fetch_news_results_shapes (rt : runtime) (http : transport)
    (query api_key : pystr) (max_results : Z) (page : list diagnostic)
    (data : pydict) :
  answers http base_url (params_of query api_key max_results) (PDict data) →
  data !! py "status" = Some (PStr (py "success")) →
  (data !! py "results" = None
   ∨ data !! py "results" = Some (PStr [])
   ∨ data !! py "results" = Some (PDict ∅) →
   fetch_news rt http query api_key max_results page = (Ret [], page))
  ∧ (data !! py "results" = Some PNone
     ∨ (∃ b, data !! py "results" = Some (PBool b))
     ∨ (∃ n, data !! py "results" = Some (PInt n))
     ∨ (∃ f, data !! py "results" = Some (PFloat f)) →
     fetch_news rt http query api_key max_results page
     = (Ret [], page ++ [unexpected_error rt TypeError]))
  ∧ (∀ c s, data !! py "results" = Some (PStr (c :: s)) →
            fetch_news rt http query api_key max_results page
            = (Ret [], page ++ [unexpected_error rt AttributeError]))
  ∧ (∀ d, data !! py "results" = Some (PDict d) → d ≠ ∅ →
          fetch_news rt http query api_key max_results page
          = (Ret [], page ++ [unexpected_error rt AttributeError])).
Proof.
  intros (resp & Hr & Hs & Hj) Hst.
  assert (Hne : ne_str (PStr (py "success")) (py "success") = false)
    by (apply ne_str_false; reflexivity).
  assert (Hbody : ∀ results,
            from_option id (PList []) (data !! py "results") = results →
            fetch_news rt http query api_key max_results page
            = try_except
                (items ← lift (iterate results); lift (fetch_loop items []))
                (fetch_handler rt) page).
  { intros results <-. unfold fetch_news, try_except, fetch_body.
    unfold_monad. rewrite Hr, Hs, Hj, !get_dict, Hst.
    cbn [from_option id]. rewrite Hne. reflexivity. }
  split; [|split; [|split]].
  - intros [H | [H | H]]; (erewrite Hbody; [|rewrite H; reflexivity]);
      try reflexivity;
      unfold try_except, iterate; unfold_monad; rewrite map_to_list_empty;
      reflexivity.
  - intros [H | [[b H] | [[n H] | [f H]]]];
      (erewrite Hbody; [|rewrite H; reflexivity]); reflexivity.
  - intros c s H. erewrite Hbody; [|rewrite H; reflexivity]. reflexivity.
  - intros d H Hd. erewrite Hbody; [|rewrite H; reflexivity].
    unfold try_except, iterate. unfold_monad. cbn [from_option id].
    destruct (map_to_list d) as [|[k v] l] eqn:E.
    + apply map_to_list_empty_iff in E. contradiction.
    + reflexivity.
Qed.

Lemma fetch_news_results_shapes_witness :
  fetch_news ascii_runtime
    (serving (PDict (<[py "status" := PStr (py "success")]> ∅)))
    (py "q") (py "k") 10 [] = (Ret [], [])
  ∧ fetch_news ascii_runtime
      (serving (PDict (<[py "status" := PStr (py "success")]>
                         (<[py "results" := PNone]> ∅))))
      (py "q") (py "k") 10 []
    = (Ret [], [] ++ [unexpected_error ascii_runtime TypeError])
  ∧ fetch_news ascii_runtime
      (serving (PDict (<[py "status" := PStr (py "success")]>
                         (<[py "results" := PStr (97 :: [])]> ∅))))
      (py "q") (py "k") 10 []
    = (Ret [], [] ++ [unexpected_error ascii_runtime AttributeError])
  ∧ fetch_news ascii_runtime
      (serving (PDict (<[py "status" := PStr (py "success")]>
                         (<[py "results" := PDict full_item]> ∅))))
      (py "q") (py "k") 10 []
    = (Ret [], [] ++ [unexpected_error ascii_runtime AttributeError]).
Proof.
  split; [|split; [|split]].
  - apply (proj1 (fetch_news_results_shapes ascii_runtime (serving _) (py "q")
                    (py "k") 10 [] (<[py "status" := PStr (py "success")]> ∅)
                    ltac:(eexists; repeat split; reflexivity) eq_refl)).
    left. reflexivity.
  - apply (proj1 (proj2 (fetch_news_results_shapes ascii_runtime (serving _)
                           (py "q") (py "k") 10 []
                           (<[py "status" := PStr (py "success")]>
                              (<[py "results" := PNone]> ∅))
                           ltac:(eexists; repeat split; reflexivity) eq_refl))).
    left. reflexivity.
  - apply (proj1 (proj2 (proj2 (fetch_news_results_shapes ascii_runtime
                                  (serving _) (py "q") (py "k") 10 []
                                  (<[py "status" := PStr (py "success")]>
                                     (<[py "results" := PStr (97 :: [])]> ∅))
                                  ltac:(eexists; repeat split; reflexivity)
                                  eq_refl))) 97 []).
    reflexivity.
  - apply (proj2 (proj2 (proj2 (fetch_news_results_shapes ascii_runtime
                                  (serving _) (py "q") (py "k") 10 []
                                  (<[py "status" := PStr (py "success")]>
                                     (<[py "results" := PDict full_item]> ∅))
                                  ltac:(eexists; repeat split; reflexivity)
                                  eq_refl))) full_item).
    + reflexivity.
    + vm_compute. discriminate.
Defined.

(** *** A blank summary *)

(** When, after its white space, the text goes on with the marker, the
    text up to the marker is blank. *)
Lemma before_marker_blank (rt : runtime) (marker rest : pystr) :
  is_Some (str_match rt dotall_ignorecase marker (lstrip rt rest)) →
  strip rt (before_marker rt marker rest) = [].
Proof.
  induction rest as [|x rest IH]; cbn [lstrip before_marker].
  - intros _. destruct (str_match rt dotall_ignorecase marker []); reflexivity.
  - destruct (str_match rt dotall_ignorecase marker (x :: rest)) eqn:Em.
    { intros _. reflexivity. }
    destruct (isspace rt x) eqn:Hx.
    + intros H. rewrite (strip_space_cons rt x _ Hx). exact (IH H).
    + rewrite Em. intros [? [=]].
Qed.

(** X26: a reply with a blank summary.  When only white space stands
    between SUMMARY: and a SENTIMENT: marker, the summary of the parsed
    reply is not blank and is not the fallback text: it begins with the
    first character of that marker and runs on, through the sentiment
    line, up to the next SENTIMENT: marker or to the end; the text
    between the two markers, trimmed, is empty. *)
Theorem blank_summary_takes_sentiment_line (rt : runtime) (text rest : pystr)
    (r : pydict) :
  parse_reply rt text = Ret r →
  after_marker rt (py "SUMMARY:") (strip rt text) = Some rest →
  is_Some (str_match rt dotall_ignorecase (py "SENTIMENT:") (lstrip rt rest)) →
  ∃ c rest' t,
    lstrip rt rest = c :: rest'
    ∧ r !! py "summary" = Some (PStr (c :: t))
    ∧ c :: t = strip rt (c :: before_marker rt (py "SENTIMENT:") rest')
    ∧ summary_as_specified rt (strip rt text) = [].
Proof.
  intros Hr Ha Hm.
  destruct (parse_reply_shape rt _ _ Hr) as (s & sentiment & n & -> & Hs & _).
  rewrite extract_summary_matched in Hs. injection Hs as <-.
  unfold summary_as_matched, summary_as_specified. rewrite Ha.
  destruct (lstrip rt rest) as [|c rest'] eqn:El.
  { destruct Hm as [? Hm]. vm_compute in Hm. discriminate. }
  destruct (strip_head rt c (before_marker rt (py "SENTIMENT:") rest')
              (lstrip_head rt _ _ _ El)) as [t Et].
  exists c, rest', t. split; [reflexivity|].
  split; [rewrite result_summary, Et; reflexivity|].
  split; [symmetry; exact Et|].
  apply before_marker_blank. rewrite El. exact Hm.
Qed.

Lemma blank_summary_takes_sentiment_line_witness :
  analyze_article ascii_runtime (answering blank_summary_reply) sample_article
    [] []
  = (Ret (Some (result (py "SENTIMENT: Positive" ++ nl ++ py "IMPACT_SCORE: 7")
                  (py "Positive") 7)), [])
  ∧ ∃ c rest' t,
      lstrip ascii_runtime (nl ++ py "SENTIMENT: Positive" ++ nl
                            ++ py "IMPACT_SCORE: 7") = c :: rest'
      ∧ result (py "SENTIMENT: Positive" ++ nl ++ py "IMPACT_SCORE: 7")
          (py "Positive") 7 !! py "summary" = Some (PStr (c :: t))
      ∧ c :: t = strip ascii_runtime
                   (c :: before_marker ascii_runtime (py "SENTIMENT:") rest')
      ∧ summary_as_specified ascii_runtime
          (strip ascii_runtime blank_summary_reply) = [].
Proof.
  split; [vm_compute; reflexivity|].
  apply (blank_summary_takes_sentiment_line ascii_runtime blank_summary_reply).
  - vm_compute. reflexivity.
  - vm_compute. reflexivity.
  - eexists. vm_compute. reflexivity.
Defined.
